(** * habits_tracker: the command line habit tracker over sqlite3

    A shallow embedding of [src/habits_tracker/cli.py] together with a model
    of the two libraries whose behaviour the program's properties rest on:
    the sqlite3 engine (for the statements this program issues) and
    pydantic's field validation (for [Habit]).

    Layout:
    - [Py]        Python values and the text an f-string gives them;
    - [Sqlite]    tokenizer, parser and executor for the SQL fragment in use;
    - [Pydantic]  the [str] and [bool] validators;
    - the program itself, function by function, in a state-and-exception
      monad over the file system, the open connection, the logging
      configuration and the two output streams;
    - the properties. *)

From Stdlib Require Import ZArith NArith Ascii String List Bool Lia.
From stdpp Require Import gmap strings list fin_maps pretty.
Import ListNotations.

Local Open Scope string_scope.
Local Open Scope N_scope.
Local Open Scope list_scope.

(* ===================================================================== *)
(** ** Characters and strings *)
(* ===================================================================== *)

Module Chars.

Definition code (c : ascii) : N := N_of_ascii c.

(** The double quote and NUL. *)
Definition dquote : ascii := ascii_of_N 34.
Definition nul : ascii := ascii_of_N 0.

Definition is_digit (c : ascii) : bool := (48 <=? code c) && (code c <=? 57).
Definition is_upper (c : ascii) : bool := (65 <=? code c) && (code c <=? 90).
Definition is_lower (c : ascii) : bool := (97 <=? code c) && (code c <=? 122).
Definition is_alpha (c : ascii) : bool := is_upper c || is_lower c.

Definition to_upper (c : ascii) : ascii :=
  if is_lower c then ascii_of_N (code c - 32) else c.
Definition to_lower (c : ascii) : ascii :=
  if is_upper c then ascii_of_N (code c + 32) else c.

Fixpoint string_map (f : ascii -> ascii) (s : string) : string :=
  match s with
  | EmptyString => EmptyString
  | String c s' => String (f c) (string_map f s')
  end.

Definition upper : string -> string := string_map to_upper.
Definition lower : string -> string := string_map to_lower.

Fixpoint string_forall (p : ascii -> bool) (s : string) : bool :=
  match s with
  | EmptyString => true
  | String c s' => p c && string_forall p s'
  end.

Definition string_exists (p : ascii -> bool) (s : string) : bool :=
  negb (string_forall (fun c => negb (p c)) s).

(** [snoc s c] is [s] with [c] added at its end. *)
Definition snoc (s : string) (c : ascii) : string := s +:+ String c EmptyString.

(** [quoted s] is [s] between two double quotes: the f-string ['"{x}"']. *)
Definition quoted (s : string) : string := String dquote (s +:+ String dquote EmptyString).

(** Does [sub] occur in [s]? *)
Fixpoint is_infix (sub s : string) : bool :=
  String.prefix sub s ||
  match s with
  | EmptyString => false
  | String _ s' => is_infix sub s'
  end.

(** [", ".join(parts)] *)
Fixpoint join (sep : string) (parts : list string) : string :=
  match parts with
  | [] => EmptyString
  | [p] => p
  | p :: ps => p +:+ sep +:+ join sep ps
  end.

(** Texts are the bytes the program is given.  Python decodes the
    command line as UTF-8 and keeps a byte that is not part of a
    well-formed sequence as a lone surrogate; such a text cannot be encoded
    as UTF-8 again, which is what sqlite3 does with every statement it is
    given.  The well-formed sequences are those of the Unicode standard: no
    overlong forms, no surrogates, nothing above U+10FFFF. *)
Inductive utf8_state : Type :=
| U0          (* between two characters *)
| U1          (* one continuation byte to come *)
| U2          (* two continuation bytes to come *)
| U3          (* three continuation bytes to come *)
| UE0         (* after 0xE0: the next byte is 0xA0..0xBF *)
| UED         (* after 0xED: the next byte is 0x80..0x9F *)
| UF0         (* after 0xF0: the next byte is 0x90..0xBF *)
| UF4.        (* after 0xF4: the next byte is 0x80..0x8F *)

Definition utf8_between (lo hi : N) (next : utf8_state) (c : ascii) : option utf8_state :=
  if (lo <=? code c) && (code c <=? hi) then Some next else None.

Definition utf8_step (s : utf8_state) (c : ascii) : option utf8_state :=
  match s with
  | U0 =>
      let n := code c in
      if n <=? 127 then Some U0
      else if (194 <=? n) && (n <=? 223) then Some U1
      else if n =? 224 then Some UE0
      else if n =? 237 then Some UED
      else if (225 <=? n) && (n <=? 239) then Some U2
      else if n =? 240 then Some UF0
      else if (241 <=? n) && (n <=? 243) then Some U3
      else if n =? 244 then Some UF4
      else None
  | U1 => utf8_between 128 191 U0 c
  | U2 => utf8_between 128 191 U1 c
  | U3 => utf8_between 128 191 U2 c
  | UE0 => utf8_between 160 191 U1 c
  | UED => utf8_between 128 159 U1 c
  | UF0 => utf8_between 144 191 U2 c
  | UF4 => utf8_between 128 143 U2 c
  end.

Fixpoint utf8_run (s : utf8_state) (t : string) : option utf8_state :=
  match t with
  | EmptyString => Some s
  | String c t' =>
      match utf8_step s c with
      | Some s' => utf8_run s' t'
      | None => None
      end
  end.

(** Is the text well-formed UTF-8, so that Python can encode it? *)
Definition valid_utf8 (t : string) : bool :=
  match utf8_run U0 t with
  | Some U0 => true
  | _ => false
  end.

(** A text without double quote, and one without NUL. *)
Definition no_dquote (s : string) : bool :=
  string_forall (fun c => negb (code c =? 34)) s.
Definition no_nul (s : string) : bool :=
  negb (string_exists (Ascii.eqb nul) s).

(** Texts that interpolation between double quotes leaves intact. *)
Definition plain (s : string) : bool := no_dquote s && no_nul s.

End Chars.

(* ===================================================================== *)
(** ** Python values *)
(* ===================================================================== *)

Module Py.

(** The Python values that reach the program: what click hands to the
    commands ([str], [bool], [None]) and what sqlite3 returns in a row
    ([None], [int], [str]).  Floats and bytes are left out. *)
Inductive value : Type :=
| PyNone
| PyBool (b : bool)
| PyInt (n : Z)
| PyStr (s : string).

(** [str(x)], which is also what an f-string field [{x}] produces. *)
Definition str (v : value) : string :=
  match v with
  | PyNone => "None"
  | PyBool true => "True"
  | PyBool false => "False"
  | PyInt n => pretty n
  | PyStr s => s
  end.

(** Truth value, for [if x:] and [not x]. *)
Definition truthy (v : value) : bool :=
  match v with
  | PyNone => false
  | PyBool b => b
  | PyInt n => negb (n =? 0)%Z
  | PyStr s => negb (String.eqb s EmptyString)
  end.

(** A keyword-argument dictionary; insertion order is kept, as in Python. *)
Definition kwargs : Type := list (string * value).

Fixpoint get (k : string) (d : kwargs) : option value :=
  match d with
  | [] => None
  | (k', v) :: d' => if String.eqb k k' then Some v else get k d'
  end.

(** [d.update({k: v})]: an existing key keeps its place, a new one goes last. *)
Fixpoint update (k : string) (v : value) (d : kwargs) : kwargs :=
  match d with
  | [] => [(k, v)]
  | (k', v') :: d' =>
      if String.eqb k k' then (k', v) :: d' else (k', v') :: update k v d'
  end.

End Py.

(* ===================================================================== *)
(** ** The sqlite3 engine, for the statements of this program *)
(* ===================================================================== *)

Module Sqlite.
Import Chars.

(** *** Tokens

    The tokenizer follows sqlite's [sqlite3GetToken] on the characters it
    models exactly: white space, the two comment forms, the five
    punctuation marks of the fragment, quoted strings and identifiers with
    their doubled-quote escape, unsigned integers, identifiers and
    keywords.  Every other lexeme becomes [TOther]; a statement whose
    parse reaches a [TOther] is outside the model. *)

Inductive token : Type :=
| TId (s : string)        (* bare identifier that is no keyword *)
| TKw (s : string)        (* keyword, in upper case *)
| TDq (s : string)        (* "..." with the quotes removed: an identifier token *)
| TStr (s : string)       (* '...' with the quotes removed: a string literal *)
| TInt (n : N)
| TLp | TRp | TComma | TSemi | TStar | TEq
| TIllegal                (* a quote that is never closed *)
| TOther.                 (* a lexeme the model does not cover *)

(** sqlite's keyword table. *)
Definition keywords : list string :=
  [ "ABORT"; "ACTION"; "ADD"; "AFTER"; "ALL"; "ALTER"; "ALWAYS"; "ANALYZE";
    "AND"; "AS"; "ASC"; "ATTACH"; "AUTOINCREMENT"; "BEFORE"; "BEGIN";
    "BETWEEN"; "BY"; "CASCADE"; "CASE"; "CAST"; "CHECK"; "COLLATE";
    "COLUMN"; "COMMIT"; "CONFLICT"; "CONSTRAINT"; "CREATE"; "CROSS";
    "CURRENT"; "CURRENT_DATE"; "CURRENT_TIME"; "CURRENT_TIMESTAMP";
    "DATABASE"; "DEFAULT"; "DEFERRABLE"; "DEFERRED"; "DELETE"; "DESC";
    "DETACH"; "DISTINCT"; "DO"; "DROP"; "EACH"; "ELSE"; "END"; "ESCAPE";
    "EXCEPT"; "EXCLUDE"; "EXCLUSIVE"; "EXISTS"; "EXPLAIN"; "FAIL";
    "FILTER"; "FIRST"; "FOLLOWING"; "FOR"; "FOREIGN"; "FROM"; "FULL";
    "GENERATED"; "GLOB"; "GROUP"; "GROUPS"; "HAVING"; "IF"; "IGNORE";
    "IMMEDIATE"; "IN"; "INDEX"; "INDEXED"; "INITIALLY"; "INNER"; "INSERT";
    "INSTEAD"; "INTERSECT"; "INTO"; "IS"; "ISNULL"; "JOIN"; "KEY"; "LAST";
    "LEFT"; "LIKE"; "LIMIT"; "MATCH"; "MATERIALIZED"; "NATURAL"; "NO";
    "NOT"; "NOTHING"; "NOTNULL"; "NULL"; "NULLS"; "OF"; "OFFSET"; "ON";
    "OR"; "ORDER"; "OTHERS"; "OUTER"; "OVER"; "PARTITION"; "PLAN";
    "PRAGMA"; "PRECEDING"; "PRIMARY"; "QUERY"; "RAISE"; "RANGE";
    "RECURSIVE"; "REFERENCES"; "REGEXP"; "REINDEX"; "RELEASE"; "RENAME";
    "REPLACE"; "RESTRICT"; "RETURNING"; "RIGHT"; "ROLLBACK"; "ROW"; "ROWS";
    "SAVEPOINT"; "SELECT"; "SET"; "TABLE"; "TEMP"; "TEMPORARY"; "THEN";
    "TIES"; "TO"; "TRANSACTION"; "TRIGGER"; "UNBOUNDED"; "UNION"; "UNIQUE";
    "UPDATE"; "USING"; "VACUUM"; "VALUES"; "VIEW"; "VIRTUAL"; "WHEN";
    "WHERE"; "WINDOW"; "WITH"; "WITHIN"; "WITHOUT" ].

Definition is_keyword (s : string) : bool := existsb (String.eqb s) keywords.

Definition ident_token (s : string) : token :=
  if is_keyword (upper s) then TKw (upper s) else TId s.

(** Character classes of the tokenizer. *)
Definition is_space (c : ascii) : bool :=
  let n := code c in
  (n =? 9) || (n =? 10) || (n =? 12) || (n =? 13) || (n =? 32).

(** [IdChar]: letters, digits, underscore, dollar and every byte from 0x80. *)
Definition is_idchar (c : ascii) : bool :=
  is_alpha c || is_digit c || (code c =? 95) || (code c =? 36) || (128 <=? code c).

(** A character that can start a bare identifier.  The byte 0xEF, which may
    start a byte-order mark, is left to [TOther]. *)
Definition is_idstart (c : ascii) : bool :=
  is_alpha c || (code c =? 95) || ((128 <=? code c) && negb (code c =? 239)).

(** The tokenizer as a machine that reads one character at a time. *)
Inductive mode : Type :=
| MStart
| MIdent (acc : string)
| MNum (acc : N)
| MDq (acc : string)      (* inside "..." *)
| MDqQ (acc : string)     (* inside "...", just after a double quote *)
| MSq (acc : string)      (* inside '...' *)
| MSqQ (acc : string)     (* inside '...', just after a single quote *)
| MMinus                  (* after one minus sign *)
| MLine                   (* inside a line comment *)
| MSlash                  (* after one slash *)
| MBlock0                 (* just after the opening of a block comment *)
| MBlock                  (* inside a block comment *)
| MBlockStar.             (* inside a block comment, just after a star *)

Definition digit_value (c : ascii) : N := code c - 48.

(** First character of a token. *)
Definition step_start (c : ascii) : list token * mode :=
  if is_space c then ([], MStart)
  else if code c =? 40 then ([TLp], MStart)
  else if code c =? 41 then ([TRp], MStart)
  else if code c =? 44 then ([TComma], MStart)
  else if code c =? 59 then ([TSemi], MStart)
  else if code c =? 42 then ([TStar], MStart)
  else if code c =? 61 then ([TEq], MStart)
  else if code c =? 45 then ([], MMinus)
  else if code c =? 47 then ([], MSlash)
  else if code c =? 34 then ([], MDq EmptyString)
  else if code c =? 39 then ([], MSq EmptyString)
  else if is_digit c then ([], MNum (digit_value c))
  else if is_idstart c then ([], MIdent (String c EmptyString))
  else ([TOther], MStart).

(** After a token that ends at the character before [c]. *)
Definition emit (t : token) (c : ascii) : list token * mode :=
  let '(ts, m) := step_start c in (t :: ts, m).

Definition is_x (s : string) : bool := String.eqb s "x" || String.eqb s "X".

Definition step (m : mode) (c : ascii) : list token * mode :=
  match m with
  | MStart => step_start c
  | MIdent acc =>
      if is_idchar c then ([], MIdent (snoc acc c))
      else if (code c =? 39) && is_x acc then ([TOther], MStart)  (* x'..' blob *)
      else emit (ident_token acc) c
  | MNum n =>
      if is_digit c then ([], MNum (10 * n + digit_value c))
      else if is_idchar c || (code c =? 46) then ([TOther], MStart)
      else emit (TInt n) c
  | MDq acc => if code c =? 34 then ([], MDqQ acc) else ([], MDq (snoc acc c))
  | MDqQ acc => if code c =? 34 then ([], MDq (snoc acc c)) else emit (TDq acc) c
  | MSq acc => if code c =? 39 then ([], MSqQ acc) else ([], MSq (snoc acc c))
  | MSqQ acc => if code c =? 39 then ([], MSq (snoc acc c)) else emit (TStr acc) c
  | MMinus => if code c =? 45 then ([], MLine) else emit TOther c
  | MLine => if code c =? 10 then ([], MStart) else ([], MLine)
  | MSlash => if code c =? 42 then ([], MBlock0) else emit TOther c
  | MBlock0 => if code c =? 42 then ([], MBlockStar) else ([], MBlock)
  | MBlock => if code c =? 42 then ([], MBlockStar) else ([], MBlock)
  | MBlockStar =>
      if code c =? 47 then ([], MStart)
      else if code c =? 42 then ([], MBlockStar)
      else ([], MBlock)
  end.

(** At the end of the text. *)
Definition finish (m : mode) : list token :=
  match m with
  | MStart | MLine | MBlock | MBlockStar => []
  | MIdent acc => [ident_token acc]
  | MNum n => [TInt n]
  | MDq _ | MSq _ => [TIllegal]
  | MDqQ acc => [TDq acc]
  | MSqQ acc => [TStr acc]
  | MMinus | MSlash | MBlock0 => [TOther]
  end.

Fixpoint lex_run (m : mode) (s : string) : list token * mode :=
  match s with
  | EmptyString => ([], m)
  | String c s' =>
      let '(ts, m1) := step m c in
      let '(ts', m2) := lex_run m1 s' in
      ((ts ++ ts')%list, m2)
  end.

Definition lex (s : string) : list token :=
  let '(ts, m) := lex_run MStart s in (ts ++ finish m)%list.

(** *** Stored data *)

(** The storage classes in use: NULL, INTEGER and TEXT. *)
Inductive value : Type :=
| VNull
| VInt (n : Z)
| VText (s : string).

Definition value_eqb (a b : value) : bool :=
  match a, b with
  | VNull, VNull => true
  | VInt x, VInt y => (x =? y)%Z
  | VText x, VText y => String.eqb x y
  | _, _ => false
  end.

Definition row : Type := list value.

Inductive affinity : Type := AffInteger | AffText | AffBlob | AffReal | AffNumeric.

Record column : Type := Column {
  col_name : string;
  col_type : list string;     (* the words of the declared type *)
  col_notnull : bool
}.

Record table : Type := Table {
  tbl_name : string;
  tbl_columns : list column;
  tbl_unique : list (list string);  (* UNIQUE and PRIMARY KEY column groups *)
  tbl_rows : list row               (* in rowid order *)
}.

(** A database file: its relations, in the order of their creation. *)
Definition database : Type := list table.

(** Column affinity from the declared type, by sqlite's five rules in
    their order. *)
Definition affinity_of_type (words : list string) : affinity :=
  let t := upper (join " " words) in
  if is_infix "INT" t then AffInteger
  else if is_infix "CHAR" t || is_infix "CLOB" t || is_infix "TEXT" t then AffText
  else if is_infix "BLOB" t || String.eqb t EmptyString then AffBlob
  else if is_infix "REAL" t || is_infix "FLOA" t || is_infix "DOUB" t then AffReal
  else AffNumeric.

(** Names of tables and columns compare without regard to ASCII case. *)
Definition name_eqb (a b : string) : bool := String.eqb (upper a) (upper b).

Fixpoint find_table (name : string) (db : database) : option table :=
  match db with
  | [] => None
  | t :: db' => if name_eqb name (tbl_name t) then Some t else find_table name db'
  end.

Fixpoint col_index (name : string) (cols : list column) : option nat :=
  match cols with
  | [] => None
  | c :: cols' =>
      if name_eqb name (col_name c) then Some 0%nat
      else option_map S (col_index name cols')
  end.

(** *** Errors and results *)

Inductive error : Type :=
| SyntaxNear (t : token)            (* near T: syntax error *)
| UnrecognizedToken                 (* unrecognized token *)
| IncompleteInput                   (* incomplete input *)
| NoSuchTable (name : string)
| TableExists (name : string)
| NoSuchColumn (tbl col : string)   (* table T has no column named C *)
| ValueCount (given columns : nat)  (* N values for M columns *)
| ColumnCount (tbl : string) (columns given : nat)
                                    (* table T has M columns but N values were supplied *)
| RowWidths                         (* all VALUES must have the same number of terms *)
| NotNullFailed (tbl col : string)  (* NOT NULL constraint failed: T.C *)
| UniqueFailed (tbl : string) (cols : list string). (* UNIQUE constraint failed *)

(** A constraint violation is reported as IntegrityError, everything else
    here as OperationalError. *)
Definition is_constraint (e : error) : bool :=
  match e with
  | NotNullFailed _ _ | UniqueFailed _ _ => true
  | _ => false
  end.

(** What the model says of a step: its value, the engine's error, or that
    the input lies outside the fragment, about which nothing is said. *)
Inductive result (A : Type) : Type :=
| Ok (a : A)
| Error (e : error)
| Unmodelled.
Arguments Ok {A} a.
Arguments Error {A} e.
Arguments Unmodelled {A}.

#[global] Instance result_ret : MRet result := @Ok.
#[global] Instance result_bind : MBind result := fun A B k r =>
  match r with
  | Ok a => k a
  | Error e => Error e
  | Unmodelled => Unmodelled
  end.

(** A token the grammar of the fragment has no use for.  An unclosed
    quote is an error wherever the parser meets it; of any other token the
    model says nothing. *)
Definition unexpected {A : Type} (ts : list token) : result A :=
  match ts with
  | TIllegal :: _ => Error UnrecognizedToken
  | _ => Unmodelled
  end.

(** *** Statements *)

Inductive stmt : Type :=
| CreateTable (name : string) (cols : list column) (uniques : list (list string))
| Insert (name : string) (cols : option (list string)) (rows : list row)
| SelectAll (name : string)
| SelectCount (name : string)
| SelectMasterTables.     (* SELECT * FROM sqlite_master WHERE type='table' *)

(** A name: a bare or a double-quoted identifier. *)
Definition name_of (t : token) : option string :=
  match t with
  | TId s | TDq s => Some s
  | _ => None
  end.

(** The end of a statement: a semicolon or the end of the text.  What
    follows the semicolon is the tail, left for the caller. *)
Definition statement_end {A : Type} (a : A) (ts : list token) : result (A * list token) :=
  match ts with
  | [] => Ok (a, [])
  | TSemi :: tail => Ok (a, tail)
  | _ => unexpected ts
  end.

(** [name, name, ... )]: the rest of a parenthesised list of names. *)
Fixpoint parse_names (ts : list token) : result (list string * list token) :=
  match ts with
  | t :: sep :: ts' =>
      match name_of t, sep with
      | Some n, TComma => '(ns, rest) ← parse_names ts'; Ok (n :: ns, rest)
      | Some n, TRp => Ok ([n], ts')
      | Some _, _ => unexpected (sep :: ts')
      | None, _ => unexpected ts
      end
  | _ => unexpected ts
  end.

(** *** CREATE TABLE *)

(** The words of a declared type: the bare identifiers after the column
    name. *)
Fixpoint take_type_words (ts : list token) : list string * list token :=
  match ts with
  | TId w :: ts' => let '(ws, rest) := take_type_words ts' in (w :: ws, rest)
  | _ => ([], ts)
  end.

(** The size after a type name: one or two numbers in parentheses. *)
Definition skip_type_size (ts : list token) : result (list token) :=
  match ts with
  | TLp :: TInt _ :: TRp :: rest => Ok rest
  | TLp :: TInt _ :: TComma :: TInt _ :: TRp :: rest => Ok rest
  | TLp :: _ => Unmodelled
  | _ => Ok ts
  end.

(** The constraints of one column: NULL, NOT NULL, UNIQUE, PRIMARY KEY.
    The result is the three flags (not null, unique, primary key) and the
    tokens from the comma or parenthesis that ends the column.  A second
    PRIMARY KEY, which sqlite refuses, is left outside the model, as is
    every table with more than one primary key. *)
Fixpoint parse_col_constraints (ts : list token) (nn uq pk : bool)
  : result (bool * bool * bool * list token) :=
  match ts with
  | TKw k1 :: ts1 =>
      if String.eqb k1 "UNIQUE" then parse_col_constraints ts1 nn true pk
      else if String.eqb k1 "NULL" then parse_col_constraints ts1 nn uq pk
      else
        match ts1 with
        | TKw k2 :: ts2 =>
            if String.eqb k1 "NOT" && String.eqb k2 "NULL"
            then parse_col_constraints ts2 true uq pk
            else if String.eqb k1 "PRIMARY" && String.eqb k2 "KEY"
            then if pk then Unmodelled else parse_col_constraints ts2 nn uq true
            else Unmodelled
        | _ => Unmodelled
        end
  | TComma :: _ | TRp :: _ => Ok (nn, uq, pk, ts)
  | _ => unexpected ts
  end.

(** One column definition.  In sqlite's grammar a column name is followed
    by a type name, a column constraint, a comma or the closing
    parenthesis; an opening parenthesis right after the name is a syntax
    error. *)
Definition parse_column (ts : list token)
  : result (column * bool * bool * list token) :=
  match ts with
  | t :: ts1 =>
      match name_of t with
      | None => unexpected ts
      | Some n =>
          let '(ws, ts2) := take_type_words ts1 in
          match ws, ts2 with
          | [], TLp :: _ => Error (SyntaxNear TLp)
          | _, _ =>
              ts3 ← skip_type_size ts2;
              '(nn, uq, pk, ts4) ← parse_col_constraints ts3 false false false;
              Ok (Column n ws nn, uq, pk, ts4)
          end
      end
  | [] => Unmodelled
  end.

(** What the parenthesised body of CREATE TABLE declares. *)
Record table_body : Type := TableBody {
  body_columns : list column;
  body_unique : list (list string);
  body_primary_keys : nat
}.

Definition add_column (b : table_body) (c : column) (uq pk : bool) : table_body :=
  TableBody (body_columns b ++ [c])%list
            (body_unique b ++ (if uq then [[col_name c]] else [])
                           ++ (if pk then [[col_name c]] else []))%list
            (body_primary_keys b + (if pk then 1 else 0))%nat.

Definition add_unique (b : table_body) (names : list string) (pk : bool) : table_body :=
  TableBody (body_columns b) (body_unique b ++ [names])%list
            (body_primary_keys b + (if pk then 1 else 0))%nat.

(** The table constraints PRIMARY KEY (..) and UNIQUE (..), after the
    columns. *)
Fixpoint parse_table_constraints (fuel : nat) (ts : list token) (b : table_body)
  : result (table_body * list token) :=
  match fuel with
  | O => Unmodelled
  | S fuel' =>
      '(b', ts') ←
        match ts with
        | TKw k1 :: TKw k2 :: TLp :: ts1 =>
            if String.eqb k1 "PRIMARY" && String.eqb k2 "KEY"
            then '(ns, ts2) ← parse_names ts1; Ok (add_unique b ns true, ts2)
            else Unmodelled
        | TKw k1 :: TLp :: ts1 =>
            if String.eqb k1 "UNIQUE"
            then '(ns, ts2) ← parse_names ts1; Ok (add_unique b ns false, ts2)
            else Unmodelled
        | _ => unexpected ts
        end;
      match ts' with
      | TRp :: rest => Ok (b', rest)
      | TComma :: ts'' => parse_table_constraints fuel' ts'' b'
      | _ => unexpected ts'
      end
  end.

(** The columns, each followed by a comma or by the closing parenthesis;
    after a comma a keyword starts the table constraints. *)
Fixpoint parse_columns (fuel : nat) (ts : list token) (b : table_body)
  : result (table_body * list token) :=
  match fuel with
  | O => Unmodelled
  | S fuel' =>
      '(c, uq, pk, ts1) ← parse_column ts;
      let b' := add_column b c uq pk in
      match ts1 with
      | TRp :: rest => Ok (b', rest)
      | TComma :: ts2 =>
          match ts2 with
          | TKw _ :: _ => parse_table_constraints fuel' ts2 b'
          | _ => parse_columns fuel' ts2 b'
          end
      | _ => unexpected ts1
      end
  end.

(** After CREATE TABLE. *)
Definition parse_create (ts : list token) : result (stmt * list token) :=
  match ts with
  | t :: TLp :: ts1 =>
      match name_of t with
      | Some n =>
          '(b, ts2) ← parse_columns (S (length ts1)) ts1 (TableBody [] [] 0);
          if (1 <? body_primary_keys b)%nat then Unmodelled
          else statement_end (CreateTable n (body_columns b) (body_unique b)) ts2
      | None => unexpected ts
      end
  | _ => unexpected ts
  end.

(** *** INSERT *)

(** The values the fragment admits in a VALUES row.  A double-quoted
    token is an identifier to sqlite, but in a VALUES row no column is in
    scope for it to name, and sqlite then reads it as a string literal
    (its double-quoted string compatibility rule, on by default). *)
Definition literal (t : token) : option value :=
  match t with
  | TDq s | TStr s => Some (VText s)
  | TInt n => if n <=? 9223372036854775807 then Some (VInt (Z.of_N n)) else None
  | TKw k => if String.eqb k "NULL" then Some VNull else None
  | _ => None
  end.

(** Tokens that start a term and continue none: after a complete value
    they are a syntax error. *)
Definition starts_term (t : token) : bool :=
  match t with
  | TId _ | TDq _ | TStr _ | TInt _ => true
  | _ => false
  end.

(** [value, value, ... )]: a VALUES row after its opening parenthesis. *)
Fixpoint parse_values (ts : list token) : result (row * list token) :=
  match ts with
  | t :: sep :: ts' =>
      match literal t with
      | None => unexpected ts
      | Some v =>
          match sep with
          | TComma => '(vs, rest) ← parse_values ts'; Ok (v :: vs, rest)
          | TRp => Ok ([v], ts')
          | _ => if starts_term sep then Error (SyntaxNear sep)
                 else unexpected (sep :: ts')
          end
      end
  | [t] =>
      match literal t with
      | Some _ => Error IncompleteInput
      | None => unexpected ts
      end
  | [] => Error IncompleteInput
  end.

Fixpoint parse_rows (fuel : nat) (ts : list token) : result (list row * list token) :=
  match fuel with
  | O => Unmodelled
  | S fuel' =>
      match ts with
      | TLp :: ts1 =>
          '(r, ts2) ← parse_values ts1;
          match ts2 with
          | TComma :: ts3 => '(rs, rest) ← parse_rows fuel' ts3; Ok (r :: rs, rest)
          | _ => Ok ([r], ts2)
          end
      | _ => unexpected ts
      end
  end.

(** After INSERT INTO. *)
Definition parse_insert (ts : list token) : result (stmt * list token) :=
  match ts with
  | t :: ts1 =>
      match name_of t with
      | None => unexpected ts
      | Some n =>
          '(cols, ts2) ←
            match ts1 with
            | TLp :: ts1' => '(ns, r) ← parse_names ts1'; Ok (Some ns, r)
            | _ => Ok (None, ts1)
            end;
          match ts2 with
          | TKw k :: ts3 =>
              if String.eqb k "VALUES"
              then '(rows, ts4) ← parse_rows (S (length ts3)) ts3;
                   statement_end (Insert n cols rows) ts4
              else Unmodelled
          | _ => unexpected ts2
          end
      end
  | [] => Unmodelled
  end.

(** *** SELECT *)

(** Names that start with sqlite_ belong to the engine. *)
Definition is_internal_name (n : string) : bool := String.prefix "SQLITE_" (upper n).

(** The two queries on a table of the user, and the one query on the
    catalog that the program issues. *)
Definition parse_from (n : string) (s : stmt) (catalog : bool) (ts : list token)
  : result (stmt * list token) :=
  if is_internal_name n then
    match ts with
    | TKw w :: TId c :: TEq :: TStr v :: rest =>
        if catalog && name_eqb n "sqlite_master" && String.eqb w "WHERE"
           && name_eqb c "type" && String.eqb v "table"
        then statement_end SelectMasterTables rest
        else Unmodelled
    | _ => Unmodelled
    end
  else statement_end s ts.

(** After SELECT. *)
Definition parse_select (ts : list token) : result (stmt * list token) :=
  match ts with
  | TStar :: TKw f :: t :: rest =>
      match name_of t with
      | Some n => if String.eqb f "FROM" then parse_from n (SelectAll n) true rest
                  else Unmodelled
      | None => unexpected (t :: rest)
      end
  | TId c :: TLp :: TStar :: TRp :: TKw f :: t :: rest =>
      match name_of t with
      | Some n => if String.eqb (upper c) "COUNT" && String.eqb f "FROM"
                  then parse_from n (SelectCount n) false rest
                  else Unmodelled
      | None => unexpected (t :: rest)
      end
  | _ => unexpected ts
  end.

(** The first statement of a token list, and the tokens after it. *)
Definition parse_statement (ts : list token) : result (stmt * list token) :=
  match ts with
  | TKw k1 :: ts1 =>
      if String.eqb k1 "SELECT" then parse_select ts1
      else
        match ts1 with
        | TKw k2 :: ts2 =>
            if String.eqb k1 "CREATE" && String.eqb k2 "TABLE" then parse_create ts2
            else if String.eqb k1 "INSERT" && String.eqb k2 "INTO" then parse_insert ts2
            else Unmodelled
        | _ => Unmodelled
        end
  | _ => unexpected ts
  end.

(** *** Execution *)

(** Storing a value in a column applies the column's affinity.  A text
    stays text unless it is a well-formed number; a text without any digit
    is none, and of a text with a digit the model says nothing when the
    column prefers numbers.  An integer becomes its decimal text in a TEXT
    column. *)
Definition apply_affinity (a : affinity) (v : value) : result value :=
  match v with
  | VNull => Ok VNull
  | VText s =>
      match a with
      | AffInteger | AffReal | AffNumeric =>
          if string_exists is_digit s then Unmodelled else Ok (VText s)
      | AffText | AffBlob => Ok (VText s)
      end
  | VInt n =>
      match a with
      | AffText => Ok (VText (pretty n))
      | AffReal => Unmodelled
      | AffInteger | AffNumeric | AffBlob => Ok (VInt n)
      end
  end.

Fixpoint name_index (name : string) (names : list string) : option nat :=
  match names with
  | [] => None
  | n :: names' =>
      if name_eqb name n then Some 0%nat else option_map S (name_index name names')
  end.

Fixpoint has_duplicate (names : list string) : bool :=
  match names with
  | [] => false
  | n :: names' => existsb (name_eqb n) names' || has_duplicate names'
  end.

(** The value an INSERT gives to column [c]: the one listed under its
    name, or NULL. *)
Definition column_value (names : list string) (vals : row) (c : column) : value :=
  match name_index (col_name c) names with
  | Some i => nth i vals VNull
  | None => VNull
  end.

Fixpoint store_row (cols : list column) (names : list string) (vals : row) : result row :=
  match cols with
  | [] => Ok []
  | c :: cols' =>
      v ← apply_affinity (affinity_of_type (col_type c)) (column_value names vals c);
      vs ← store_row cols' names vals;
      Ok (v :: vs)
  end.

(** NOT NULL: the first column, in table order, that holds NULL against
    its declaration. *)
Fixpoint null_violation (cols : list column) (r : row) : option string :=
  match cols, r with
  | c :: cols', v :: r' =>
      if col_notnull c && value_eqb v VNull then Some (col_name c)
      else null_violation cols' r'
  | _, _ => None
  end.

(** The key of a row under a UNIQUE group; a row with NULL in the group
    has none and conflicts with nothing. *)
Fixpoint key_of (cols : list column) (group : list string) (r : row) : option (list value) :=
  match group with
  | [] => Some []
  | n :: group' =>
      match col_index n cols with
      | Some i =>
          match nth i r VNull with
          | VNull => None
          | v => option_map (cons v) (key_of cols group' r)
          end
      | None => None
      end
  end.

Fixpoint key_eqb (k1 k2 : list value) : bool :=
  match k1, k2 with
  | [], [] => true
  | a :: k1', b :: k2' => value_eqb a b && key_eqb k1' k2'
  | _, _ => false
  end.

Definition conflicts (cols : list column) (group : list string) (r r' : row) : bool :=
  match key_of cols group r, key_of cols group r' with
  | Some k, Some k' => key_eqb k k'
  | _, _ => false
  end.

(** UNIQUE: the first group under which [r] repeats a row of [rows]. *)
Definition unique_violation (cols : list column) (uniques : list (list string))
           (rows : list row) (r : row) : option (list string) :=
  find (fun group => existsb (conflicts cols group r) rows) uniques.

(** The rows of one INSERT go in one after the other; the first violation
    ends the statement. *)
Fixpoint insert_rows (t : table) (names : list string) (rows : list row)
         (new : list row) : result (list row) :=
  match new with
  | [] => Ok rows
  | vals :: new' =>
      r ← store_row (tbl_columns t) names vals;
      match null_violation (tbl_columns t) r with
      | Some c => Error (NotNullFailed (tbl_name t) c)
      | None =>
          match unique_violation (tbl_columns t) (tbl_unique t) rows r with
          | Some g => Error (UniqueFailed (tbl_name t) g)
          | None => insert_rows t names (rows ++ [r])%list new'
          end
      end
  end.

Fixpoint replace_table (t : table) (db : database) : database :=
  match db with
  | [] => []
  | t' :: db' =>
      if name_eqb (tbl_name t) (tbl_name t') then t :: db'
      else t' :: replace_table t db'
  end.

Definition knows_column (cols : list column) (n : string) : bool :=
  match col_index n cols with
  | Some _ => true
  | None => false
  end.

Definition same_width (rows : list row) : bool :=
  match rows with
  | [] => true
  | r :: rows' => forallb (fun r' => (length r' =? length r)%nat) rows'
  end.

(** The number of values against the number of columns: the error names
    the table when the INSERT lists no columns. *)
Definition count_error (t : table) (cols : option (list string)) (r : row) (names : list string)
  : error :=
  match cols with
  | Some _ => ValueCount (length r) (length names)
  | None => ColumnCount (tbl_name t) (length names) (length r)
  end.

(** sqlite looks up the table first, then the listed columns, then
    compares the rows of VALUES with each other and at last with the
    columns. *)
Definition exec_insert (db : database) (name : string) (cols : option (list string))
           (new : list row) : result database :=
  match find_table name db with
  | None => Error (NoSuchTable name)
  | Some t =>
      let names := default (map col_name (tbl_columns t)) cols in
      match find (fun n => negb (knows_column (tbl_columns t) n)) names with
      | Some n => Error (NoSuchColumn (tbl_name t) n)
      | None =>
          if has_duplicate names then Unmodelled else
          if negb (same_width new) then Error RowWidths else
          match find (fun r => negb (length r =? length names)%nat) new with
          | Some r => Error (count_error t cols r names)
          | None =>
              rows ← insert_rows t names (tbl_rows t) new;
              Ok (replace_table
                    (Table (tbl_name t) (tbl_columns t) (tbl_unique t) rows) db)
          end
      end
  end.

(** A column declared INTEGER becomes the row id when it is the primary
    key; the model keeps away from such tables. *)
Definition declared_integer (c : column) : bool :=
  match col_type c with
  | [w] => String.eqb (upper w) "INTEGER"
  | _ => false
  end.

Definition exec_create (db : database) (name : string) (cols : list column)
           (uniques : list (list string)) : result database :=
  match find_table name db with
  | Some _ => Error (TableExists name)
  | None =>
      if is_internal_name name
         || has_duplicate (map col_name cols)
         || existsb declared_integer cols
         || existsb (existsb (fun n => negb (knows_column cols n))) uniques
      then Unmodelled
      else Ok (db ++ [Table name cols uniques []])%list
  end.

(** The catalog query shows one row per relation.  Of the five columns of
    sqlite_master (type, name, tbl_name, rootpage, sql) the model keeps the
    first three: the page number and the text of the CREATE statement are
    not part of the model of a table.  The program looks at the rows of
    the catalog in [_check_database] only, and there only at whether there
    is one; no property below speaks of what such a row holds. *)
Definition master_row (t : table) : row :=
  [VText "table"; VText (tbl_name t); VText (tbl_name t)].

(** The effect of one statement: the database after it and the rows it
    returns. *)
Definition exec_stmt (db : database) (s : stmt) : result (database * list row) :=
  match s with
  | CreateTable n cols uniques => db' ← exec_create db n cols uniques; Ok (db', [])
  | Insert n cols rows => db' ← exec_insert db n cols rows; Ok (db', [])
  | SelectAll n =>
      match find_table n db with
      | Some t => Ok (db, tbl_rows t)
      | None => Error (NoSuchTable n)
      end
  | SelectCount n =>
      match find_table n db with
      | Some t => Ok (db, [[VInt (Z.of_nat (length (tbl_rows t)))]])
      | None => Error (NoSuchTable n)
      end
  | SelectMasterTables => Ok (db, map master_row db)
  end.

(** INSERT changes data; CREATE TABLE changes the schema. *)
Inductive kind : Type := Query | Dml | Ddl.

Definition kind_of (s : stmt) : kind :=
  match s with
  | Insert _ _ _ => Dml
  | CreateTable _ _ _ => Ddl
  | SelectAll _ | SelectCount _ | SelectMasterTables => Query
  end.

(** A script runs statement by statement; each one takes effect on its
    own, and the first error ends the script with the earlier statements
    done.  The result is the database reached and the error, if any. *)
Fixpoint run_script (fuel : nat) (db : database) (ts : list token)
  : option (database * option error) :=
  match fuel with
  | O => None
  | S fuel' =>
      match ts with
      | [] => Some (db, None)
      | _ =>
          match parse_statement ts with
          | Unmodelled => None
          | Error e => Some (db, Some e)
          | Ok (s, tail) =>
              match exec_stmt db s with
              | Unmodelled => None
              | Error e => Some (db, Some e)
              | Ok (db', _) => run_script fuel' db' tail
              end
          end
      end
  end.

End Sqlite.

(* ===================================================================== *)
(** ** pydantic: validation of the fields of a model *)
(* ===================================================================== *)

Module Pydantic.
Import Chars.

(** Why a field is refused. *)
Inductive field_error : Type :=
| Missing            (* field required *)
| NoneNotAllowed     (* none is not an allowed value *)
| BoolError.         (* value could not be parsed to a boolean *)

(** The errors of one construction: field name and reason, in field
    order.  pydantic raises them together as one ValidationError. *)
Definition errors : Type := list (string * field_error).

(** A [str] field takes a string as it is and the text of a number or
    boolean. *)
Definition str_validator (v : Py.value) : field_error + string :=
  match v with
  | Py.PyNone => inl NoneNotAllowed
  | Py.PyStr s => inr s
  | Py.PyBool _ | Py.PyInt _ => inr (Py.str v)
  end.

Definition BOOL_TRUE : list string := ["1"; "on"; "t"; "true"; "y"; "yes"].
Definition BOOL_FALSE : list string := ["0"; "off"; "f"; "false"; "n"; "no"].

(** A [bool] field takes a boolean, the integers 0 and 1, and, without
    regard to case, the words above. *)
Definition bool_validator (v : Py.value) : field_error + bool :=
  match v with
  | Py.PyNone => inl NoneNotAllowed
  | Py.PyBool b => inr b
  | Py.PyInt n =>
      if (n =? 1)%Z then inr true
      else if (n =? 0)%Z then inr false
      else inl BoolError
  | Py.PyStr s =>
      if existsb (String.eqb (lower s)) BOOL_TRUE then inr true
      else if existsb (String.eqb (lower s)) BOOL_FALSE then inr false
      else inl BoolError
  end.

(** One field of the keyword arguments of a constructor. *)
Definition validate_field {A : Type} (validator : Py.value -> field_error + A)
           (name : string) (data : Py.kwargs) : field_error + A :=
  match Py.get name data with
  | None => inl Missing
  | Some v => validator v
  end.

Definition error_of {A : Type} (name : string) (r : field_error + A) : errors :=
  match r with
  | inl e => [(name, e)]
  | inr _ => []
  end.

End Pydantic.

(* ===================================================================== *)
(** ** The process: state, exceptions and the sqlite3 module *)
(* ===================================================================== *)

Import Chars.

(** Exceptions that can leave a function of the program. *)
Inductive exception : Type :=
| OperationalError (e : Sqlite.error)     (* sqlite3.OperationalError *)
| IntegrityError (e : Sqlite.error)       (* sqlite3.IntegrityError *)
| UnableToOpen (path : string)            (* sqlite3.OperationalError: unable to open database file *)
| OneStatementAtATime                     (* sqlite3: You can only execute one statement at a time. *)
| NullCharacter                           (* the query contains a null character *)
| UnicodeEncodeError                      (* the text cannot be encoded as UTF-8 *)
| ValidationError (errs : Pydantic.errors). (* pydantic.ValidationError *)

Definition sqlite_exception (e : Sqlite.error) : exception :=
  if Sqlite.is_constraint e then IntegrityError e else OperationalError e.

(** Logging levels, in rising order. *)
Inductive level : Type := DEBUG | INFO | WARNING.

Definition level_no (l : level) : N :=
  match l with
  | DEBUG => 10
  | INFO => 20
  | WARNING => 30
  end.

Inductive log_arg : Type :=
| ArgStr (s : string)
| ArgDict (d : Py.kwargs).

Record log_record : Type := LogRecord {
  rec_level : level;
  rec_msg : string;
  rec_args : list log_arg
}.

(** A path of the file system that holds a database, or one that sqlite
    cannot open. *)
Inductive file : Type :=
| Unopenable
| DbFile (db : Sqlite.database).

(** The typed entity. *)
Record Habit : Type := mkHabit {
  title : string;
  description : string;
  required : bool;
  negative : bool
}.

(** What [rich.print] is given. *)
Inductive printed : Type :=
| PrintHabits (hs : list Habit)
| PrintRows (rows : list (list Py.value)).

(** The state a run of the program works on.  [dirs] and [files] are the
    file system and outlive the process; the rest belongs to the process:
    the open transaction of its one connection, the logging configuration
    and the two output streams. *)
Record state : Type := State {
  dirs : gset string;
  files : gmap string file;
  pending : option Sqlite.database;
  logger_level : option level;      (* level of this module's logger, when set *)
  root_level : level;               (* level of the root logger *)
  root_handler : bool;              (* has the root logger a handler? *)
  stderr : list log_record;
  stdout : list printed
}.

Definition set_files (f : gmap string file -> gmap string file) (st : state) : state :=
  State (dirs st) (f (files st)) (pending st) (logger_level st) (root_level st)
        (root_handler st) (stderr st) (stdout st).
Definition set_dirs (f : gset string -> gset string) (st : state) : state :=
  State (f (dirs st)) (files st) (pending st) (logger_level st) (root_level st)
        (root_handler st) (stderr st) (stdout st).
Definition set_pending (p : option Sqlite.database) (st : state) : state :=
  State (dirs st) (files st) p (logger_level st) (root_level st)
        (root_handler st) (stderr st) (stdout st).
Definition set_logging (l : option level) (r : level) (h : bool) (st : state) : state :=
  State (dirs st) (files st) (pending st) l r h (stderr st) (stdout st).
Definition add_stderr (r : log_record) (st : state) : state :=
  State (dirs st) (files st) (pending st) (logger_level st) (root_level st)
        (root_handler st) (stderr st ++ [r])%list (stdout st).
Definition add_stdout (p : printed) (st : state) : state :=
  State (dirs st) (files st) (pending st) (logger_level st) (root_level st)
        (root_handler st) (stderr st) (stdout st ++ [p])%list.

(** How a computation ends: with a value, with an exception, or outside
    what the engine model covers. *)
Inductive outcome (A : Type) : Type :=
| Return (a : A)
| Raise (e : exception)
| Unmodelled.
Arguments Return {A} a.
Arguments Raise {A} e.
Arguments Unmodelled {A}.

(** State and exceptions. *)
Definition M (A : Type) : Type := state -> state * outcome A.

#[global] Instance M_ret : MRet M := fun A a st => (st, Return a).
#[global] Instance M_bind : MBind M := fun A B k m st =>
  match m st with
  | (st', Return a) => k a st'
  | (st', Raise e) => (st', Raise e)
  | (st', Unmodelled) => (st', Unmodelled)
  end.

Definition raise {A : Type} (e : exception) : M A := fun st => (st, Raise e).
Definition unmodelled {A : Type} : M A := fun st => (st, Unmodelled).
Definition get_state : M state := fun st => (st, Return st).
Definition modify (f : state -> state) : M unit := fun st => (f st, Return tt).

(** From the engine's result to the exception Python raises. *)
Definition lift {A : Type} (r : Sqlite.result A) : M A :=
  match r with
  | Sqlite.Ok a => mret a
  | Sqlite.Error e => raise (sqlite_exception e)
  | Sqlite.Unmodelled => unmodelled
  end.

(** *** logging *)

(** [logger.log(lvl, msg, *args)] on this module's logger.  Its effective
    level is its own when set, else the root's.  A record that passes goes
    to the root's handler; without one only the handler of last resort is
    left, which writes warnings and above. *)
Definition log_state (lvl : level) (msg : string) (args : list log_arg) (st : state)
  : state :=
  let effective := default (root_level st) (logger_level st) in
  if (level_no effective <=? level_no lvl)
     && (root_handler st || (level_no WARNING <=? level_no lvl))
  then add_stderr (LogRecord lvl msg args) st
  else st.

Definition logger_log (lvl : level) (msg : string) (args : list log_arg) : M unit :=
  modify (log_state lvl msg args).

Definition logger_info := logger_log INFO.
Definition logger_debug := logger_log DEBUG.

(** [logging.basicConfig(level=l)]: does nothing once the root logger has
    a handler. *)
Definition logging_basicConfig (l : option level) : M unit :=
  modify (fun st =>
    if root_handler st then st
    else set_logging (logger_level st) (default (root_level st) l) true st).

(** [logging.info(msg, *args)] on the root logger, which is first given a
    handler when it has none. *)
Definition logging_info (msg : string) (args : list log_arg) : M unit :=
  logging_basicConfig None;;
  modify (fun st =>
    if level_no (root_level st) <=? level_no INFO
    then add_stderr (LogRecord INFO msg args) st
    else st).

(** *** sqlite3: connections and cursors *)

Record Connection : Type := { conn_path : string }.

(** The database as the connection sees it: its open transaction if it has
    one, else the file. *)
Definition view (con : Connection) (st : state) : Sqlite.database :=
  match pending st with
  | Some db => db
  | None =>
      match files st !! conn_path con with
      | Some (DbFile db) => db
      | _ => []
      end
  end.

(** [sqlite3.connect(path)]; a file that is not there is created empty. *)
Definition connect (path : string) : M Connection := fun st =>
  match files st !! path with
  | Some Unopenable => (st, Raise (UnableToOpen path))
  | Some (DbFile _) => (st, Return {| conn_path := path |})
  | None => (set_files (insert path (DbFile [])) st, Return {| conn_path := path |})
  end.

Definition to_python (v : Sqlite.value) : Py.value :=
  match v with
  | Sqlite.VNull => Py.PyNone
  | Sqlite.VInt n => Py.PyInt n
  | Sqlite.VText s => Py.PyStr s
  end.

(** A row as the tuple [fetchall] returns. *)
Definition fetch (r : Sqlite.row) : list Py.value := map to_python r.

(** Where the effect of a statement goes.  Before an INSERT the module
    opens a transaction, which stays open until [commit]; CREATE TABLE
    outside a transaction takes effect at once. *)
Definition apply_change (con : Connection) (k : Sqlite.kind) (db' : Sqlite.database)
           (st : state) : state :=
  match k with
  | Sqlite.Query => st
  | Sqlite.Dml => set_pending (Some db') st
  | Sqlite.Ddl =>
      match pending st with
      | Some _ => set_pending (Some db') st
      | None => set_files (insert (conn_path con) (DbFile db')) st
      end
  end.

(** The state after the BEGIN that the module issues before an INSERT
    when no transaction is open. *)
Definition begin_state (con : Connection) (st : state) : state :=
  match pending st with
  | Some _ => st
  | None => set_pending (Some (view con st)) st
  end.

Definition begin (con : Connection) (k : Sqlite.kind) : M unit :=
  match k with
  | Sqlite.Dml => modify (begin_state con)
  | _ => mret tt
  end.

(** What sqlite finds while it prepares a statement (a name it does not
    know, a wrong number of values) is raised then; a constraint shows
    only when the statement runs. *)
Definition prepared_statement {A : Type} (r : Sqlite.result A) : M unit :=
  match r with
  | Sqlite.Ok _ => mret tt
  | Sqlite.Error e => if Sqlite.is_constraint e then mret tt else raise (sqlite_exception e)
  | Sqlite.Unmodelled => unmodelled
  end.

(** [cursor.execute(sql).fetchall()].  The text is encoded as UTF-8 and
    must hold no NUL; its first statement is prepared; nothing may follow
    it; before an INSERT a transaction is begun; then the statement
    runs. *)
Definition execute (con : Connection) (sql : string) : M (list (list Py.value)) :=
  if negb (valid_utf8 sql) then raise UnicodeEncodeError else
  if string_exists (Ascii.eqb nul) sql then raise NullCharacter else
  '(s, tail) ← lift (Sqlite.parse_statement (Sqlite.lex sql));
  st ← get_state;
  let r := Sqlite.exec_stmt (view con st) s in
  prepared_statement r;;
  match tail with
  | _ :: _ => raise OneStatementAtATime
  | [] =>
      begin con (Sqlite.kind_of s);;
      '(db', rows) ← lift r;
      modify (apply_change con (Sqlite.kind_of s) db');;
      mret (map fetch rows)
  end.

(** [connection.commit()] *)
Definition commit (con : Connection) : M unit :=
  modify (fun st =>
    match pending st with
    | Some db => set_pending None (set_files (insert (conn_path con) (DbFile db)) st)
    | None => st
    end).

(** [cursor.executescript(script)]: commits, then runs the statements one
    by one, each taking effect at once. *)
Definition executescript (con : Connection) (script : string) : M unit :=
  if negb (valid_utf8 script) then raise UnicodeEncodeError else
  if string_exists (Ascii.eqb nul) script then raise NullCharacter else
  commit con;;
  st ← get_state;
  let ts := Sqlite.lex script in
  match Sqlite.run_script (S (length ts)) (view con st) ts with
  | None => unmodelled
  | Some (db', err) =>
      modify (set_files (insert (conn_path con) (DbFile db')));;
      match err with
      | Some e => raise (sqlite_exception e)
      | None => mret tt
      end
  end.

(* ===================================================================== *)
(** ** The program: src/habits_tracker/cli.py *)
(* ===================================================================== *)

Definition lift_py {A : Type} (r : exception + A) : M A :=
  match r with
  | inr a => mret a
  | inl e => raise e
  end.

Definition _DATABASE_FILE_NAME : string := "db.sqlite3".

(** [os.path.join(a, b)] for two components. *)
Definition os_path_join (a b : string) : string :=
  if String.prefix "/" b then b
  else if String.eqb a EmptyString || String.eqb (String.substring (String.length a - 1) 1 a) "/"
  then a +:+ b
  else a +:+ "/" +:+ b.

(** [_filter_kwargs]: the entries whose value is not None. *)
Definition _filter_kwargs (data : Py.kwargs) : Py.kwargs :=
  fold_left (fun result '(key, val) =>
               match val with
               | Py.PyNone => result
               | _ => Py.update key val result
               end) data [].

(** [class Model]: what a model class provides.  [__fields__] holds the
    names of the declared fields in their order, and [construct] is the
    call of the class on the dictionary as keyword arguments. *)
Class Model (T : Type) : Type := {
  _table : string;
  __fields__ : list string;
  construct : Py.kwargs -> exception + T
}.

(** [Model.from_values] *)
Definition from_values {T : Type} `{Model T} (values : list Py.value) : exception + T :=
  let fields := __fields__ in
  let data := fold_left (fun data '(key, val) => Py.update key val data)
                        (zip fields values) [] in
  construct data.

(** The four validated fields together: a habit, or the errors of all the
    fields that were refused, raised as one ValidationError. *)
Definition Habit_checked (t d : Pydantic.field_error + string)
           (r n : Pydantic.field_error + bool) : exception + Habit :=
  match t, d, r, n with
  | inr t', inr d', inr r', inr n' => inr (mkHabit t' d' r' n')
  | _, _, _, _ =>
      inl (ValidationError
             (Pydantic.error_of "title" t ++ Pydantic.error_of "description" d
              ++ Pydantic.error_of "required" r ++ Pydantic.error_of "negative" n)%list)
  end.

(** The constructor of [Habit] on keyword arguments: pydantic validates
    every declared field. *)
Definition Habit_init (data : Py.kwargs) : exception + Habit :=
  Habit_checked (Pydantic.validate_field Pydantic.str_validator "title" data)
                (Pydantic.validate_field Pydantic.str_validator "description" data)
                (Pydantic.validate_field Pydantic.bool_validator "required" data)
                (Pydantic.validate_field Pydantic.bool_validator "negative" data).

(** [class Habit(Model, BaseModel)] *)
#[global] Instance Habit_Model : Model Habit := {
  _table := "habits";
  __fields__ := ["title"; "description"; "required"; "negative"];
  construct := Habit_init
}.

Definition _CREATE_TABLES : string := "
CREATE TABLE habits (
    title varchar (255) UNIQUE NOT NULL,
    description varchar (2048),
    require bool NOT NULL,
    negative bool NOT NULL,
    PRIMARY KEY (title)
);
CREATE TABLE habit_records (
    uuid varchar (255) UNIQUE NOT NULL,
    habit int NOT NULL,
    added datetime NOT NULL,
    PRIMARY_KEY (uuid),
    FOREGIN KEY (habit) REFERENCES habits(title)
);
CREATE TABLE habit_names (
    habit int NOT NULL,
    name varchar (255) UNIQUE NOT NULL,
    PRIMARY_KEY (name),
    FOREGIN KEY (habit) REFERENCES habits(title)
);
".

(** [_logging] *)
Definition _logging (l : level) : M unit :=
  modify (fun st => set_logging (Some l) (root_level st) (root_handler st) st);;
  logging_basicConfig (Some l).

(** [_check_dir]: [os.makedirs] when the directory is not there; the call
    is taken to succeed.  The model keeps directories as a set of paths,
    apart from the files: [os.path.exists] is read as membership in that
    set, so a file that stands at the path of the directory is outside the
    model, and of the directories that [os.makedirs] makes the model
    records the one asked for, not the missing parents it makes on the
    way. *)
Definition _check_dir (directory : string) : M unit :=
  logger_info "Checking database directory '%s'." [ArgStr directory];;
  modify (fun st =>
    if bool_decide (directory ∈ dirs st) then st
    else set_dirs (union {[directory]}) st).

(** [create_tables] *)
Definition create_tables (connection : Connection) : M unit :=
  logger_info "Creating tables." [];;
  executescript connection _CREATE_TABLES;;
  commit connection.

(** [_check_database] *)
Definition _check_database (database : string) : M Connection :=
  logger_info "Checking database file '%s'." [ArgStr database];;
  connection ← connect database;
  tables ← execute connection "SELECT * FROM sqlite_master WHERE type='table'";
  match tables with
  | [] => create_tables connection
  | _ :: _ => mret tt
  end;;
  mret connection.

(** [class HabitsTrackerSettings] *)
Record HabitsTrackerSettings : Type := {
  connection : Connection;
  database : string;
  verbose : bool;
  debug : bool
}.

(** The keyword arguments click passes to [habit_add] when the options
    come in the order of their declaration. *)
Definition add_kwargs (title description : string) (require negative : bool) : Py.kwargs :=
  [("title", Py.PyStr title); ("description", Py.PyStr description);
   ("require", Py.PyBool require); ("negative", Py.PyBool negative)].

(** The statement [habit_add] builds from its keyword arguments: every
    value goes in between two double quotes, as it is. *)
Definition insert_statement (kwargs : Py.kwargs) : string :=
  let fields := join ", " (map (fun x => fst x) kwargs) in
  let values := join ", " (map (fun x => quoted (Py.str (snd x))) kwargs) in
  "INSERT INTO habits (" +:+ fields +:+ ") VALUES (" +:+ values +:+ ");".

(** [habit_add], the command [add] *)
Definition habit_add (context : HabitsTrackerSettings) (kwargs : Py.kwargs) : M unit :=
  logger_debug "Adding habit: '%s'" [ArgDict kwargs];;
  let con := connection context in
  let insert := insert_statement kwargs in
  logger_debug insert [];;
  execute con insert;;
  commit con.

(** [rich.print] *)
Definition rich_print (p : printed) : M unit := modify (add_stdout p).

(** [[Habit.from_values(data) for data in habits_data]]: the first row
    that fails ends the comprehension. *)
Fixpoint habits_of (habits_data : list (list Py.value)) : exception + list Habit :=
  match habits_data with
  | [] => inr []
  | data :: rest =>
      match from_values data with
      | inl e => inl e
      | inr h =>
          match habits_of rest with
          | inl e => inl e
          | inr hs => inr (h :: hs)
          end
      end
  end.

(** [habits_list], the command [list] *)
Definition habits_list (context : HabitsTrackerSettings) : M unit :=
  let con := connection context in
  habits_data ← execute con "SELECT * FROM habits;";
  habits ← lift_py (habits_of habits_data);
  rich_print (PrintHabits habits).

(** [exec_sql], the command [exec] *)
Definition exec_sql (context : HabitsTrackerSettings) (command : string) : M unit :=
  let con := connection context in
  result ← execute con command;
  match result with
  | [] => mret tt
  | _ :: _ => rich_print (PrintRows result)
  end.

(** The command of one invocation, with the arguments click has parsed. *)
Inductive command : Type :=
| CmdAdd (title description : string) (require negative : bool)
| CmdList
| CmdExec (command : string).

Section Platform.

(** [appdirs.user_data_dir]: the data directory of the platform. *)
Variable _DATA_DIR : string.

Definition _DATABASE_FILE_PATH : string := os_path_join _DATA_DIR _DATABASE_FILE_NAME.

(** [commands], the callback of the group: it runs before every command
    and leaves the settings in [context.obj].  The dictionary [kwargs] is
    built here in the order of the declarations, database, verbose, debug;
    click fills it in the order of the options on the command line.  The
    order shows in the text of the one record kwargs: ... that is logged
    first, and nowhere else: the settings are read by key. *)
Definition commands (database : option string) (verbose debug : bool)
  : M HabitsTrackerSettings :=
  let kwargs : Py.kwargs :=
    [("database", from_option Py.PyStr Py.PyNone database);
     ("verbose", Py.PyBool verbose); ("debug", Py.PyBool debug)] in
  (if verbose || debug then
     let level := if debug then DEBUG else INFO in
     _logging level;;
     logging_info "kwargs: '%s'" [ArgDict kwargs]
   else mret tt);;
  let db := from_option Py.PyStr Py.PyNone database in
  connection ←
    (if negb (Py.truthy db) then
       _check_dir _DATA_DIR;;
       _check_database _DATABASE_FILE_PATH
     else _check_database (Py.str db));
  let settings := _filter_kwargs kwargs in
  mret {| connection := connection;
          database := from_option Py.str _DATABASE_FILE_PATH (Py.get "database" settings);
          verbose := from_option Py.truthy false (Py.get "verbose" settings);
          debug := from_option Py.truthy false (Py.get "debug" settings) |}.

(** [main]: the group callback, then the command. *)
Definition main (database : option string) (verbose debug : bool) (cmd : command)
  : M unit :=
  context ← commands database verbose debug;
  match cmd with
  | CmdAdd t d r n => habit_add context (add_kwargs t d r n)
  | CmdList => habits_list context
  | CmdExec c => exec_sql context c
  end.

(** The file system between two runs. *)
Record disk : Type := Disk {
  disk_dirs : gset string;
  disk_files : gmap string file
}.

(** A process starts without a transaction, with logging not configured
    (the root logger at WARNING, without handler) and nothing written. *)
Definition boot (d : disk) : state :=
  State (disk_dirs d) (disk_files d) None None WARNING false [] [].

(** What a run leaves: the file system (an open transaction is rolled
    back when the process ends), the two streams, and how [main] ended.
    An exception that leaves [main] is caught by nobody: Python writes the
    traceback and the process ends with status 1. *)
Record run_result : Type := RunResult {
  run_disk : disk;
  run_stdout : list printed;
  run_stderr : list log_record;
  run_exit : outcome unit
}.

Definition run (d : disk) (database : option string) (verbose debug : bool)
           (cmd : command) : run_result :=
  let '(st, o) := main database verbose debug cmd (boot d) in
  RunResult (Disk (dirs st) (files st)) (stdout st) (stderr st) o.

End Platform.

(* ===================================================================== *)
(** ** Vocabulary of the properties *)
(* ===================================================================== *)

(** The tokens of a text [s], given the tokens [acc] read before it and the
    mode the tokenizer is in. *)
Definition lex_from (acc : list Sqlite.token) (m : Sqlite.mode) (s : string)
  : list Sqlite.token :=
  (acc ++ (Sqlite.lex_run m s).1) ++ Sqlite.finish (Sqlite.lex_run m s).2.

(** The keyword arguments of an add, in whatever order the options came:
    click fills the dictionary in the order of the command line. *)
Definition add_arguments (kwargs : Py.kwargs) (t d : string) (r n : bool) : Prop :=
  kwargs ≡ₚ add_kwargs t d r n.

(** The values of the statement of [habit_add] as sqlite reads them when
    the texts are plain: each one the text between the quotes. *)
Definition statement_values (kwargs : Py.kwargs) : Sqlite.row :=
  map (fun x => Sqlite.VText (Py.str (snd x))) kwargs.

(** The relation habits as the first statement of [_CREATE_TABLES]
    declares it. *)
Definition habits_columns : list Sqlite.column :=
  [ Sqlite.Column "title" ["varchar"] true;
    Sqlite.Column "description" ["varchar"] false;
    Sqlite.Column "require" ["bool"] true;
    Sqlite.Column "negative" ["bool"] true ].

Definition habits_unique : list (list string) := [["title"]; ["title"]].

Definition habits_table (rows : list Sqlite.row) : Sqlite.table :=
  Sqlite.Table "habits" habits_columns habits_unique rows.

(** The row that stands for a habit in the relation: four texts. *)
Definition habit_row (t d : string) (r n : bool) : Sqlite.row :=
  [ Sqlite.VText t; Sqlite.VText d;
    Sqlite.VText (Py.str (Py.PyBool r)); Sqlite.VText (Py.str (Py.PyBool n)) ].

(** Does the row carry the title [t]? *)
Definition title_is (t : string) (r : Sqlite.row) : bool :=
  match r with
  | Sqlite.VText s :: _ => String.eqb t s
  | _ => false
  end.

Definition has_title (t : string) (rows : list Sqlite.row) : bool :=
  existsb (title_is t) rows.

(** The store behind a connection holds the declared relation habits with
    the rows [rows], and no transaction is open. *)
Definition stored (con : Connection) (st : state) (rows : list Sqlite.row) : Prop :=
  pending st = None /\
  exists db, files st !! conn_path con = Some (DbFile db)
             /\ Sqlite.find_table "habits" db = Some (habits_table rows).

(** The state after the two debug records of [habit_add]. *)
Definition habit_add_logged (kwargs : Py.kwargs) (st : state) : state :=
  log_state DEBUG (insert_statement kwargs) []
            (log_state DEBUG "Adding habit: '%s'" [ArgDict kwargs] st).

(** The state after a committed change of the database of [con]. *)
Definition committed (con : Connection) (db : Sqlite.database) (st : state) : state :=
  set_pending None (set_files (insert (conn_path con) (DbFile db)) st).

(** Will the validator of field number [i] of [Habit] take [v]?  Beyond
    the four fields there is no validator and nothing is refused. *)
Definition field_accepts (i : nat) (v : Py.value) : bool :=
  match i with
  | 0%nat | 1%nat =>
      match Pydantic.str_validator v with inl _ => false | inr _ => true end
  | 2%nat | 3%nat =>
      match Pydantic.bool_validator v with inl _ => false | inr _ => true end
  | _ => true
  end.

(** The sequence of the spec's example with one value too many. *)
Definition five_values : list Py.value :=
  [Py.PyStr "read"; Py.PyStr "desc"; Py.PyBool true; Py.PyBool false; Py.PyStr "extra"].

(** Five values of which none can be a title. *)
Definition five_nones : list Py.value :=
  [Py.PyNone; Py.PyNone; Py.PyNone; Py.PyNone; Py.PyNone].

(** The state after the record that [_check_database] logs first. *)
Definition checking (path : string) (st : state) : state :=
  log_state INFO "Checking database file '%s'." [ArgStr path] st.

(** The store holds exactly the three relations of the schema. *)
Definition three_relations (db : Sqlite.database) : Prop :=
  map Sqlite.tbl_name db ≡ₚ ["habits"; "habit_records"; "habit_names"].

(** A database of another program, with one relation. *)
Definition notes_db : Sqlite.database :=
  [Sqlite.Table "notes" [Sqlite.Column "body" ["text"] false] [] []].



(** Two states with the same file system, the same open transaction and
    the same standard output; they may differ in the logging configuration
    and in the diagnostic stream. *)
Definition same_store (s1 s2 : state) : Prop :=
  dirs s1 = dirs s2 /\ files s1 = files s2
  /\ pending s1 = pending s2 /\ stdout s1 = stdout s2.

(** Two outcomes that are the same up to a relation on the values. *)
Definition same_outcome {A B : Type} (R : A -> B -> Prop)
           (o1 : outcome A) (o2 : outcome B) : Prop :=
  match o1, o2 with
  | Return a, Return b => R a b
  | Raise e1, Raise e2 => e1 = e2
  | Unmodelled, Unmodelled => True
  | _, _ => False
  end.

(** Two computations that, from states with the same store, end alike and
    in states with the same store. *)
Definition agree {A B : Type} (R : A -> B -> Prop) (m1 : M A) (m2 : M B) : Prop :=
  forall s1 s2, same_store s1 s2 ->
    same_store (m1 s1).1 (m2 s2).1 /\ same_outcome R (m1 s1).2 (m2 s2).2.

(** A computation that does nothing but log. *)
Definition silent (m : M unit) : Prop :=
  forall s, same_store (m s).1 s /\ (m s).2 = Return tt.

(** The engine reports the failure [e] for the text [sql] on the database
    [db]: the text does not parse, or its one statement cannot be carried
    out. *)
Definition store_fails (db : Sqlite.database) (sql : string) (e : Sqlite.error) : Prop :=
  Sqlite.parse_statement (Sqlite.lex sql) = Sqlite.Error e
  \/ exists s, Sqlite.parse_statement (Sqlite.lex sql) = Sqlite.Ok (s, [])
               /\ Sqlite.exec_stmt db s = Sqlite.Error e.

(** A store with one habit, for the examples. *)
Definition one_habit_state : state :=
  State ∅ {["db.sqlite3" := DbFile [habits_table [habit_row "read" "desc" true false]]]}
        None None WARNING false [] [].

Definition one_habit_context : HabitsTrackerSettings :=
  {| connection := {| conn_path := "db.sqlite3" |};
     database := "db.sqlite3"; verbose := false; debug := false |}.

(** The file system with the store of [one_habit_state]. *)
Definition one_habit_disk : disk :=
  Disk ∅ {["db.sqlite3" := DbFile [habits_table [habit_row "read" "desc" true false]]]}.

(** The store as the first run on a new file leaves it: the relation
    habits, without rows. *)
Definition empty_habits_disk : disk :=
  Disk ∅ {["db.sqlite3" := DbFile [habits_table []]]}.

(** One run of the program on the store at db.sqlite3. *)
Definition invoke (d : disk) (cmd : command) : run_result :=
  run "/data" d (Some "db.sqlite3") false false cmd.

(** The rows of habits in the store at db.sqlite3. *)
Definition habits_rows (d : disk) : option (list Sqlite.row) :=
  match disk_files d !! "db.sqlite3" with
  | Some (DbFile db) => option_map Sqlite.tbl_rows (Sqlite.find_table "habits" db)
  | _ => None
  end.

(** Texts with double quotes in them. *)
Definition a_quote_b : string := "a" +:+ String dquote "b".
Definition a_2quotes_b : string := "a" +:+ String dquote (String dquote "b").
Definition a_4quotes_b : string :=
  "a" +:+ String dquote (String dquote (String dquote (String dquote "b"))).

(** A description that closes its own quotes and the row, and opens a
    second row. *)
Definition two_rows_description : string :=
  "d" +:+ quoted ", " +:+ "True" +:+ quoted ", " +:+ "False"
      +:+ String dquote "), (" +:+ quoted "u" +:+ ", " +:+ String dquote "e".

(** A title that closes its own quotes, completes the row with numbers and
    turns the rest of the statement into a comment. *)
Definition numbers_title : string :=
  "t" +:+ quoted ", " +:+ "d" +:+ String dquote ", 1, 0) --".

(** One add after the other. *)
Fixpoint add_each (ctx : HabitsTrackerSettings) (kws : list Py.kwargs) : M unit :=
  match kws with
  | [] => mret tt
  | kwargs :: kws' => habit_add ctx kwargs;; add_each ctx kws'
  end.

(** The keyword arguments of an add with plain title and description. *)
Definition plain_add (kwargs : Py.kwargs) : Prop :=
  exists t d r n, add_arguments kwargs t d r n /\ plain t = true /\ plain d = true.

(** Is the value of the entry something else than None? *)
Definition not_none (kv : string * Py.value) : bool :=
  match kv.2 with
  | Py.PyNone => false
  | _ => true
  end.

(** Does the run work on the default store?  It does when the option
    [--database] is missing or empty. *)
Definition default_store (database : option string) : bool :=
  match database with
  | None => true
  | Some p => String.eqb p EmptyString
  end.

(** The path of the store a run works on. *)
Definition store_path (data_dir : string) (database : option string) : string :=
  match database with
  | Some p => if String.eqb p EmptyString then _DATABASE_FILE_PATH data_dir else p
  | None => _DATABASE_FILE_PATH data_dir
  end.

(** The first statement of [commands]: the logging the flags ask for. *)
Definition configure (database : option string) (verbose debug : bool) : M unit :=
  if verbose || debug then
    _logging (if debug then DEBUG else INFO);;
    logging_info "kwargs: '%s'"
      [ArgDict [("database", from_option Py.PyStr Py.PyNone database);
                ("verbose", Py.PyBool verbose); ("debug", Py.PyBool debug)]]
  else mret tt.

(** The state in which [commands] turns to the database: logging is set
    up and, for the default store, the data directory is there. *)
Definition prepared (data_dir : string) (database : option string) (verbose debug : bool)
           (st : state) : state :=
  let st1 := (configure database verbose debug st).1 in
  if default_store database then (_check_dir data_dir st1).1 else st1.

(** The settings [commands] leaves in the context. *)
Definition settings_of (data_dir : string) (con : Connection) (database : option string)
           (verbose debug : bool) : HabitsTrackerSettings :=
  {| connection := con;
     database := default (_DATABASE_FILE_PATH data_dir) database;
     verbose := verbose; debug := debug |}.

(** The command of [main] on the settings of the context. *)
Definition dispatch (context : HabitsTrackerSettings) (cmd : command) : M unit :=
  match cmd with
  | CmdAdd t d r n => habit_add context (add_kwargs t d r n)
  | CmdList => habits_list context
  | CmdExec c => exec_sql context c
  end.

(** Two states that are the same outside the store and the standard
    output: the directories, the logging configuration and the diagnostic
    stream. *)
Definition same_outside (s1 s2 : state) : Prop :=
  dirs s1 = dirs s2 /\ logger_level s1 = logger_level s2
  /\ root_level s1 = root_level s2 /\ root_handler s1 = root_handler s2
  /\ stderr s1 = stderr s2.

(** A computation that touches the store and the standard output only. *)
Definition store_only {A : Type} (m : M A) : Prop :=
  forall s, same_outside s (m s).1.

(** A computation that keeps the property [I] of the state, however it
    ends. *)
Definition keeps {A : Type} (I : state -> Prop) (m : M A) : Prop :=
  forall s, I s -> I (m s).1.

(** Logging as a process starts with it, and nothing written yet. *)
Definition quiet (s : state) : Prop :=
  logger_level s = None /\ root_level s = WARNING /\ root_handler s = false
  /\ stderr s = [].

(** The module's logger at INFO, and nothing but INFO records written. *)
Definition informative (s : state) : Prop :=
  logger_level s = Some INFO /\ Forall (fun rec => rec_level rec = INFO) (stderr s).

(** The module's logger at DEBUG, with a handler on the root logger. *)
Definition debugging (s : state) : Prop :=
  logger_level s = Some DEBUG /\ root_handler s = true.

(** The title of a stored row, when its first value is a text. *)
Definition row_title (r : Sqlite.row) : option string :=
  match r with
  | Sqlite.VText s :: _ => Some s
  | _ => None
  end.

Definition titles (rows : list Sqlite.row) : list string := omap row_title rows.


(** The file systems of [nowhere_state] and [notes_state]. *)
Definition nowhere_disk : disk := Disk ∅ {["/nowhere/db" := Unopenable]}.
Definition notes_disk : disk := Disk ∅ {["notes.db" := DbFile notes_db]}.

(** A text that sqlite3 can hand to the engine and that stands between
    double quotes as it is: well-formed UTF-8 without double quote and
    without NUL. *)
Definition plain_text (s : string) : bool := plain s && valid_utf8 s.

(** The store behind a connection holds the declared relation habits with
    the rows [rows], on the file and as the connection sees it; a
    transaction may be open. *)
Definition holds (con : Connection) (st : state) (rows : list Sqlite.row) : Prop :=
  Sqlite.find_table "habits" (view con st) = Some (habits_table rows)
  /\ exists db, files st !! conn_path con = Some (DbFile db)
                /\ Sqlite.find_table "habits" db = Some (habits_table rows).

(** A result of the engine that is no refusal by a constraint. *)
Definition benign {A : Type} (r : Sqlite.result A) : Prop :=
  match r with
  | Sqlite.Error e => Sqlite.is_constraint e = false
  | _ => True
  end.

(* ===================================================================== *)
(** ** Facts about strings and the tokenizer *)
(* ===================================================================== *)

Lemma app_empty_l (s : string) : EmptyString +:+ s = s.
Proof. reflexivity. Qed.

Lemma app_cons (c : ascii) (s t : string) : String c s +:+ t = String c (s +:+ t).
Proof. reflexivity. Qed.

Lemma app_empty_r (s : string) : s +:+ EmptyString = s.
Proof. induction s as [|c s IH]; [reflexivity|]. rewrite app_cons, IH. reflexivity. Qed.

Lemma app_assoc_r (a b c : string) : (a +:+ b) +:+ c = a +:+ (b +:+ c).
Proof.
  induction a as [|x a IH]; [reflexivity|].
  rewrite !app_cons, IH. reflexivity.
Qed.

Lemma snoc_app (acc : string) (c : ascii) (s : string) :
  snoc acc c +:+ s = acc +:+ String c s.
Proof. unfold snoc. rewrite app_assoc_r. reflexivity. Qed.

Lemma string_forall_app (p : ascii -> bool) (a b : string) :
  string_forall p (a +:+ b) = string_forall p a && string_forall p b.
Proof.
  induction a as [|x a IH]; [reflexivity|].
  rewrite app_cons. simpl. rewrite IH. apply andb_assoc.
Qed.

Lemma string_exists_app (p : ascii -> bool) (a b : string) :
  string_exists p (a +:+ b) = string_exists p a || string_exists p b.
Proof. unfold string_exists. rewrite string_forall_app. apply negb_andb. Qed.

Lemma plain_no_dquote (s : string) : plain s = true -> no_dquote s = true.
Proof. unfold plain. intros H. apply andb_prop in H. tauto. Qed.

Lemma utf8_run_app (s : utf8_state) (a b : string) :
  utf8_run s (a +:+ b) =
  match utf8_run s a with
  | Some s' => utf8_run s' b
  | None => None
  end.
Proof.
  revert s. induction a as [|c a IH]; intros s; [reflexivity|].
  rewrite app_cons. cbn [utf8_run]. destruct (utf8_step s c); [apply IH|reflexivity].
Qed.

(** After a well-formed text, what follows decides. *)
Lemma valid_utf8_after (a b : string) :
  valid_utf8 a = true -> valid_utf8 (a +:+ b) = valid_utf8 b.
Proof.
  unfold valid_utf8. rewrite utf8_run_app.
  destruct (utf8_run U0 a) as [[]|]; try discriminate. reflexivity.
Qed.

Lemma valid_utf8_app (a b : string) :
  valid_utf8 a = true -> valid_utf8 b = true -> valid_utf8 (a +:+ b) = true.
Proof. intros Ha Hb. rewrite (valid_utf8_after a b Ha). exact Hb. Qed.

Lemma valid_utf8_quoted (s : string) : valid_utf8 s = true -> valid_utf8 (quoted s) = true.
Proof.
  intros H. unfold quoted.
  change (String dquote (s +:+ String dquote EmptyString))
    with (String dquote EmptyString +:+ (s +:+ String dquote EmptyString)).
  apply valid_utf8_app; [reflexivity|]. apply valid_utf8_app; [exact H|reflexivity].
Qed.

Lemma valid_utf8_join (sep : string) (parts : list string) :
  valid_utf8 sep = true -> Forall (fun p => valid_utf8 p = true) parts ->
  valid_utf8 (join sep parts) = true.
Proof.
  intros Hs H. induction H as [|p parts Hp H IH]; [reflexivity|].
  cbn [join]. destruct parts as [|q parts]; [exact Hp|].
  apply valid_utf8_app; [exact Hp|]. apply valid_utf8_app; [exact Hs|exact IH].
Qed.

Lemma plain_no_nul (s : string) : plain s = true -> string_exists (Ascii.eqb nul) s = false.
Proof.
  unfold plain, no_nul. intros H. apply andb_prop in H. destruct H as [_ H].
  apply negb_true_iff in H. exact H.
Qed.

Section Tokenizer.
Import Sqlite.

(** The tokenizer reads a text piece by piece. *)
Lemma lex_run_app (m : mode) (s1 s2 : string) (ts1 : list token) (m1 : mode) :
  lex_run m s1 = (ts1, m1) ->
  lex_run m (s1 +:+ s2) = ((ts1 ++ (lex_run m1 s2).1)%list, (lex_run m1 s2).2).
Proof.
  revert m ts1 m1.
  induction s1 as [|c s1 IH]; intros m ts1 m1 H.
  - simpl in H. injection H as <- <-. rewrite app_empty_l.
    destruct (lex_run m s2); reflexivity.
  - rewrite app_cons. simpl in *.
    destruct (step m c) as [ts m'].
    destruct (lex_run m' s1) as [ts' m''] eqn:E.
    injection H as <- <-.
    rewrite (IH m' ts' m'' E). simpl.
    rewrite app_assoc. reflexivity.
Qed.

(** Inside double quotes every character but the double quote is taken
    as it is. *)
Lemma lex_run_inside (s acc : string) :
  no_dquote s = true -> lex_run (MDq acc) s = ([], MDq (acc +:+ s)).
Proof.
  revert acc. induction s as [|c s IH]; intros acc H.
  - rewrite app_empty_r. reflexivity.
  - simpl in H. apply andb_prop in H. destruct H as [Hc Hs].
    apply negb_true_iff in Hc.
    simpl. rewrite Hc. rewrite (IH _ Hs), snoc_app. reflexivity.
Qed.

(** A text without double quote, put between double quotes, is one
    token once the next character is seen. *)
Lemma lex_run_quoted (s : string) :
  no_dquote s = true -> lex_run MStart (quoted s) = ([], MDqQ s).
Proof.
  intros H. unfold quoted.
  change (String dquote (s +:+ String dquote EmptyString))
    with (String dquote EmptyString +:+ (s +:+ String dquote EmptyString)).
  rewrite (lex_run_app MStart _ _ [] (MDq EmptyString)) by reflexivity.
  rewrite (lex_run_app _ _ _ _ _ (lex_run_inside s EmptyString H)).
  reflexivity.
Qed.

(** Reading a text piece by piece. *)
Lemma lex_is_lex_from (s : string) : lex s = lex_from [] MStart s.
Proof. unfold lex, lex_from. destruct (lex_run MStart s). reflexivity. Qed.

Lemma lex_from_app acc m s1 s2 ts1 m1 :
  lex_run m s1 = (ts1, m1) ->
  lex_from acc m (s1 +:+ s2) = lex_from (acc ++ ts1) m1 s2.
Proof.
  intros H. unfold lex_from. rewrite (lex_run_app m s1 s2 ts1 m1 H). simpl.
  rewrite app_assoc. reflexivity.
Qed.

End Tokenizer.

(** One step through a text that is a chain of pieces: the next piece is a
    plain text between double quotes, or it is known and can be run. *)
Ltac lex_piece :=
  erewrite lex_from_app;
  [ | first [ apply lex_run_quoted; assumption | vm_compute; reflexivity ] ].

(* ===================================================================== *)
(** ** The relation habits and the statement of [habit_add] *)
(* ===================================================================== *)

Section InsertEffect.
Import Sqlite.

Lemma conflicts_title (t : string) (rest r' : row) :
  conflicts habits_columns ["title"] (VText t :: rest) r' = title_is t r'.
Proof.
  destruct r' as [|[| |s] r']; try reflexivity.
  unfold conflicts. simpl. apply andb_true_r.
Qed.

Lemma unique_violation_habits (t : string) (rest : row) (rows : list row) :
  unique_violation habits_columns habits_unique rows (VText t :: rest)
  = if has_title t rows then Some ["title"] else None.
Proof.
  assert (E : existsb (conflicts habits_columns ["title"] (VText t :: rest)) rows
              = has_title t rows).
  { unfold has_title. induction rows as [|r' rows IH]; [reflexivity|].
    simpl. rewrite conflicts_title, IH. reflexivity. }
  unfold unique_violation, habits_unique. simpl. rewrite E.
  destruct (has_title t rows); reflexivity.
Qed.

(** One row, given under the column names [keys], that sqlite stores as
    the row of a habit: it goes in unless its title is there. *)
Lemma insert_habit_row (keys : list string) (vals : row) (t d : string) (r n : bool)
      (rows0 rows : list row) :
  store_row habits_columns keys vals = Ok (habit_row t d r n) ->
  insert_rows (habits_table rows0) keys rows [vals]
  = if has_title t rows then Error (UniqueFailed "habits" ["title"])
    else Ok (rows ++ [habit_row t d r n])%list.
Proof.
  intros Hs.
  assert (Hn : null_violation habits_columns (habit_row t d r n) = None)
    by reflexivity.
  assert (Hu : unique_violation habits_columns habits_unique rows (habit_row t d r n)
               = if has_title t rows then Some ["title"] else None)
    by apply unique_violation_habits.
  cbn [insert_rows tbl_columns tbl_unique tbl_name habits_table].
  rewrite Hs. cbn [mbind result_bind].
  rewrite Hn, Hu.
  destruct (has_title t rows); reflexivity.
Qed.

(** The effect of an INSERT of one such row on a database whose relation
    habits is the declared one. *)
Lemma exec_insert_habit (db : database) (keys : list string) (vals : row)
      (t d : string) (r n : bool) (rows : list row) :
  find_table "habits" db = Some (habits_table rows) ->
  find (fun c => negb (knows_column habits_columns c)) keys = None ->
  has_duplicate keys = false ->
  (length vals =? length keys)%nat = true ->
  store_row habits_columns keys vals = Ok (habit_row t d r n) ->
  exec_stmt db (Insert "habits" (Some keys) [vals])
  = if has_title t rows then Error (UniqueFailed "habits" ["title"])
    else Ok (replace_table (habits_table (rows ++ [habit_row t d r n])) db, []).
Proof.
  intros Hf H2 H3 H4 Hs. unfold exec_stmt, exec_insert.
  cbn [same_width forallb negb]. rewrite Hf.
  cbn [default from_option id tbl_columns tbl_name tbl_unique tbl_rows habits_table].
  rewrite H2, H3. cbn [find]. rewrite H4. cbn [negb].
  rewrite (insert_habit_row keys vals t d r n rows rows Hs).
  destruct (has_title t rows); reflexivity.
Qed.

End InsertEffect.

(* ===================================================================== *)
(** ** Facts about the process state *)
(* ===================================================================== *)

(** Unfolding of the monad. *)
Ltac monad :=
  unfold mbind, M_bind, mret, M_ret, raise, unmodelled, get_state, modify in *.

(** Logging touches nothing but the diagnostic stream. *)
Lemma files_log_state lvl msg args st : files (log_state lvl msg args st) = files st.
Proof. unfold log_state. destruct (_ && _); reflexivity. Qed.

Lemma dirs_log_state lvl msg args st : dirs (log_state lvl msg args st) = dirs st.
Proof. unfold log_state. destruct (_ && _); reflexivity. Qed.

Lemma pending_log_state lvl msg args st : pending (log_state lvl msg args st) = pending st.
Proof. unfold log_state. destruct (_ && _); reflexivity. Qed.

Lemma stdout_log_state lvl msg args st : stdout (log_state lvl msg args st) = stdout st.
Proof. unfold log_state. destruct (_ && _); reflexivity. Qed.

Lemma view_log_state con lvl msg args st : view con (log_state lvl msg args st) = view con st.
Proof. unfold view. rewrite pending_log_state, files_log_state. reflexivity. Qed.

(** The database of a connection without open transaction. *)
Lemma view_file con st db :
  pending st = None -> files st !! conn_path con = Some (DbFile db) -> view con st = db.
Proof. intros Hp Hf. unfold view. rewrite Hp, Hf. reflexivity. Qed.

(** The BEGIN before an INSERT changes nothing but the transaction, and
    the connection sees what it saw. *)
Lemma view_begin_state con st : view con (begin_state con st) = view con st.
Proof.
  unfold begin_state. destruct (pending st) eqn:E; [reflexivity|].
  unfold view at 1. reflexivity.
Qed.

Lemma begin_state_frame con st :
  files (begin_state con st) = files st /\ dirs (begin_state con st) = dirs st
  /\ stdout (begin_state con st) = stdout st /\ stderr (begin_state con st) = stderr st.
Proof. unfold begin_state. destruct (pending st); auto. Qed.

Lemma apply_change_begin con k db st :
  apply_change con k db (begin con k st).1 = apply_change con k db st.
Proof.
  destruct k; try reflexivity.
  cbn [begin modify fst apply_change]. unfold begin_state.
  destruct (pending st); reflexivity.
Qed.

(** Only an INSERT meets a constraint. *)
Lemma constraint_of_insert db s e :
  Sqlite.exec_stmt db s = Sqlite.Error e -> Sqlite.is_constraint e = true ->
  Sqlite.kind_of s = Sqlite.Dml.
Proof.
  destruct s as [n cols uniques|n cols rows|n|n|]; cbn [Sqlite.exec_stmt Sqlite.kind_of];
    intros He Hc; try reflexivity; exfalso.
  - unfold Sqlite.exec_create in He.
    destruct (Sqlite.find_table n db); [|destruct (_ || _)%bool; discriminate].
    cbn in He. injection He as <-. discriminate.
  - destruct (Sqlite.find_table n db); [discriminate|]. injection He as <-. discriminate.
  - destruct (Sqlite.find_table n db); [discriminate|]. injection He as <-. discriminate.
  - discriminate.
Qed.

(** [execute] on a text that holds one statement: the statement runs on
    the database the connection sees.  A statement that a constraint
    refuses leaves the transaction begun for it. *)
Lemma execute_statement con sql s st :
  valid_utf8 sql = true ->
  string_exists (Ascii.eqb nul) sql = false ->
  Sqlite.parse_statement (Sqlite.lex sql) = Sqlite.Ok (s, []) ->
  execute con sql st =
  match Sqlite.exec_stmt (view con st) s with
  | Sqlite.Ok (db', rows) =>
      (apply_change con (Sqlite.kind_of s) db' st, Return (map fetch rows))
  | Sqlite.Error e =>
      (if Sqlite.is_constraint e then begin_state con st else st,
       Raise (sqlite_exception e))
  | Sqlite.Unmodelled => (st, Unmodelled)
  end.
Proof.
  intros Hv Hn Hp. unfold execute. rewrite Hv, Hn, Hp. cbn [negb].
  unfold lift, prepared_statement. monad.
  destruct (Sqlite.exec_stmt (view con st) s) as [[db' rows]|e|] eqn:He;
    cbn beta iota.
  - pose proof (apply_change_begin con (Sqlite.kind_of s) db' st) as E.
    destruct (Sqlite.kind_of s); cbn [begin modify fst] in *;
      monad; cbn beta iota; rewrite ?E; reflexivity.
  - destruct (Sqlite.is_constraint e) eqn:Hc; [|reflexivity].
    rewrite (constraint_of_insert _ _ _ He Hc). reflexivity.
  - reflexivity.
Qed.

(** A parse error leaves [execute] as the exception. *)
Lemma execute_parse_error con sql e st :
  valid_utf8 sql = true ->
  string_exists (Ascii.eqb nul) sql = false ->
  Sqlite.parse_statement (Sqlite.lex sql) = Sqlite.Error e ->
  execute con sql st = (st, Raise (sqlite_exception e)).
Proof. intros Hv Hn Hp. unfold execute. rewrite Hv, Hn, Hp. reflexivity. Qed.

(** A text that cannot be encoded does not reach sqlite. *)
Lemma execute_not_encoded con sql st :
  valid_utf8 sql = false -> execute con sql st = (st, Raise UnicodeEncodeError).
Proof. intros Hv. unfold execute. rewrite Hv. reflexivity. Qed.

Lemma string_exists_quoted (p : ascii -> bool) (s : string) :
  string_exists p (quoted s) = p dquote || string_exists p s.
Proof.
  unfold quoted.
  change (String dquote (s +:+ String dquote EmptyString))
    with (String dquote EmptyString +:+ (s +:+ String dquote EmptyString)).
  rewrite !string_exists_app.
  unfold string_exists. simpl. destruct (p dquote), (string_forall _ s); reflexivity.
Qed.

Lemma find_replace_habits (db : Sqlite.database) (rows rows' : list Sqlite.row) :
  Sqlite.find_table "habits" db = Some (habits_table rows) ->
  Sqlite.find_table "habits" (Sqlite.replace_table (habits_table rows') db)
  = Some (habits_table rows').
Proof.
  induction db as [|t0 db IH]; intros H; [discriminate|].
  simpl in *.
  destruct (Sqlite.name_eqb "habits" (Sqlite.tbl_name t0)) eqn:E.
  - simpl. reflexivity.
  - simpl. rewrite E. apply IH, H.
Qed.

Lemma stored_view con st rows :
  stored con st rows ->
  Sqlite.find_table "habits" (view con st) = Some (habits_table rows).
Proof.
  intros [Hp (db & Hf & Ht)]. rewrite (view_file con st db Hp Hf). exact Ht.
Qed.

Lemma stored_logged con kwargs st rows :
  stored con st rows -> stored con (habit_add_logged kwargs st) rows.
Proof.
  unfold stored, habit_add_logged. rewrite !pending_log_state, !files_log_state. tauto.
Qed.

Lemma stored_committed con db st rows :
  Sqlite.find_table "habits" db = Some (habits_table rows) ->
  stored con (committed con db st) rows.
Proof.
  intros H. split; [reflexivity|]. exists db. split; [|exact H].
  simpl. apply lookup_insert_eq.
Qed.

(** [habit_add] on keyword arguments whose statement sqlite reads as the
    INSERT of one row [vals] under the column names [keys], stored as the
    row of a habit. *)
Lemma habit_add_statement ctx kwargs keys vals t d r n st rows :
  valid_utf8 (insert_statement kwargs) = true ->
  string_exists (Ascii.eqb nul) (insert_statement kwargs) = false ->
  Sqlite.parse_statement (Sqlite.lex (insert_statement kwargs))
  = Sqlite.Ok (Sqlite.Insert "habits" (Some keys) [vals], []) ->
  find (fun c => negb (Sqlite.knows_column habits_columns c)) keys = None ->
  Sqlite.has_duplicate keys = false ->
  (length vals =? length keys)%nat = true ->
  Sqlite.store_row habits_columns keys vals = Sqlite.Ok (habit_row t d r n) ->
  stored (connection ctx) st rows ->
  habit_add ctx kwargs st =
  let st1 := habit_add_logged kwargs st in
  if has_title t rows
  then (begin_state (connection ctx) st1,
        Raise (IntegrityError (Sqlite.UniqueFailed "habits" ["title"])))
  else (committed (connection ctx)
          (Sqlite.replace_table (habits_table (rows ++ [habit_row t d r n]))
                                (view (connection ctx) st)) st1,
        Return tt).
Proof.
  intros Hvalid Hnul Hparse H2 H3 H4 Hrow Hs.
  pose proof (stored_logged _ kwargs _ _ Hs) as Hs1.
  pose proof (stored_view _ _ _ Hs1) as Hv.
  assert (Hview : view (connection ctx) (habit_add_logged kwargs st)
                  = view (connection ctx) st).
  { unfold habit_add_logged. rewrite !view_log_state. reflexivity. }
  unfold habit_add, logger_debug, logger_log. monad.
  fold (habit_add_logged kwargs st).
  rewrite (execute_statement _ _ _ _ Hvalid Hnul Hparse).
  rewrite (exec_insert_habit _ keys vals t d r n rows Hv H2 H3 H4 Hrow).
  destruct (has_title t rows); [reflexivity|].
  rewrite Hview. cbn [Sqlite.kind_of apply_change].
  unfold commit. monad. cbn [pending set_pending]. reflexivity.
Qed.

(** The statement built from plain texts, whatever the order of the
    arguments, holds no NUL ... *)
Ltac statement_no_nul Ht Hd :=
  unfold insert_statement; cbn [map fst snd join Py.str];
  rewrite !string_exists_app, !string_exists_quoted,
          (plain_no_nul _ Ht), (plain_no_nul _ Hd);
  reflexivity.

(** ... and is read by sqlite as the INSERT of its values under its
    keys. *)
Ltac statement_parses Ht Hd :=
  pose proof (plain_no_dquote _ Ht); pose proof (plain_no_dquote _ Hd);
  rewrite lex_is_lex_from;
  unfold insert_statement; cbn [map fst snd join Py.str];
  rewrite ?app_assoc_r;
  repeat lex_piece; reflexivity.

(** [habit_add] with plain texts in a statement that can be encoded, in
    full, for every order of the options: a title already there is refused
    by the UNIQUE constraint, with nothing changed in the transaction begun
    for the INSERT; a new title adds its row of four texts, which is
    committed. *)
Lemma habit_add_plain ctx kwargs t d r n st rows :
  add_arguments kwargs t d r n ->
  plain t = true -> plain d = true ->
  valid_utf8 (insert_statement kwargs) = true ->
  stored (connection ctx) st rows ->
  habit_add ctx kwargs st =
  let st1 := habit_add_logged kwargs st in
  if has_title t rows
  then (begin_state (connection ctx) st1,
        Raise (IntegrityError (Sqlite.UniqueFailed "habits" ["title"])))
  else (committed (connection ctx)
          (Sqlite.replace_table (habits_table (rows ++ [habit_row t d r n]))
                                (view (connection ctx) st)) st1,
        Return tt).
Proof.
  intros Hk Ht Hd Hvalid Hs. unfold add_arguments in Hk.
  symmetry in Hk. apply permutations_Permutation in Hk.
  unfold add_kwargs in Hk.
  cbv [permutations interleave fmap list_fmap mbind list_bind app] in Hk.
  repeat (apply elem_of_cons in Hk; destruct Hk as [->|Hk]);
    [..|apply elem_of_nil in Hk; destruct Hk];
    destruct r, n;
    (eapply habit_add_statement;
     [ exact Hvalid
     | statement_no_nul Ht Hd
     | statement_parses Ht Hd
     | reflexivity | reflexivity | reflexivity | reflexivity
     | exact Hs ]).
Qed.

(** [habit_add] on texts that cannot be encoded: the statement does not
    reach sqlite. *)
Lemma habit_add_not_encoded ctx kwargs st :
  valid_utf8 (insert_statement kwargs) = false ->
  habit_add ctx kwargs st = (habit_add_logged kwargs st, Raise UnicodeEncodeError).
Proof.
  intros Hv. unfold habit_add, logger_debug, logger_log. monad.
  fold (habit_add_logged kwargs st). rewrite (execute_not_encoded _ _ _ Hv). reflexivity.
Qed.

(** The statement can be encoded when the values can: the keys are
    ASCII words. *)
Lemma insert_statement_valid kwargs t d r n :
  add_arguments kwargs t d r n ->
  valid_utf8 t = true -> valid_utf8 d = true ->
  valid_utf8 (insert_statement kwargs) = true.
Proof.
  intros Hk Ht Hd.
  assert (H : Forall (fun x => valid_utf8 (fst x) = true
                               /\ valid_utf8 (Py.str (snd x)) = true) kwargs).
  { unfold add_arguments in Hk. rewrite Hk. unfold add_kwargs.
    repeat constructor; cbn [fst snd Py.str]; try assumption; try reflexivity;
      [destruct r; reflexivity|destruct n; reflexivity]. }
  unfold insert_statement. cbn zeta.
  apply valid_utf8_app; [reflexivity|]. apply valid_utf8_app.
  - apply valid_utf8_join; [reflexivity|]. apply Forall_map.
    eapply Forall_impl; [exact H|]. intros x [Hx _]. exact Hx.
  - apply valid_utf8_app; [reflexivity|]. apply valid_utf8_app; [|reflexivity].
    apply valid_utf8_join; [reflexivity|]. apply Forall_map.
    eapply Forall_impl; [exact H|]. intros x [_ Hx]. apply valid_utf8_quoted, Hx.
Qed.

Lemma plain_text_split s : plain_text s = true -> plain s = true /\ valid_utf8 s = true.
Proof. unfold plain_text. apply andb_true_iff. Qed.

(** [habit_add] on plain texts that can be encoded. *)
Lemma habit_add_plain_text ctx kwargs t d r n st rows :
  add_arguments kwargs t d r n ->
  plain_text t = true -> plain_text d = true ->
  stored (connection ctx) st rows ->
  habit_add ctx kwargs st =
  let st1 := habit_add_logged kwargs st in
  if has_title t rows
  then (begin_state (connection ctx) st1,
        Raise (IntegrityError (Sqlite.UniqueFailed "habits" ["title"])))
  else (committed (connection ctx)
          (Sqlite.replace_table (habits_table (rows ++ [habit_row t d r n]))
                                (view (connection ctx) st)) st1,
        Return tt).
Proof.
  intros Hk Ht Hd Hs.
  apply plain_text_split in Ht as [Ht Ht'], Hd as [Hd Hd'].
  apply (habit_add_plain ctx kwargs t d r n st rows Hk Ht Hd); [|exact Hs].
  apply (insert_statement_valid kwargs t d r n Hk Ht' Hd').
Qed.

(** The habit read back from its row. *)
Lemma from_values_habit_row (t d : string) (r n : bool) :
  from_values (fetch (habit_row t d r n)) = inr (mkHabit t d r n).
Proof. destruct r, n; reflexivity. Qed.


(** [habits_list] on the relation habits. *)
Lemma habits_list_stored ctx st rows :
  stored (connection ctx) st rows ->
  habits_list ctx st =
  match habits_of (map fetch rows) with
  | inr hs => (add_stdout (PrintHabits hs) st, Return tt)
  | inl e => (st, Raise e)
  end.
Proof.
  intros Hs. pose proof (stored_view _ _ _ Hs) as Hv.
  unfold habits_list. monad.
  rewrite (execute_statement _ _ (Sqlite.SelectAll "habits")) by reflexivity.
  cbn [Sqlite.exec_stmt]. rewrite Hv. cbn [Sqlite.kind_of apply_change habits_table Sqlite.tbl_rows].
  destruct (habits_of (map fetch rows)); reflexivity.
Qed.

(** The raw query that counts the habits. *)
Lemma exec_sql_count ctx st rows :
  stored (connection ctx) st rows ->
  exec_sql ctx "SELECT COUNT(*) FROM habits" st =
  (add_stdout (PrintRows [[Py.PyInt (Z.of_nat (length rows))]]) st, Return tt).
Proof.
  intros Hs. pose proof (stored_view _ _ _ Hs) as Hv.
  unfold exec_sql. monad.
  rewrite (execute_statement _ _ (Sqlite.SelectCount "habits")) by reflexivity.
  cbn [Sqlite.exec_stmt]. rewrite Hv. reflexivity.
Qed.


(* ===================================================================== *)
(** ** Properties of [Model.from_values] *)
(* ===================================================================== *)

(** On four values or more, the result hangs on the validators of the
    first four alone. *)
Lemma from_values_four (v0 v1 v2 v3 : Py.value) (rest : list Py.value) :
  from_values (v0 :: v1 :: v2 :: v3 :: rest) =
  Habit_checked (Pydantic.str_validator v0) (Pydantic.str_validator v1)
                (Pydantic.bool_validator v2) (Pydantic.bool_validator v3).
Proof. reflexivity. Qed.

Lemma Habit_checked_missing t d r :
  exists errs, Habit_checked t d r (inl Pydantic.Missing) = inl (ValidationError errs).
Proof. destruct t, d, r; eexists; reflexivity. Qed.

(** With fewer than four values the last field at least is missing. *)
Lemma from_values_short (values : list Py.value) :
  (length values < 4)%nat ->
  exists errs, from_values (T := Habit) values = inl (ValidationError errs).
Proof.
  intros H.
  destruct values as [|v0 [|v1 [|v2 [|v3 rest]]]];
    [| | | |simpl in H; lia]; apply Habit_checked_missing.
Qed.

(** A value among the first four that its validator refuses. *)
Lemma from_values_refused (values : list Py.value) (i : nat) (v : Py.value) :
  values !! i = Some v -> field_accepts i v = false ->
  exists errs, from_values (T := Habit) values = inl (ValidationError errs).
Proof.
  intros Hi Hv.
  destruct (decide (length values < 4)%nat) as [Hl|Hl];
    [apply from_values_short, Hl|].
  destruct values as [|v0 [|v1 [|v2 [|v3 rest]]]]; try (simpl in Hl; lia).
  rewrite from_values_four.
  destruct i as [|[|[|[|i]]]]; simpl in Hi, Hv; try discriminate;
    injection Hi as ->.
  - destruct (Pydantic.str_validator v); [|discriminate].
    destruct (Pydantic.str_validator v1), (Pydantic.bool_validator v2),
             (Pydantic.bool_validator v3); eexists; reflexivity.
  - destruct (Pydantic.str_validator v); [|discriminate].
    destruct (Pydantic.str_validator v0), (Pydantic.bool_validator v2),
             (Pydantic.bool_validator v3); eexists; reflexivity.
  - destruct (Pydantic.bool_validator v); [|discriminate].
    destruct (Pydantic.str_validator v0), (Pydantic.str_validator v1),
             (Pydantic.bool_validator v3); eexists; reflexivity.
  - destruct (Pydantic.bool_validator v); [|discriminate].
    destruct (Pydantic.str_validator v0), (Pydantic.str_validator v1),
             (Pydantic.bool_validator v2); eexists; reflexivity.
Qed.

(** C4, as stated, fails: a sequence of five values for the four fields of
    [Habit] has a length that differs from the field count, and
    [from_values] makes a habit of it instead of failing. *)
Lemma from_values_accepts_five :
  (length five_values <> 4)%nat /\
  (~ exists errs, from_values (T := Habit) five_values = inl (ValidationError errs)).
Proof.
  split; [discriminate|]. intros [errs H]. discriminate H.
Qed.

(** C4, amended: [from_values] fails with pydantic's ValidationError, the
    MalformedRecordError of the taxonomy, on every sequence shorter than the
    four fields of [Habit] and on every sequence in which one of the first
    four values is refused by the validator of its field.  A sequence longer
    than the field count is not refused for its length. *)
Theorem from_values_rejects (values : list Py.value) :
  ((length values < 4)%nat ->
   exists errs, from_values (T := Habit) values = inl (ValidationError errs))
  /\ (forall (i : nat) (v : Py.value),
        values !! i = Some v -> field_accepts i v = false ->
        exists errs, from_values (T := Habit) values = inl (ValidationError errs)).
Proof.
  split; [apply from_values_short|apply from_values_refused].
Qed.

(** The three values of the spec's example are refused, and so are four
    values of which the third is no boolean. *)
Lemma from_values_rejects_witness :
  (exists errs, from_values (T := Habit)
                  [Py.PyStr "read"; Py.PyStr "desc"; Py.PyBool true]
                = inl (ValidationError errs))
  /\ (exists errs, from_values (T := Habit)
                     [Py.PyStr "read"; Py.PyStr "desc"; Py.PyStr "maybe"; Py.PyBool false]
                   = inl (ValidationError errs)).
Proof.
  split.
  - apply (proj1 (from_values_rejects
                    [Py.PyStr "read"; Py.PyStr "desc"; Py.PyBool true])).
    simpl. lia.
  - apply (proj2 (from_values_rejects
                    [Py.PyStr "read"; Py.PyStr "desc"; Py.PyStr "maybe"; Py.PyBool false])
                 2%nat (Py.PyStr "maybe")); reflexivity.
Defined.

(** For every model class: [zip] stops at the last field, so the values
    beyond the field count never reach the constructor. *)
Lemma zip_take_fields {A B : Type} (fields : list A) (values : list B) :
  zip fields values = zip fields (take (length fields) values).
Proof.
  revert values. induction fields as [|f fields IH]; intros [|v values];
    try reflexivity.
  simpl. f_equal. apply IH.
Qed.

Lemma from_values_take {T : Type} `{Model T} (values : list Py.value) :
  from_values values = from_values (take (length __fields__) values).
Proof. unfold from_values. rewrite <- zip_take_fields. reflexivity. Qed.

(** C9, as stated, fails: a sequence longer than the field count does not
    make [from_values] succeed when its first values are refused. *)
Lemma from_values_five_nones :
  (4 < length five_nones)%nat /\
  (~ exists h : Habit, from_values five_nones = inr h).
Proof.
  split; [simpl; lia|]. intros [h H]. discriminate H.
Qed.

(** C9, amended: on a sequence strictly longer than the four fields of
    [Habit], [from_values] gives what it gives on the first four values
    alone; when the validators take these four it succeeds and builds the
    habit from them in their order.  The surplus is dropped without any
    error. *)
Theorem from_values_discards_surplus (v0 v1 v2 v3 : Py.value) (surplus : list Py.value) :
  surplus <> [] ->
  from_values (T := Habit) (v0 :: v1 :: v2 :: v3 :: surplus)
  = from_values [v0; v1; v2; v3]
  /\ (forall (t d : string) (r n : bool),
        Pydantic.str_validator v0 = inr t -> Pydantic.str_validator v1 = inr d ->
        Pydantic.bool_validator v2 = inr r -> Pydantic.bool_validator v3 = inr n ->
        from_values (v0 :: v1 :: v2 :: v3 :: surplus) = inr (mkHabit t d r n)).
Proof.
  intros _. split.
  - rewrite (from_values_take (v0 :: v1 :: v2 :: v3 :: surplus)). reflexivity.
  - intros t d r n Ht Hd Hr Hn. rewrite from_values_four, Ht, Hd, Hr, Hn.
    reflexivity.
Qed.

(** The five values of the example: the fifth is dropped and the habit is
    made of the first four. *)
Lemma from_values_discards_surplus_witness :
  from_values (T := Habit) five_values
  = from_values [Py.PyStr "read"; Py.PyStr "desc"; Py.PyBool true; Py.PyBool false]
  /\ from_values five_values = inr (mkHabit "read" "desc" true false).
Proof.
  destruct (from_values_discards_surplus
              (Py.PyStr "read") (Py.PyStr "desc") (Py.PyBool true) (Py.PyBool false)
              [Py.PyStr "extra"]) as [H1 H2]; [discriminate|].
  split; [exact H1|]. apply H2; reflexivity.
Defined.

(* ===================================================================== *)
(** ** Properties of [_check_database] *)
(* ===================================================================== *)

Lemma catalog_query con st :
  execute con "SELECT * FROM sqlite_master WHERE type='table'" st
  = (st, Return (map fetch (map Sqlite.master_row (view con st)))).
Proof.
  rewrite (execute_statement _ _ Sqlite.SelectMasterTables) by reflexivity.
  reflexivity.
Qed.

(** A store with a relation is left alone. *)
Lemma check_database_nonempty path st db :
  pending st = None -> files st !! path = Some (DbFile db) -> db <> [] ->
  _check_database path st = (checking path st, Return {| conn_path := path |}).
Proof.
  intros Hp Hf Hne.
  unfold _check_database, logger_info, logger_log. monad.
  fold (checking path st).
  unfold connect. unfold checking at 1. rewrite files_log_state, Hf.
  fold (checking path st). rewrite catalog_query.
  rewrite (view_file {| conn_path := path |} (checking path st) db).
  - destruct db as [|t db]; [congruence|]. reflexivity.
  - unfold checking. rewrite pending_log_state. exact Hp.
  - unfold checking. rewrite files_log_state. exact Hf.
Qed.

(** A file that cannot be opened. *)
Lemma check_database_unopenable path st :
  files st !! path = Some Unopenable ->
  _check_database path st = (checking path st, Raise (UnableToOpen path)).
Proof.
  intros Hf.
  unfold _check_database, logger_info, logger_log. monad.
  fold (checking path st).
  unfold connect. unfold checking at 1. rewrite files_log_state, Hf. reflexivity.
Qed.

(** A new file, or one without any relation: the schema script runs. *)
Lemma check_database_empty path st :
  pending st = None ->
  files st !! path = None \/ files st !! path = Some (DbFile []) ->
  _check_database path st =
  (logger_info "Checking database file '%s'." [ArgStr path];;
   connection ← connect path;
   create_tables connection;;
   mret connection) st.
Proof.
  intros Hp Hf.
  unfold _check_database, logger_info, logger_log. monad.
  fold (checking path st).
  assert (Hp' : pending (checking path st) = None)
    by (unfold checking; rewrite pending_log_state; exact Hp).
  assert (Hf' : files (checking path st) !! path = files st !! path)
    by (unfold checking; rewrite files_log_state; reflexivity).
  unfold connect. rewrite Hf'.
  destruct Hf as [Hf|Hf]; rewrite Hf; rewrite catalog_query.
  - rewrite (view_file _ _ []); [|exact Hp'|simpl; apply lookup_insert_eq].
    cbn [map].
    destruct (create_tables _ _) as [st' [[]|e|]]; reflexivity.
  - rewrite (view_file _ _ []); [|exact Hp'|cbn [conn_path]; rewrite Hf'; exact Hf].
    cbn [map].
    destruct (create_tables _ _) as [st' [[]|e|]]; reflexivity.
Qed.

(** What sqlite makes of the schema script on a database without
    relations: the first statement creates habits; the second has, after
    the column name PRIMARY_KEY, a parenthesis where a type name, a
    constraint, a comma or the end of the list must follow, and the script
    ends there with a syntax error. *)
Lemma script_on_empty :
  Sqlite.run_script (S (length (Sqlite.lex _CREATE_TABLES))) [] (Sqlite.lex _CREATE_TABLES)
  = Some ([habits_table []], Some (Sqlite.SyntaxNear Sqlite.TLp)).
Proof. vm_compute. reflexivity. Qed.

(** The schema script holds no NUL character and can be encoded. *)
Lemma script_no_nul : string_exists (Ascii.eqb nul) _CREATE_TABLES = false.
Proof. vm_compute. reflexivity. Qed.

Lemma script_valid : valid_utf8 _CREATE_TABLES = true.
Proof. vm_compute. reflexivity. Qed.

(** [create_tables] on a database without relations. *)
Lemma create_tables_empty con st :
  pending st = None -> view con st = [] ->
  create_tables con st =
  (set_files (insert (conn_path con) (DbFile [habits_table []]))
             (log_state INFO "Creating tables." [] st),
   Raise (OperationalError (Sqlite.SyntaxNear Sqlite.TLp))).
Proof.
  intros Hp Hv.
  unfold create_tables, logger_info, logger_log, executescript.
  rewrite script_valid, script_no_nul. cbn [negb]. unfold commit. monad.
  rewrite pending_log_state, Hp, view_log_state, Hv, script_on_empty.
  reflexivity.
Qed.

(** The first run on a new file, or on a file without relations: the
    relation habits is created and committed, and the run ends with the
    syntax error of the schema script. *)
Lemma check_database_fresh path st :
  pending st = None ->
  files st !! path = None \/ files st !! path = Some (DbFile []) ->
  exists st',
    _check_database path st = (st', Raise (OperationalError (Sqlite.SyntaxNear Sqlite.TLp)))
    /\ files st' = <[path := DbFile [habits_table []]]> (files st)
    /\ pending st' = None /\ dirs st' = dirs st /\ stdout st' = stdout st.
Proof.
  intros Hp Hf. rewrite (check_database_empty path st Hp Hf).
  unfold logger_info, logger_log. monad. fold (checking path st).
  assert (Hp' : pending (checking path st) = None)
    by (unfold checking; rewrite pending_log_state; exact Hp).
  assert (Hf' : files (checking path st) = files st)
    by (unfold checking; rewrite files_log_state; reflexivity).
  assert (Hd' : dirs (checking path st) = dirs st)
    by (unfold checking; rewrite dirs_log_state; reflexivity).
  assert (Ho' : stdout (checking path st) = stdout st)
    by (unfold checking; rewrite stdout_log_state; reflexivity).
  unfold connect. rewrite Hf'.
  destruct Hf as [Hf|Hf]; rewrite Hf.
  - rewrite create_tables_empty;
      [|exact Hp'|apply view_file; [exact Hp'|simpl; apply lookup_insert_eq]].
    eexists. split; [reflexivity|].
    cbn [files pending dirs stdout set_files].
    rewrite files_log_state, pending_log_state, dirs_log_state, stdout_log_state.
    cbn [files pending dirs stdout set_files conn_path].
    rewrite Hf', insert_insert_eq. auto.
  - rewrite create_tables_empty;
      [|exact Hp'|apply view_file; [exact Hp'|cbn [conn_path]; rewrite Hf'; exact Hf]].
    eexists. split; [reflexivity|].
    cbn [files pending dirs stdout set_files].
    rewrite files_log_state, pending_log_state, dirs_log_state, stdout_log_state.
    rewrite Hf'. auto.
Qed.

(** Whatever the first run does, it leaves a store with a relation. *)
Lemma check_database_leaves_catalog path st :
  pending st = None -> files st !! path <> Some Unopenable ->
  pending (_check_database path st).1 = None /\
  exists db, files (_check_database path st).1 !! path = Some (DbFile db) /\ db <> [].
Proof.
  intros Hp Hu.
  destruct (files st !! path) as [[|[|t db]]|] eqn:Hf.
  - congruence.
  - destruct (check_database_fresh path st Hp (or_intror Hf)) as (st' & E & Hf' & Hp' & _).
    rewrite E. split; [exact Hp'|]. exists [habits_table []].
    simpl. rewrite Hf', lookup_insert_eq. split; [reflexivity|discriminate].
  - rewrite (check_database_nonempty path st (t :: db) Hp Hf) by discriminate.
    unfold checking. simpl. rewrite pending_log_state, files_log_state.
    split; [exact Hp|]. exists (t :: db). split; [exact Hf|discriminate].
  - destruct (check_database_fresh path st Hp (or_introl Hf)) as (st' & E & Hf' & Hp' & _).
    rewrite E. split; [exact Hp'|]. exists [habits_table []].
    simpl. rewrite Hf', lookup_insert_eq. split; [reflexivity|discriminate].
Qed.

(** X4, the schema script on a new store: on a file that is not there yet, or
    that holds no relation, [_check_database] ends with the syntax error of
    the second statement of [_CREATE_TABLES], and the store it leaves holds
    the relation habits alone; habit_records and habit_names are never
    created. *)
Theorem first_run_creates_habits_only (path : string) (st : state) :
  pending st = None ->
  files st !! path = None \/ files st !! path = Some (DbFile []) ->
  exists st',
    _check_database path st
    = (st', Raise (OperationalError (Sqlite.SyntaxNear Sqlite.TLp)))
    /\ files st' !! path = Some (DbFile [habits_table []])
    /\ ~ three_relations [habits_table []].
Proof.
  intros Hp Hf.
  destruct (check_database_fresh path st Hp Hf) as (st' & E & Hf' & _).
  exists st'. split; [exact E|]. split.
  - rewrite Hf'. apply lookup_insert_eq.
  - unfold three_relations. intros H. apply Permutation_length in H. discriminate H.
Qed.

(** A new file in an empty file system. *)
Lemma first_run_creates_habits_only_witness :
  exists st',
    _check_database "db.sqlite3" (State ∅ ∅ None None WARNING false [] [])
    = (st', Raise (OperationalError (Sqlite.SyntaxNear Sqlite.TLp)))
    /\ files st' !! "db.sqlite3" = Some (DbFile [habits_table []])
    /\ ~ three_relations [habits_table []].
Proof.
  apply (first_run_creates_habits_only "db.sqlite3"
           (State ∅ ∅ None None WARNING false [] [])); [reflexivity|].
  left. reflexivity.
Defined.

(** C5: a second run of [_check_database] on the store that a first run
    has left, in the same process or in a later one, returns normally and
    leaves the store, and with it the catalog of relations, as it is. *)
Theorem check_database_idempotent (path : string) (st : state) :
  pending st = None -> files st !! path <> Some Unopenable ->
  let st1 := (_check_database path st).1 in
  pending st1 = None /\
  forall st2 : state,
    pending st2 = None -> files st2 = files st1 ->
    exists st3 con,
      _check_database path st2 = (st3, Return con)
      /\ files st3 = files st1 /\ dirs st3 = dirs st2.
Proof.
  intros Hp Hu st1.
  destruct (check_database_leaves_catalog path st Hp Hu) as [Hp1 (db & Hf1 & Hne)].
  fold st1 in Hp1, Hf1. split; [exact Hp1|].
  intros st2 Hp2 Hf2.
  exists (checking path st2), {| conn_path := path |}.
  rewrite (check_database_nonempty path st2 db Hp2) by (rewrite ?Hf2; assumption).
  unfold checking. rewrite files_log_state, dirs_log_state. auto.
Qed.

(** A new file in an empty file system: the second run finds the relation
    that the first one has left and changes nothing. *)
Lemma check_database_idempotent_witness :
  let st0 := State ∅ ∅ None None WARNING false [] [] in
  let st1 := (_check_database "db.sqlite3" st0).1 in
  exists st3 con,
    _check_database "db.sqlite3" st1 = (st3, Return con)
    /\ files st3 = files st1 /\ dirs st3 = dirs st1.
Proof.
  intros st0 st1.
  destruct (check_database_idempotent "db.sqlite3" st0) as [Hp H];
    [reflexivity|discriminate|].
  apply H; [exact Hp|reflexivity].
Defined.




(* ===================================================================== *)
(** ** Logging and the rest of the state *)
(* ===================================================================== *)

Section Agreement.

Lemma same_store_refl s : same_store s s.
Proof. repeat split. Qed.

Lemma same_store_log_l lvl msg args s1 s2 :
  same_store s1 s2 -> same_store (log_state lvl msg args s1) s2.
Proof.
  unfold same_store.
  rewrite dirs_log_state, files_log_state, pending_log_state, stdout_log_state.
  tauto.
Qed.

Lemma same_store_log_r lvl msg args s1 s2 :
  same_store s1 s2 -> same_store s1 (log_state lvl msg args s2).
Proof.
  unfold same_store.
  rewrite dirs_log_state, files_log_state, pending_log_state, stdout_log_state.
  tauto.
Qed.

Lemma agree_ret {A B : Type} (R : A -> B -> Prop) (a : A) (b : B) :
  R a b -> agree R (mret a) (mret b).
Proof. intros H s1 s2 Hs. split; [exact Hs|exact H]. Qed.

Lemma agree_raise {A B : Type} (R : A -> B -> Prop) (e : exception) :
  agree R (raise e) (raise e).
Proof. intros s1 s2 Hs. split; [exact Hs|reflexivity]. Qed.

Lemma agree_bind {A B A' B' : Type} (R : A -> B -> Prop) (R' : A' -> B' -> Prop)
      (m1 : M A) (m2 : M B) (k1 : A -> M A') (k2 : B -> M B') :
  agree R m1 m2 -> (forall a b, R a b -> agree R' (k1 a) (k2 b)) ->
  agree R' (m1 ≫= k1) (m2 ≫= k2).
Proof.
  intros Hm Hk s1 s2 Hs. destruct (Hm s1 s2 Hs) as [Hs' Ho].
  monad.
  destruct (m1 s1) as [s1' [a|e1|]], (m2 s2) as [s2' [b|e2|]];
    simpl in Hs', Ho; try contradiction.
  - apply Hk; assumption.
  - split; [exact Hs'|exact Ho].
  - split; [exact Hs'|exact I].
Qed.

(** A change of the state that keeps to the store. *)
Lemma agree_modify (f g : state -> state) :
  (forall s1 s2, same_store s1 s2 -> same_store (f s1) (g s2)) ->
  agree eq (modify f) (modify g).
Proof. intros H s1 s2 Hs. split; [apply H, Hs|reflexivity]. Qed.

(** Two logging calls agree. *)
Lemma agree_log_log lvl msg args lvl' msg' args' :
  agree eq (logger_log lvl msg args) (logger_log lvl' msg' args').
Proof.
  intros s1 s2 Hs. split; [|reflexivity].
  apply same_store_log_l, same_store_log_r, Hs.
Qed.

Lemma same_store_view con s1 s2 : same_store s1 s2 -> view con s1 = view con s2.
Proof. intros (_ & Hf & Hp & _). unfold view. rewrite Hf, Hp. reflexivity. Qed.

Lemma agree_connect path : agree eq (connect path) (connect path).
Proof.
  intros s1 s2 Hs. pose proof Hs as (Hd & Hf & Hp & Ho).
  unfold connect. rewrite Hf.
  destruct (files s2 !! path) as [[|db]|]; simpl; split; try exact Hs; try reflexivity.
  unfold same_store; simpl; intuition congruence.
Qed.

Lemma same_store_apply_change con k db s1 s2 :
  same_store s1 s2 -> same_store (apply_change con k db s1) (apply_change con k db s2).
Proof.
  intros (Hd & Hf & Hp & Ho). unfold apply_change.
  destruct k; [repeat split; assumption| |].
  - unfold same_store; simpl; intuition congruence.
  - rewrite Hp. destruct (pending s2) eqn:E; unfold same_store; simpl;
      intuition congruence.
Qed.

Lemma agree_unmodelled {A B : Type} (R : A -> B -> Prop) :
  agree R unmodelled unmodelled.
Proof. intros s1 s2 Hs. split; [exact Hs|exact I]. Qed.

Lemma agree_lift {A : Type} (r : Sqlite.result A) : agree eq (lift r) (lift r).
Proof.
  destruct r; [apply agree_ret; reflexivity|apply agree_raise|apply agree_unmodelled].
Qed.

Lemma agree_begin con k : agree eq (begin con k) (begin con k).
Proof.
  destruct k; try (apply agree_ret; reflexivity).
  apply agree_modify. intros s1 s2 Hs. unfold begin_state.
  rewrite (same_store_view con s1 s2 Hs).
  destruct Hs as (Hd & Hf & Hp & Ho). rewrite Hp.
  destruct (pending s2) eqn:E; unfold same_store; simpl; intuition congruence.
Qed.

Lemma agree_execute con sql : agree eq (execute con sql) (execute con sql).
Proof.
  unfold execute.
  destruct (negb (valid_utf8 sql)); [apply agree_raise|].
  destruct (string_exists _ sql); [apply agree_raise|].
  eapply agree_bind; [apply agree_lift|]. intros [s tail] ? <-.
  eapply agree_bind with (R := same_store);
    [intros s1 s2 Hs; split; [exact Hs|exact Hs]|].
  intros a b Hab. cbn zeta. rewrite (same_store_view con a b Hab).
  eapply agree_bind with (R := eq).
  { unfold prepared_statement.
    destruct (Sqlite.exec_stmt _ s) as [[db' rows]|e|];
      [apply agree_ret; reflexivity| |apply agree_unmodelled].
    destruct (Sqlite.is_constraint e); [apply agree_ret; reflexivity|apply agree_raise]. }
  intros _ _ _. destruct tail; [|apply agree_raise].
  eapply agree_bind; [apply agree_begin|]. intros _ _ _.
  eapply agree_bind; [apply agree_lift|]. intros [db' rows] ? <-.
  eapply agree_bind with (R := eq); [|intros _ _ _; apply agree_ret; reflexivity].
  apply agree_modify. intros s1 s2 Hs. apply same_store_apply_change, Hs.
Qed.

Lemma same_store_commit con s1 s2 :
  same_store s1 s2 -> same_store (commit con s1).1 (commit con s2).1.
Proof.
  intros (Hd & Hf & Hp & Ho). unfold commit. monad. simpl. rewrite Hp.
  destruct (pending s2) eqn:E; unfold same_store; simpl; intuition congruence.
Qed.

Lemma agree_commit con : agree eq (commit con) (commit con).
Proof.
  intros s1 s2 Hs. split; [apply same_store_commit, Hs|reflexivity].
Qed.

Lemma agree_executescript con script :
  agree eq (executescript con script) (executescript con script).
Proof.
  unfold executescript.
  destruct (negb (valid_utf8 script)); [apply agree_raise|].
  destruct (string_exists _ script); [apply agree_raise|].
  eapply agree_bind; [apply agree_commit|]. intros _ _ _.
  intros s1 s2 Hs. monad.
  rewrite (same_store_view con s1 s2 Hs).
  destruct (Sqlite.run_script _ _ _) as [[db' [e|]]|]; simpl.
  - split; [|reflexivity]. destruct Hs as (Hd & Hf & Hp & Ho).
    unfold same_store; simpl; intuition congruence.
  - split; [|reflexivity]. destruct Hs as (Hd & Hf & Hp & Ho).
    unfold same_store; simpl; intuition congruence.
  - split; [exact Hs|exact I].
Qed.

Lemma agree_rich_print p : agree eq (rich_print p) (rich_print p).
Proof.
  apply agree_modify. intros s1 s2 (Hd & Hf & Hp & Ho).
  unfold same_store; simpl; intuition congruence.
Qed.

End Agreement.

Section Verbosity.

Lemma same_store_trans s1 s2 s3 :
  same_store s1 s2 -> same_store s2 s3 -> same_store s1 s3.
Proof. unfold same_store. intuition congruence. Qed.

Lemma same_store_sym s1 s2 : same_store s1 s2 -> same_store s2 s1.
Proof. unfold same_store. intuition congruence. Qed.

Lemma silent_ret : silent (mret tt).
Proof. intros s. split; [apply same_store_refl|reflexivity]. Qed.

Lemma silent_modify (f : state -> state) :
  (forall s, same_store (f s) s) -> silent (modify f).
Proof. intros H s. split; [apply H|reflexivity]. Qed.

Lemma silent_seq (m1 m2 : M unit) : silent m1 -> silent m2 -> silent (m1;; m2).
Proof.
  intros H1 H2 s. destruct (H1 s) as [Hs Ho]. monad.
  destruct (m1 s) as [s' o]. simpl in Hs, Ho. subst o.
  destruct (H2 s') as [Hs' Ho']. split; [|exact Ho'].
  eapply same_store_trans; eassumption.
Qed.

Lemma silent_log lvl msg args : silent (logger_log lvl msg args).
Proof.
  apply silent_modify. intros s. apply same_store_log_l, same_store_refl.
Qed.

Lemma silent_basicConfig l : silent (logging_basicConfig l).
Proof.
  apply silent_modify. intros s. destruct (root_handler s); repeat split.
Qed.

Lemma silent_logging_info msg args : silent (logging_info msg args).
Proof.
  apply silent_seq; [apply silent_basicConfig|].
  apply silent_modify. intros s. destruct (_ <=? _); repeat split.
Qed.

Lemma silent_logging l : silent (_logging l).
Proof.
  apply silent_seq; [|apply silent_basicConfig].
  apply silent_modify. intros s. repeat split.
Qed.

(** Two computations that only log agree. *)
Lemma silent_agree (m1 m2 : M unit) : silent m1 -> silent m2 -> agree eq m1 m2.
Proof.
  intros H1 H2 s1 s2 Hs.
  destruct (H1 s1) as [Hs1 Ho1], (H2 s2) as [Hs2 Ho2].
  rewrite Ho1, Ho2. split; [|reflexivity].
  eapply same_store_trans; [exact Hs1|].
  eapply same_store_trans; [exact Hs|]. apply same_store_sym, Hs2.
Qed.

Lemma agree_check_dir directory : agree eq (_check_dir directory) (_check_dir directory).
Proof.
  unfold _check_dir. eapply agree_bind; [apply agree_log_log|]. intros _ _ _.
  apply agree_modify. intros s1 s2 Hs. pose proof Hs as (Hd & Hf & Hp & Ho).
  rewrite Hd. destruct (bool_decide _); [exact Hs|].
  unfold same_store; simpl; intuition congruence.
Qed.

Lemma agree_create_tables con : agree eq (create_tables con) (create_tables con).
Proof.
  unfold create_tables. eapply agree_bind; [apply agree_log_log|]. intros _ _ _.
  eapply agree_bind; [apply agree_executescript|]. intros _ _ _.
  apply agree_commit.
Qed.

Lemma agree_check_database path :
  agree eq (_check_database path) (_check_database path).
Proof.
  unfold _check_database. eapply agree_bind; [apply agree_log_log|]. intros _ _ _.
  eapply agree_bind; [apply agree_connect|]. intros con ? <-.
  eapply agree_bind; [apply agree_execute|]. intros tables ? <-.
  eapply agree_bind with (R := eq).
  - destruct tables; [apply agree_create_tables|apply agree_ret; reflexivity].
  - intros _ _ _. apply agree_ret. reflexivity.
Qed.

Lemma agree_habit_add c1 c2 kwargs :
  connection c1 = connection c2 ->
  agree eq (habit_add c1 kwargs) (habit_add c2 kwargs).
Proof.
  intros H. unfold habit_add. rewrite H.
  eapply agree_bind; [apply agree_log_log|]. intros _ _ _.
  eapply agree_bind; [apply agree_log_log|]. intros _ _ _.
  eapply agree_bind; [apply agree_execute|]. intros ? ? _.
  apply agree_commit.
Qed.

Lemma agree_habits_list c1 c2 :
  connection c1 = connection c2 -> agree eq (habits_list c1) (habits_list c2).
Proof.
  intros H. unfold habits_list. rewrite H.
  eapply agree_bind; [apply agree_execute|]. intros rows ? <-.
  eapply agree_bind with (R := eq).
  - unfold lift_py. destruct (habits_of rows);
      [apply agree_raise|apply agree_ret; reflexivity].
  - intros hs ? <-. apply agree_rich_print.
Qed.

Lemma agree_exec_sql c1 c2 command :
  connection c1 = connection c2 ->
  agree eq (exec_sql c1 command) (exec_sql c2 command).
Proof.
  intros H. unfold exec_sql. rewrite H.
  eapply agree_bind; [apply agree_execute|]. intros rows ? <-.
  destruct rows; [apply agree_ret; reflexivity|apply agree_rich_print].
Qed.

Variable data_dir : string.

(** The callback of the group with two settings of the flags: the
    connection it leaves in the context is the same. *)
Lemma agree_commands database v1 d1 v2 d2 :
  agree (fun c1 c2 => connection c1 = connection c2)
        (commands data_dir database v1 d1) (commands data_dir database v2 d2).
Proof.
  unfold commands.
  eapply agree_bind with (R := eq).
  - apply silent_agree.
    + destruct (v1 || d1); [|apply silent_ret].
      apply silent_seq; [apply silent_logging|apply silent_logging_info].
    + destruct (v2 || d2); [|apply silent_ret].
      apply silent_seq; [apply silent_logging|apply silent_logging_info].
  - intros _ _ _.
    eapply agree_bind with (R := eq).
    + destruct (negb _); [|apply agree_check_database].
      eapply agree_bind; [apply agree_check_dir|]. intros _ _ _.
      apply agree_check_database.
    + intros con ? <-. apply agree_ret. reflexivity.
Qed.

Lemma agree_main database v1 d1 v2 d2 cmd :
  agree eq (main data_dir database v1 d1 cmd) (main data_dir database v2 d2 cmd).
Proof.
  unfold main. eapply agree_bind; [apply agree_commands|].
  intros c1 c2 H. destruct cmd.
  - apply agree_habit_add, H.
  - apply agree_habits_list, H.
  - apply agree_exec_sql, H.
Qed.

End Verbosity.

(** C8: two runs of the program on the same file system, with the same
    database option and the same command, that differ in the flags
    [--verbose] and [--debug] only, leave the same file system, print the
    same to the standard output and end in the same way.  The flags reach
    the diagnostic stream alone. *)
Theorem verbosity_is_diagnostic_only
        (data_dir : string) (d : disk) (database : option string)
        (verbose1 debug1 verbose2 debug2 : bool) (cmd : command) :
  let r1 := run data_dir d database verbose1 debug1 cmd in
  let r2 := run data_dir d database verbose2 debug2 cmd in
  run_disk r1 = run_disk r2
  /\ run_stdout r1 = run_stdout r2
  /\ run_exit r1 = run_exit r2.
Proof.
  intros r1 r2. subst r1 r2. unfold run.
  destruct (agree_main data_dir database verbose1 debug1 verbose2 debug2 cmd
                       (boot d) (boot d) (same_store_refl _)) as [Hs Ho].
  destruct (main data_dir database verbose1 debug1 cmd (boot d)) as [s1 o1].
  destruct (main data_dir database verbose2 debug2 cmd (boot d)) as [s2 o2].
  simpl in *. destruct Hs as (Hd & Hf & Hp & Hout).
  rewrite Hd, Hf, Hout. repeat split.
  destruct o1 as [[]|e1|], o2 as [[]|e2|]; simpl in Ho; try contradiction;
    congruence.
Qed.

(* ===================================================================== *)
(** ** What the parser refuses *)
(* ===================================================================== *)

Section ParseErrors.
Import Sqlite.

Lemma benign_unexpected {A : Type} (ts : list token) : benign (@unexpected A ts).
Proof. destruct ts as [|[] ts]; try exact I. reflexivity. Qed.

Lemma benign_bind {A B : Type} (r : result A) (k : A -> result B) :
  benign r -> (forall a, benign (k a)) -> benign (r ≫= k).
Proof. intros Hr Hk. destruct r; [apply Hk|exact Hr|exact I]. Qed.

Lemma benign_statement_end {A : Type} (a : A) (ts : list token) :
  benign (statement_end a ts).
Proof. destruct ts as [|[] ts]; try exact I; try apply (benign_unexpected (_ :: _)). Qed.

Ltac benign_leaf :=
  first [ exact I | exact eq_refl | apply benign_unexpected
        | apply (benign_unexpected (_ :: _)) | apply benign_statement_end ].

Lemma benign_parse_names (n : nat) :
  forall ts, (length ts <= n)%nat -> benign (parse_names ts).
Proof.
  induction n as [|n IH]; intros ts Hl; destruct ts as [|t [|sep ts']];
    cbn [parse_names]; try benign_leaf; cbn [length] in Hl; try lia.
  destruct (name_of t), sep; try benign_leaf.
  apply benign_bind; [apply IH; lia|]. intros [ns rest]. exact I.
Qed.

Lemma benign_names ts : benign (parse_names ts).
Proof. apply (benign_parse_names (length ts)). lia. Qed.

Lemma benign_parse_values (n : nat) :
  forall ts, (length ts <= n)%nat -> benign (parse_values ts).
Proof.
  induction n as [|n IH]; intros ts Hl; destruct ts as [|t [|sep ts']];
    cbn [parse_values]; try benign_leaf; cbn [length] in Hl; try lia.
  - destruct (literal t); benign_leaf.
  - destruct (literal t); [|benign_leaf].
    destruct sep; cbn [starts_term]; try benign_leaf.
    apply benign_bind; [apply IH; lia|]. intros [vs rest]. exact I.
Qed.

Lemma benign_parse_rows (fuel : nat) : forall ts, benign (parse_rows fuel ts).
Proof.
  induction fuel as [|fuel IH]; intros ts; [exact I|].
  cbn [parse_rows]. destruct ts as [|[] ts1]; try apply benign_unexpected.
  apply benign_bind; [apply (benign_parse_values (length ts1)); lia|].
  intros [r ts2]. destruct ts2 as [|[] ts3]; try exact I.
  apply benign_bind; [apply IH|]. intros [rs rest]. exact I.
Qed.

Lemma benign_parse_insert ts : benign (parse_insert ts).
Proof.
  unfold parse_insert. destruct ts as [|t ts1]; [exact I|].
  destruct (name_of t); [|apply benign_unexpected].
  apply benign_bind.
  - destruct ts1 as [|[] ts1']; try exact I.
    apply benign_bind; [apply (benign_parse_names (length ts1')); lia|].
    intros [ns r]. exact I.
  - intros [cols ts2]. destruct ts2 as [|[] ts3]; try apply benign_unexpected.
    destruct (String.eqb _ _); [|exact I].
    apply benign_bind; [apply benign_parse_rows|].
    intros [rows ts4]. apply benign_statement_end.
Qed.

Lemma benign_skip_type_size ts : benign (skip_type_size ts).
Proof. unfold skip_type_size. repeat case_match; exact I. Qed.

Lemma benign_parse_col_constraints (n : nat) :
  forall ts nn uq pk, (length ts <= n)%nat -> benign (parse_col_constraints ts nn uq pk).
Proof.
  induction n as [|n IH]; intros ts nn uq pk Hl; destruct ts as [|t ts1];
    cbn [parse_col_constraints]; try exact I; cbn [length] in Hl; try lia.
  destruct t; try exact I; try apply (benign_unexpected (_ :: _)).
  destruct (String.eqb s "UNIQUE"); [apply IH; lia|].
  destruct (String.eqb s "NULL"); [apply IH; lia|].
  destruct ts1 as [|[] ts2]; try exact I. cbn [length] in Hl.
  destruct (_ && _); [apply IH; lia|].
  destruct (_ && _); [|exact I].
  destruct pk; [exact I|apply IH; lia].
Qed.

Lemma benign_parse_column ts : benign (parse_column ts).
Proof.
  unfold parse_column. destruct ts as [|t ts1]; [exact I|].
  destruct (name_of t); [|apply benign_unexpected].
  destruct (take_type_words ts1) as [ws ts2].
  assert (H : benign (ts3 ← skip_type_size ts2;
                      '(nn, uq, pk, ts4) ← parse_col_constraints ts3 false false false;
                      Ok (Column s ws nn, uq, pk, ts4))).
  { apply benign_bind; [apply benign_skip_type_size|]. intros ts3.
    apply benign_bind; [apply (benign_parse_col_constraints (length ts3)); lia|].
    intros [[[nn uq] pk] ts4]. exact I. }
  destruct ws, ts2 as [|[] ?]; try exact H. exact eq_refl.
Qed.

Lemma benign_parse_table_constraints (fuel : nat) :
  forall ts b, benign (parse_table_constraints fuel ts b).
Proof.
  induction fuel as [|fuel IH]; intros ts b; [exact I|].
  cbn [parse_table_constraints]. apply benign_bind.
  - repeat case_match; try exact I; try apply benign_unexpected;
      try apply (benign_unexpected (_ :: _));
      (apply benign_bind; [apply benign_names|]);
      intros [ns ts2]; exact I.
  - intros [b' ts']. destruct ts' as [|[] ?]; try apply benign_unexpected;
      try apply (benign_unexpected (_ :: _)); try exact I. apply IH.
Qed.

Lemma benign_parse_columns (fuel : nat) : forall ts b, benign (parse_columns fuel ts b).
Proof.
  induction fuel as [|fuel IH]; intros ts b; [exact I|].
  cbn [parse_columns]. apply benign_bind; [apply benign_parse_column|].
  intros [[[c uq] pk] ts1].
  destruct ts1 as [|[] ts2]; try apply benign_unexpected;
    try apply (benign_unexpected (_ :: _)); try exact I.
  destruct ts2 as [|[] ?]; try apply IH. apply benign_parse_table_constraints.
Qed.

Lemma benign_parse_create ts : benign (parse_create ts).
Proof.
  unfold parse_create. destruct ts as [|t [|[] ts1]]; try exact I;
    try apply benign_unexpected; try apply (benign_unexpected (_ :: _)).
  destruct (name_of t); [|apply (benign_unexpected (_ :: _))].
  apply benign_bind; [apply benign_parse_columns|]. intros [b ts2].
  destruct (_ <? _)%nat; [exact I|apply benign_statement_end].
Qed.

Lemma benign_parse_from n s catalog ts : benign (parse_from n s catalog ts).
Proof.
  unfold parse_from. repeat case_match; try exact I; apply benign_statement_end.
Qed.

Lemma benign_parse_select ts : benign (parse_select ts).
Proof.
  unfold parse_select. repeat case_match; try exact I;
    try apply benign_unexpected; try apply (benign_unexpected (_ :: _));
    apply benign_parse_from.
Qed.

(** The parser reports no constraint: what it refuses is the text. *)
Lemma parse_error_not_constraint ts e :
  parse_statement ts = Error e -> is_constraint e = false.
Proof.
  intros H. assert (B : benign (parse_statement ts)); [|rewrite H in B; exact B].
  unfold parse_statement. destruct ts as [|[] ts1]; try apply benign_unexpected;
    try apply (benign_unexpected (_ :: _)).
  destruct (String.eqb _ _); [apply benign_parse_select|].
  destruct ts1 as [|[] ts2]; try exact I.
  destruct (_ && _); [apply benign_parse_create|].
  destruct (_ && _); [apply benign_parse_insert|exact I].
Qed.

End ParseErrors.

(* ===================================================================== *)
(** ** Properties of [exec_sql] *)
(* ===================================================================== *)

(** C6, amended: [exec_sql] does not handle a failure of the store.  A
    failure that the store reports for the text given to it (a text that
    sqlite3 can encode, without NUL) leaves the function as the exception
    sqlite3 raises for it (an OperationalError or an IntegrityError, the
    StorageQueryError of the taxonomy), with the engine's error in it;
    nothing is printed and the state is as before, but for the transaction
    that sqlite3 has begun when an INSERT is refused by a constraint.
    Whatever [execute] raises is raised by [exec_sql] and, no handler being
    there, by [main], where it ends the run.  [exec_sql] returns normally
    only when [execute] has returned rows: the failure is never
    swallowed. *)
Theorem exec_sql_surfaces (ctx : HabitsTrackerSettings) (command : string) (st : state) :
  (forall e, valid_utf8 command = true -> no_nul command = true ->
             store_fails (view (connection ctx) st) command e ->
             exec_sql ctx command st
             = (if Sqlite.is_constraint e then begin_state (connection ctx) st else st,
                Raise (sqlite_exception e)))
  /\ (forall st' e, execute (connection ctx) command st = (st', Raise e) ->
                    exec_sql ctx command st = (st', Raise e))
  /\ (forall st' e data_dir database verbose debug st0,
        commands data_dir database verbose debug st0 = (st, Return ctx) ->
        exec_sql ctx command st = (st', Raise e) ->
        main data_dir database verbose debug (CmdExec command) st0 = (st', Raise e))
  /\ (forall st', exec_sql ctx command st = (st', Return tt) ->
                  exists st1 rows, execute (connection ctx) command st = (st1, Return rows)).
Proof.
  split; [|split; [|split]].
  - intros e Hv Hn Hf. unfold no_nul in Hn. apply negb_true_iff in Hn.
    unfold exec_sql. monad.
    destruct Hf as [Hf|(s & Hp & He)].
    + rewrite (execute_parse_error _ _ e st Hv Hn Hf).
      rewrite (parse_error_not_constraint _ _ Hf). reflexivity.
    + rewrite (execute_statement _ _ s st Hv Hn Hp), He. reflexivity.
  - intros st' e H. unfold exec_sql. monad. rewrite H. reflexivity.
  - intros st' e data_dir database verbose debug st0 Hc He.
    unfold main. monad. rewrite Hc. exact He.
  - intros st' H. unfold exec_sql in H. monad.
    destruct (execute (connection ctx) command st) as [st1 [rows|e|]];
      [|discriminate|discriminate].
    exists st1, rows. reflexivity.
Qed.

(** A text with two values side by side, a row that repeats a title, and a
    relation that is not there: each is raised with the engine's error.
    The refused row leaves the transaction of its INSERT open. *)
Lemma exec_sql_surfaces_witness :
  exec_sql one_habit_context "INSERT INTO habits VALUES ('a' 'b')" one_habit_state
  = (one_habit_state, Raise (OperationalError (Sqlite.SyntaxNear (Sqlite.TStr "b"))))
  /\ exec_sql one_habit_context
              "INSERT INTO habits VALUES ('read', 'again', 'True', 'False')" one_habit_state
     = (begin_state (connection one_habit_context) one_habit_state,
        Raise (IntegrityError (Sqlite.UniqueFailed "habits" ["title"])))
  /\ exec_sql one_habit_context "SELECT * FROM habit_records" one_habit_state
     = (one_habit_state, Raise (OperationalError (Sqlite.NoSuchTable "habit_records"))).
Proof.
  split; [|split].
  - apply (proj1 (exec_sql_surfaces one_habit_context _ one_habit_state)
                 (Sqlite.SyntaxNear (Sqlite.TStr "b"))); [reflexivity|reflexivity|].
    left. reflexivity.
  - apply (proj1 (exec_sql_surfaces one_habit_context _ one_habit_state)
                 (Sqlite.UniqueFailed "habits" ["title"])); [reflexivity|reflexivity|].
    right. eexists. split; reflexivity.
  - apply (proj1 (exec_sql_surfaces one_habit_context _ one_habit_state)
                 (Sqlite.NoSuchTable "habit_records")); [reflexivity|reflexivity|].
    right. eexists. split; reflexivity.
Defined.

(** C6, as stated, fails: the failure is not turned into a report of the
    program.  A raw statement with two values side by side ends [main]
    with sqlite's exception; no handler is met on the way, nothing is
    written to either stream, and the run is over by the uncaught
    exception. *)
Lemma exec_sql_failure_ends_run :
  let r := run "/data" one_habit_disk (Some "db.sqlite3") false false
               (CmdExec "INSERT INTO habits VALUES ('a' 'b')") in
  run_exit r = Raise (OperationalError (Sqlite.SyntaxNear (Sqlite.TStr "b")))
  /\ run_exit r <> Return tt
  /\ run_stdout r = [] /\ run_stderr r = [].
Proof. vm_compute. repeat split. discriminate. Qed.

(* ===================================================================== *)
(** ** [habit_add] and the double quote *)
(* ===================================================================== *)

(** The first run on a new file ends with the error of the schema script
    and leaves the relation habits. *)
Lemma first_run_on_new_file :
  let r := run "/data" (Disk ∅ ∅) (Some "db.sqlite3") false false CmdList in
  run_exit r = Raise (OperationalError (Sqlite.SyntaxNear Sqlite.TLp))
  /\ run_disk r = empty_habits_disk.
Proof. vm_compute. split; reflexivity. Qed.

(** C1 at a failing input: the title is the three characters a, double
    quote, b.  It is not empty and the store holds no habit, yet the
    statement built from it does not parse (the b stands after a complete
    value), [habit_add] ends with the syntax error, and the list that
    follows shows no habit. *)
Lemma add_quote_title_fails :
  let r1 := invoke empty_habits_disk (CmdAdd a_quote_b "desc" true false) in
  let r2 := invoke (run_disk r1) CmdList in
  run_exit r1 = Raise (OperationalError (Sqlite.SyntaxNear (Sqlite.TId "b")))
  /\ habits_rows (run_disk r1) = Some []
  /\ run_exit r2 = Return tt /\ run_stdout r2 = [PrintHabits []].
Proof. vm_compute. repeat split. Qed.

(** C2 at a failing input.  The first add, with four double quotes in the
    title, stores the title that has two (sqlite reads a doubled quote
    inside quotes as one).  The second add is given exactly the stored
    title: it is not refused, it returns normally and adds a row whose
    title has one double quote. *)
Lemma add_stored_title_again :
  let r1 := invoke empty_habits_disk (CmdAdd a_4quotes_b "desc" true false) in
  let r2 := invoke (run_disk r1) (CmdAdd a_2quotes_b "desc" true false) in
  run_exit r1 = Return tt
  /\ habits_rows (run_disk r1) = Some [habit_row a_2quotes_b "desc" true false]
  /\ run_exit r2 = Return tt
  /\ habits_rows (run_disk r2)
     = Some [habit_row a_2quotes_b "desc" true false;
             habit_row a_quote_b "desc" true false].
Proof. vm_compute. repeat split. Qed.

(** C7 at a failing input: one add that returns normally, on the store
    without habits, and the count is two. *)
Lemma one_add_two_rows :
  let r1 := invoke empty_habits_disk (CmdAdd "t" two_rows_description true false) in
  let r2 := invoke (run_disk r1) (CmdExec "SELECT COUNT(*) FROM habits") in
  run_exit r1 = Return tt
  /\ run_exit r2 = Return tt
  /\ run_stdout r2 = [PrintRows [[Py.PyInt 2]]].
Proof. vm_compute. repeat split. Qed.

(** C10 at a failing input: the title closes its own quotes, completes the
    row with the numbers 1 and 0 and turns the rest of the statement into
    a comment.  The add, with [require] and [negative] both false, returns
    normally and stores the integers 1 and 0 in the two columns, as the raw
    query shows; neither the text True nor the text False is stored, and
    the stored title and description are not the ones given. *)
Lemma add_stores_numbers :
  let r1 := invoke empty_habits_disk (CmdAdd numbers_title "desc" false false) in
  let r2 := invoke (run_disk r1) (CmdExec "SELECT * FROM habits") in
  run_exit r1 = Return tt
  /\ habits_rows (run_disk r1)
     = Some [[Sqlite.VText "t"; Sqlite.VText "d"; Sqlite.VInt 1; Sqlite.VInt 0]]
  /\ run_stdout r2
     = [PrintRows [[Py.PyStr "t"; Py.PyStr "d"; Py.PyInt 1; Py.PyInt 0]]].
Proof. vm_compute. repeat split. Qed.

(* ===================================================================== *)
(** ** [habit_add] on plain texts *)
(* ===================================================================== *)

(** The store after an add that went in. *)
Lemma stored_after_add ctx kwargs t d r n st rows :
  stored (connection ctx) st rows ->
  stored (connection ctx)
    (committed (connection ctx)
       (Sqlite.replace_table (habits_table (rows ++ [habit_row t d r n]))
                             (view (connection ctx) st))
       (habit_add_logged kwargs st))
    (rows ++ [habit_row t d r n]).
Proof.
  intros Hs. apply stored_committed. apply (find_replace_habits _ rows).
  apply stored_view, Hs.
Qed.

(** The four arguments in the order of their declaration. *)
Lemma add_arguments_declared t d r n : add_arguments (add_kwargs t d r n) t d r n.
Proof. unfold add_arguments. reflexivity. Qed.





(** X2: a second add of a title that the store holds, title and
    description plain texts, is refused by the UNIQUE constraint on the
    title, raised as sqlite3.IntegrityError.  Files and directories are as
    before and the connection sees the rows that were there; the
    transaction that sqlite3 began for the INSERT stays open, with no
    change in it. *)
Theorem add_duplicate_plain
        (ctx : HabitsTrackerSettings) (kwargs : Py.kwargs) (t d : string) (r n : bool)
        (st : state) (rows : list Sqlite.row) :
  add_arguments kwargs t d r n ->
  plain_text t = true -> plain_text d = true ->
  stored (connection ctx) st rows -> has_title t rows = true ->
  exists st1,
    habit_add ctx kwargs st
    = (st1, Raise (IntegrityError (Sqlite.UniqueFailed "habits" ["title"])))
    /\ files st1 = files st /\ dirs st1 = dirs st
    /\ pending st1 = Some (view (connection ctx) st)
    /\ view (connection ctx) st1 = view (connection ctx) st
    /\ holds (connection ctx) st1 rows.
Proof.
  intros Hk Ht Hd Hs Hn.
  rewrite (habit_add_plain_text ctx kwargs t d r n st rows Hk Ht Hd Hs). cbn zeta. rewrite Hn.
  eexists. split; [reflexivity|].
  pose proof (stored_logged _ kwargs _ _ Hs) as Hs1.
  destruct (begin_state_frame (connection ctx) (habit_add_logged kwargs st))
    as (Hf & Hdir & _ & _).
  assert (Hv : view (connection ctx) (habit_add_logged kwargs st) = view (connection ctx) st).
  { unfold habit_add_logged. rewrite !view_log_state. reflexivity. }
  rewrite Hf, Hdir, view_begin_state, Hv.
  unfold habit_add_logged at 1 2. rewrite !files_log_state, !dirs_log_state.
  split; [reflexivity|]. split; [reflexivity|]. split; [|split; [reflexivity|]].
  - unfold begin_state. rewrite (proj1 Hs1), Hv. reflexivity.
  - split.
    + rewrite view_begin_state, Hv. apply stored_view, Hs.
    + rewrite Hf. exact (proj2 Hs1).
Qed.

(** The title of the one habit of the store, added again. *)
Lemma add_duplicate_plain_witness :
  exists st1,
    habit_add one_habit_context (add_kwargs "read" "again" false false) one_habit_state
    = (st1, Raise (IntegrityError (Sqlite.UniqueFailed "habits" ["title"])))
    /\ files st1 = files one_habit_state /\ dirs st1 = dirs one_habit_state
    /\ pending st1 = Some (view (connection one_habit_context) one_habit_state)
    /\ view (connection one_habit_context) st1
       = view (connection one_habit_context) one_habit_state
    /\ holds (connection one_habit_context) st1 [habit_row "read" "desc" true false].
Proof.
  apply (add_duplicate_plain one_habit_context _ "read" "again" false false
           one_habit_state [habit_row "read" "desc" true false]);
    try reflexivity; [apply add_arguments_declared|].
  split; [reflexivity|]. eexists. split; reflexivity.
Defined.

(** Adds of plain habits that all return normally put one row each. *)
Lemma add_each_rows ctx kws : forall st st' rows,
  Forall plain_add kws ->
  stored (connection ctx) st rows ->
  add_each ctx kws st = (st', Return tt) ->
  exists rows', stored (connection ctx) st' rows'
                /\ length rows' = (length rows + length kws)%nat.
Proof.
  induction kws as [|kw kws IH]; intros st st' rows Hp Hs Hr.
  - cbn [add_each] in Hr. injection Hr as <-.
    exists rows. split; [exact Hs|]. simpl. lia.
  - inversion Hp as [|? ? (t & d & r & n & Hk & Ht & Hd) Hp']; subst.
    cbn [add_each] in Hr. monad.
    destruct (valid_utf8 (insert_statement kw)) eqn:Hv;
      [|rewrite (habit_add_not_encoded ctx kw st Hv) in Hr; discriminate].
    rewrite (habit_add_plain ctx kw t d r n st rows Hk Ht Hd Hv Hs) in Hr. cbn zeta in Hr.
    destruct (has_title t rows); [discriminate|].
    destruct (IH _ _ _ Hp' (stored_after_add ctx kw t d r n st rows Hs) Hr)
      as (rows' & Hs' & Hl).
    exists rows'. split; [exact Hs'|].
    rewrite Hl, length_app. simpl. lia.
Qed.

(** X3, the count on plain texts: after adds with plain titles and
    descriptions on the store without habits that have all returned
    normally, the raw query that counts prints one row with one value, the
    number of the adds. *)
Theorem count_after_plain_adds
        (ctx : HabitsTrackerSettings) (kws : list Py.kwargs) (st st' : state) :
  Forall plain_add kws ->
  stored (connection ctx) st [] ->
  add_each ctx kws st = (st', Return tt) ->
  exec_sql ctx "SELECT COUNT(*) FROM habits" st'
  = (add_stdout (PrintRows [[Py.PyInt (Z.of_nat (length kws))]]) st', Return tt).
Proof.
  intros Hp Hs Hr.
  destruct (add_each_rows ctx kws st st' [] Hp Hs Hr) as (rows' & Hs' & Hl).
  rewrite (exec_sql_count ctx st' rows' Hs'), Hl. reflexivity.
Qed.

(** Two adds on the store without habits, and the count. *)
Lemma count_after_plain_adds_witness :
  let kws := [add_kwargs "read" "desc" true false; add_kwargs "run" "5 km" false false] in
  let st := State ∅ {["db.sqlite3" := DbFile [habits_table []]]}
                  None None WARNING false [] [] in
  let st' := (add_each one_habit_context kws st).1 in
  exec_sql one_habit_context "SELECT COUNT(*) FROM habits" st'
  = (add_stdout (PrintRows [[Py.PyInt 2]]) st', Return tt).
Proof.
  intros kws st st'.
  apply (count_after_plain_adds one_habit_context kws st st').
  - repeat constructor.
    + exists "read", "desc", true, false.
      split; [apply add_arguments_declared|split; reflexivity].
    + exists "run", "5 km", false, false.
      split; [apply add_arguments_declared|split; reflexivity].
  - split; [reflexivity|]. eexists. split; reflexivity.
  - vm_compute. reflexivity.
Defined.

(* ===================================================================== *)
(** ** [_filter_kwargs] and [Model.from_values], in full *)
(* ===================================================================== *)

(** An entry under a key that is not there yet goes last. *)
Lemma update_fresh (k : string) (v : Py.value) (d : Py.kwargs) :
  k ∉ map fst d -> Py.update k v d = d ++ [(k, v)].
Proof.
  induction d as [|[k' v'] d IH]; intros H; [reflexivity|].
  cbn [map fst] in H. apply not_elem_of_cons in H as [Hk H].
  cbn [Py.update]. destruct (String.eqb_spec k k'); [congruence|].
  rewrite (IH H). reflexivity.
Qed.

(** The loop of [_filter_kwargs], from any result built so far. *)
Lemma filter_kwargs_fold (data acc : Py.kwargs) :
  NoDup (map fst acc ++ map fst data) ->
  fold_left (fun result '(key, val) =>
               match val with
               | Py.PyNone => result
               | _ => Py.update key val result
               end) data acc
  = acc ++ List.filter not_none data.
Proof.
  revert acc. induction data as [|[k v] data IH]; intros acc H.
  - cbn. rewrite app_nil_r. reflexivity.
  - cbn [map fst] in H.
    assert (Hk : k ∉ map fst acc).
    { apply NoDup_app in H as (_ & H & _). intros Hin. apply (H k Hin). left. }
    assert (H' : NoDup (map fst acc ++ map fst data)).
    { apply NoDup_app in H as (H1 & H2 & H3). apply NoDup_app.
      split; [exact H1|]. split.
      - intros x Hx Hd. apply (H2 x Hx). right. exact Hd.
      - apply NoDup_cons in H3 as [_ H3]. exact H3. }
    cbn [fold_left List.filter].
    destruct v; cbn [not_none snd];
      [apply IH, H'|..];
      (rewrite (update_fresh _ _ _ Hk), IH, <- app_assoc; [reflexivity|];
       rewrite map_app, <- app_assoc; exact H).
Qed.

(** X5: on a dictionary (its keys are distinct), [_filter_kwargs] returns
    the entries whose value is not None, each with its value and in the
    order they had; the entries with None are dropped and nothing else is
    changed. *)
Theorem filter_kwargs_keeps_the_rest (data : Py.kwargs) :
  NoDup (map fst data) ->
  _filter_kwargs data = List.filter not_none data.
Proof.
  intros H. unfold _filter_kwargs. apply (filter_kwargs_fold data []). exact H.
Qed.

(** The options of the group when [--database] is not given. *)
Lemma filter_kwargs_keeps_the_rest_witness :
  _filter_kwargs [("database", Py.PyNone); ("verbose", Py.PyBool true);
                  ("debug", Py.PyBool false)]
  = [("verbose", Py.PyBool true); ("debug", Py.PyBool false)].
Proof.
  apply (filter_kwargs_keeps_the_rest
           [("database", Py.PyNone); ("verbose", Py.PyBool true);
            ("debug", Py.PyBool false)]).
  apply (bool_decide_unpack _). vm_compute. reflexivity.
Defined.

(** X6: [Habit.from_values] returns a habit exactly when the sequence has
    at least four values and the first four pass the validators of title,
    description, required and negative; the habit holds the validated
    values in this order. *)
Theorem from_values_succeeds_iff (values : list Py.value) (h : Habit) :
  from_values values = inr h
  <-> exists v0 v1 v2 v3 rest,
        values = v0 :: v1 :: v2 :: v3 :: rest
        /\ Pydantic.str_validator v0 = inr (title h)
        /\ Pydantic.str_validator v1 = inr (description h)
        /\ Pydantic.bool_validator v2 = inr (required h)
        /\ Pydantic.bool_validator v3 = inr (negative h).
Proof.
  split.
  - intros H.
    destruct (decide (length values < 4)%nat) as [Hl|Hl].
    { destruct (from_values_short values Hl) as [errs E]. congruence. }
    destruct values as [|v0 [|v1 [|v2 [|v3 rest]]]]; try (simpl in Hl; lia).
    exists v0, v1, v2, v3, rest. split; [reflexivity|].
    rewrite from_values_four in H. unfold Habit_checked in H.
    destruct (Pydantic.str_validator v0), (Pydantic.str_validator v1),
             (Pydantic.bool_validator v2), (Pydantic.bool_validator v3);
      try discriminate.
    injection H as <-. auto.
  - intros (v0 & v1 & v2 & v3 & rest & -> & H0 & H1 & H2 & H3).
    rewrite from_values_four, H0, H1, H2, H3. destruct h; reflexivity.
Qed.

(** A number as description, the integer 1 and the word No as booleans,
    and a fifth value. *)
Lemma from_values_succeeds_iff_witness :
  from_values [Py.PyStr "read"; Py.PyInt 5; Py.PyInt 1; Py.PyStr "No"; Py.PyNone]
  = inr (mkHabit "read" "5" true false).
Proof.
  apply (proj2 (from_values_succeeds_iff
                  [Py.PyStr "read"; Py.PyInt 5; Py.PyInt 1; Py.PyStr "No"; Py.PyNone]
                  (mkHabit "read" "5" true false))).
  exists (Py.PyStr "read"), (Py.PyInt 5), (Py.PyInt 1), (Py.PyStr "No"), [Py.PyNone].
  repeat split; vm_compute; reflexivity.
Defined.

(* ===================================================================== *)
(** ** The commands, for every input *)
(* ===================================================================== *)

(** How [execute] can end: the one statement of the text was carried out,
    or an exception is raised and the state is as before, but for the
    transaction begun for a statement that a constraint refuses. *)
Lemma execute_cases con sql st :
  (exists s db' rows,
      Sqlite.exec_stmt (view con st) s = Sqlite.Ok (db', rows)
      /\ Sqlite.parse_statement (Sqlite.lex sql) = Sqlite.Ok (s, [])
      /\ execute con sql st
         = (apply_change con (Sqlite.kind_of s) db' st, Return (map fetch rows)))
  \/ (exists e, execute con sql st = (st, Raise e)
                \/ execute con sql st = (begin_state con st, Raise e))
  \/ execute con sql st = (st, Unmodelled).
Proof.
  destruct (valid_utf8 sql) eqn:Hv;
    [|right; left; eexists; left; apply execute_not_encoded, Hv].
  destruct (string_exists (Ascii.eqb nul) sql) eqn:Hn.
  { right; left. eexists. left. unfold execute. rewrite Hv, Hn. reflexivity. }
  destruct (Sqlite.parse_statement (Sqlite.lex sql)) as [[s tail]|e|] eqn:Hp.
  - destruct tail as [|t tail].
    + rewrite (execute_statement con sql s st Hv Hn Hp).
      destruct (Sqlite.exec_stmt (view con st) s) as [[db' rows]|e|] eqn:He.
      * left. exists s, db', rows. auto.
      * right; left. exists (sqlite_exception e).
        destruct (Sqlite.is_constraint e); auto.
      * right; right; reflexivity.
    + unfold execute. rewrite Hv, Hn, Hp. cbn [negb].
      unfold lift, prepared_statement. monad.
      destruct (Sqlite.exec_stmt (view con st) s) as [[db' rows]|e|]; cbn beta iota.
      * right; left; eexists; left; reflexivity.
      * destruct (Sqlite.is_constraint e); right; left; eexists; left; reflexivity.
      * right; right; reflexivity.
  - right; left. eexists. left. apply (execute_parse_error _ _ e _ Hv Hn Hp).
  - right; right. unfold execute. rewrite Hv, Hn, Hp. reflexivity.
Qed.

(** [commit] returns, and no transaction is open after it. *)
Lemma commit_state con st :
  commit con st = ((commit con st).1, Return tt)
  /\ pending (commit con st).1 = None
  /\ dirs (commit con st).1 = dirs st /\ stdout (commit con st).1 = stdout st.
Proof.
  unfold commit. monad. cbn [fst].
  destruct (pending st) eqn:E; cbn [pending set_pending dirs stdout set_files]; auto.
Qed.

Lemma apply_change_frame con k db st :
  dirs (apply_change con k db st) = dirs st
  /\ stdout (apply_change con k db st) = stdout st.
Proof.
  destruct k; cbn [apply_change]; [auto|auto|].
  destruct (pending st); auto.
Qed.

(** A token the grammar has no use for is never read as a statement. *)
Lemma unexpected_not_ok {A : Type} (ts : list Sqlite.token) (a : A) :
  Sqlite.unexpected ts <> Sqlite.Ok a.
Proof. destruct ts as [|[] ts]; discriminate. Qed.

(** The statement of [habit_add] starts with INSERT INTO habits and a
    parenthesis, whatever the arguments. *)
Lemma insert_statement_tokens kwargs :
  exists ts, Sqlite.lex (insert_statement kwargs)
             = Sqlite.TKw "INSERT" :: Sqlite.TKw "INTO" :: Sqlite.TId "habits"
               :: Sqlite.TLp :: ts.
Proof.
  unfold insert_statement. cbn zeta. rewrite lex_is_lex_from.
  rewrite (lex_from_app [] Sqlite.MStart "INSERT INTO habits (" _
             [Sqlite.TKw "INSERT"; Sqlite.TKw "INTO"; Sqlite.TId "habits"; Sqlite.TLp]
             Sqlite.MStart eq_refl).
  unfold lex_from. cbn [app]. eexists. reflexivity.
Qed.

(** What is read after INSERT INTO habits is an INSERT into habits. *)
Lemma parse_insert_habits ts s tail :
  Sqlite.parse_statement
    (Sqlite.TKw "INSERT" :: Sqlite.TKw "INTO" :: Sqlite.TId "habits" :: Sqlite.TLp :: ts)
  = Sqlite.Ok (s, tail) ->
  exists cols new, s = Sqlite.Insert "habits" cols new.
Proof.
  change (Sqlite.parse_statement _)
    with (Sqlite.parse_insert (Sqlite.TId "habits" :: Sqlite.TLp :: ts)).
  unfold Sqlite.parse_insert. cbn [Sqlite.name_of].
  unfold mbind, Sqlite.result_bind.
  destruct (Sqlite.parse_names ts) as [[ns ts2]|e|]; try discriminate.
  destruct ts2 as [|[] ts3]; try discriminate;
    try (intros H; exfalso; exact (unexpected_not_ok _ _ H)).
  destruct (String.eqb s0 "VALUES"); [|discriminate].
  destruct (Sqlite.parse_rows (S (length ts3)) ts3) as [[rows ts4]|e|]; try discriminate.
  intros H. exists (Some ns), rows.
  destruct ts4 as [|[] ts5]; unfold Sqlite.statement_end in H; try discriminate;
    try (exfalso; exact (unexpected_not_ok _ _ H)); congruence.
Qed.

(** X7: for every input, also one with double quotes in it, [habit_add]
    is all or nothing.  When it raises, the files, the database the
    connection sees, the directories and the standard output are as before
    the call.  When it returns, sqlite has read its statement as one INSERT
    into habits, the file of the store holds the database that this INSERT
    makes of the one the connection saw, no transaction is left open, and
    nothing is printed. *)
Theorem habit_add_all_or_nothing ctx kwargs st st' :
  (forall e, habit_add ctx kwargs st = (st', Raise e) ->
             files st' = files st
             /\ view (connection ctx) st' = view (connection ctx) st
             /\ dirs st' = dirs st /\ stdout st' = stdout st)
  /\ (habit_add ctx kwargs st = (st', Return tt) ->
      exists cols new db',
        Sqlite.parse_statement (Sqlite.lex (insert_statement kwargs))
        = Sqlite.Ok (Sqlite.Insert "habits" cols new, [])
        /\ Sqlite.exec_insert (view (connection ctx) st) "habits" cols new = Sqlite.Ok db'
        /\ files st' = <[conn_path (connection ctx) := DbFile db']> (files st)
        /\ pending st' = None /\ dirs st' = dirs st /\ stdout st' = stdout st).
Proof.
  unfold habit_add, logger_debug, logger_log.
  unfold mbind, M_bind, modify. cbn beta iota zeta.
  fold (habit_add_logged kwargs st).
  assert (Hl : files (habit_add_logged kwargs st) = files st
               /\ view (connection ctx) (habit_add_logged kwargs st)
                  = view (connection ctx) st
               /\ dirs (habit_add_logged kwargs st) = dirs st
               /\ stdout (habit_add_logged kwargs st) = stdout st).
  { unfold habit_add_logged.
    rewrite !files_log_state, !view_log_state, !dirs_log_state, !stdout_log_state. auto. }
  destruct Hl as (Hlf & Hlv & Hld & Hlo).
  destruct (execute_cases (connection ctx) (insert_statement kwargs)
                          (habit_add_logged kwargs st))
    as [(s & db' & rows & He & Hp & E)|[[e [E|E]]|E]]; rewrite E.
  - split; [cbn beta iota; discriminate|].
    destruct (insert_statement_tokens kwargs) as [ts Hts].
    pose proof Hp as Hp'. rewrite Hts in Hp'.
    destruct (parse_insert_habits _ _ _ Hp') as (cols & new & ->).
    cbn [Sqlite.exec_stmt] in He. rewrite Hlv in He.
    destruct (Sqlite.exec_insert (view (connection ctx) st) "habits" cols new)
      as [db1| |] eqn:Hi; cbn in He; try discriminate.
    injection He as <- <-.
    cbn [Sqlite.kind_of apply_change]. unfold commit, modify. cbn beta iota.
    cbn [pending set_pending]. intros H. apply pair_equal_spec in H as [<- _].
    exists cols, new, db1. split; [exact Hp|]. split; [exact Hi|].
    cbn [files pending dirs stdout set_pending set_files].
    rewrite Hlf, Hld, Hlo. auto.
  - split; [|discriminate]. intros e0 H. apply pair_equal_spec in H as [<- _]. auto.
  - split; [|discriminate]. intros e0 H. apply pair_equal_spec in H as [<- _].
    destruct (begin_state_frame (connection ctx) (habit_add_logged kwargs st))
      as (Hf & Hd & Ho & _).
    rewrite Hf, Hd, Ho, view_begin_state. auto.
  - split; discriminate.
Qed.

(** The add with a double quote in the title raises and leaves the store
    with its one habit as it was; the add of a second habit puts the
    database with both rows on the file. *)
Lemma habit_add_all_or_nothing_witness :
  (let st' := (habit_add one_habit_context (add_kwargs a_quote_b "desc" true false)
                         one_habit_state).1 in
   files st' = files one_habit_state
   /\ view (connection one_habit_context) st'
      = view (connection one_habit_context) one_habit_state
   /\ dirs st' = dirs one_habit_state /\ stdout st' = stdout one_habit_state)
  /\ (let st' := (habit_add one_habit_context (add_kwargs "run" "5 km" true false)
                            one_habit_state).1 in
      exists cols new db',
        Sqlite.parse_statement
          (Sqlite.lex (insert_statement (add_kwargs "run" "5 km" true false)))
        = Sqlite.Ok (Sqlite.Insert "habits" cols new, [])
        /\ Sqlite.exec_insert (view (connection one_habit_context) one_habit_state)
                              "habits" cols new = Sqlite.Ok db'
        /\ files st' = <[conn_path (connection one_habit_context) := DbFile db']>
                         (files one_habit_state)
        /\ pending st' = None /\ dirs st' = dirs one_habit_state
        /\ stdout st' = stdout one_habit_state).
Proof.
  split.
  - apply (proj1 (habit_add_all_or_nothing one_habit_context
                    (add_kwargs a_quote_b "desc" true false) one_habit_state _)
                 (OperationalError (Sqlite.SyntaxNear (Sqlite.TId "b")))).
    vm_compute. reflexivity.
  - apply (proj2 (habit_add_all_or_nothing one_habit_context
                    (add_kwargs "run" "5 km" true false) one_habit_state _)).
    vm_compute. reflexivity.
Defined.

(** [habits_list] in terms of the database the connection sees. *)
Lemma habits_list_view ctx st :
  habits_list ctx st =
  match Sqlite.find_table "habits" (view (connection ctx) st) with
  | None => (st, Raise (OperationalError (Sqlite.NoSuchTable "habits")))
  | Some t =>
      match habits_of (map fetch (Sqlite.tbl_rows t)) with
      | inr hs => (add_stdout (PrintHabits hs) st, Return tt)
      | inl e => (st, Raise e)
      end
  end.
Proof.
  unfold habits_list. monad.
  rewrite (execute_statement _ _ (Sqlite.SelectAll "habits")) by reflexivity.
  cbn [Sqlite.exec_stmt].
  destruct (Sqlite.find_table "habits" (view (connection ctx) st)) as [t|];
    [|reflexivity].
  cbn [Sqlite.kind_of apply_change].
  destruct (habits_of (map fetch (Sqlite.tbl_rows t))); reflexivity.
Qed.

Lemma habits_of_length rows hs : habits_of rows = inr hs -> length hs = length rows.
Proof.
  revert hs. induction rows as [|x rows IH]; intros hs H; cbn [habits_of] in H.
  - injection H as <-. reflexivity.
  - destruct (from_values x); [discriminate|].
    destruct (habits_of rows) as [|hs']; [discriminate|].
    injection H as <-. cbn [length]. rewrite (IH hs' eq_refl). reflexivity.
Qed.

(** X8: [habits_list] only reads.  In every state it leaves the files,
    the directories and the open transaction as they are.  It prints only
    when it returns normally, and then one list with one habit for each row
    of the relation habits; when it raises it has printed nothing. *)
Theorem habits_list_reads_only ctx st :
  let st' := (habits_list ctx st).1 in
  files st' = files st /\ dirs st' = dirs st /\ pending st' = pending st
  /\ ((habits_list ctx st).2 <> Return tt -> stdout st' = stdout st)
  /\ ((habits_list ctx st).2 = Return tt ->
      exists t hs, Sqlite.find_table "habits" (view (connection ctx) st) = Some t
                   /\ length hs = length (Sqlite.tbl_rows t)
                   /\ stdout st' = stdout st ++ [PrintHabits hs]).
Proof.
  cbn zeta. rewrite habits_list_view.
  destruct (Sqlite.find_table "habits" (view (connection ctx) st)) as [t|].
  - destruct (habits_of (map fetch (Sqlite.tbl_rows t))) as [e|hs] eqn:E; cbn [fst snd].
    + repeat split; try reflexivity. discriminate.
    + repeat split; try reflexivity; [congruence|].
      intros _. exists t, hs. split; [reflexivity|]. split; [|reflexivity].
      rewrite (habits_of_length _ _ E), length_map. reflexivity.
  - cbn [fst snd]. repeat split; try reflexivity. discriminate.
Qed.




(** The titles of the rows are what [has_title] looks through. *)
Lemma has_title_titles t rows : has_title t rows = true <-> t ∈ titles rows.
Proof.
  unfold has_title, titles. induction rows as [|row rows IH].
  - cbn. split; [discriminate|]. intros H. apply elem_of_nil in H. destruct H.
  - cbn [existsb]. rewrite orb_true_iff, IH.
    destruct row as [|[| |s] row]; cbn -[String.eqb];
      [intuition discriminate..|].
    rewrite elem_of_cons, String.eqb_eq. tauto.
Qed.

Lemma stored_holds con st rows : stored con st rows -> holds con st rows.
Proof. intros Hs. split; [apply stored_view, Hs|exact (proj2 Hs)]. Qed.

Lemma holds_begin_state con st rows :
  holds con st rows -> holds con (begin_state con st) rows.
Proof.
  intros [Hv Hf]. split; [rewrite view_begin_state; exact Hv|].
  rewrite (proj1 (begin_state_frame con st)). exact Hf.
Qed.

(** X10: the titles stay distinct.  On a store whose habits have distinct
    titles, an add with plain title and description, the options in any
    order, leaves a store whose habits have distinct titles, on the file
    and as the connection sees it, whether it goes in or is refused; when
    it has gone in no transaction is open. *)
Theorem titles_stay_distinct ctx kwargs t d r n st rows :
  add_arguments kwargs t d r n -> plain t = true -> plain d = true ->
  stored (connection ctx) st rows -> NoDup (titles rows) ->
  exists rows', holds (connection ctx) (habit_add ctx kwargs st).1 rows'
                /\ NoDup (titles rows')
                /\ ((habit_add ctx kwargs st).2 = Return tt ->
                    stored (connection ctx) (habit_add ctx kwargs st).1 rows').
Proof.
  intros Hk Ht Hd Hs Hn.
  pose proof (stored_logged _ kwargs _ _ Hs) as Hs1.
  destruct (valid_utf8 (insert_statement kwargs)) eqn:Hv.
  - rewrite (habit_add_plain ctx kwargs t d r n st rows Hk Ht Hd Hv Hs). cbn zeta.
    destruct (has_title t rows) eqn:E; cbn [fst snd].
    + exists rows. split; [apply holds_begin_state, stored_holds, Hs1|].
      split; [exact Hn|discriminate].
    + exists (rows ++ [habit_row t d r n]).
      pose proof (stored_after_add ctx kwargs t d r n st rows Hs) as Hs2.
      split; [apply stored_holds, Hs2|]. split; [|intros _; exact Hs2].
      unfold titles. rewrite omap_app. cbn -[app].
      apply NoDup_app. split; [exact Hn|]. split; [|apply NoDup_singleton].
      intros x Hx Hx'. apply list_elem_of_singleton in Hx'. subst x.
      apply has_title_titles in Hx. congruence.
  - rewrite (habit_add_not_encoded ctx kwargs st Hv). cbn [fst snd].
    exists rows. split; [apply stored_holds, Hs1|]. split; [exact Hn|discriminate].
Qed.

(** A second habit on the store with one. *)
Lemma titles_stay_distinct_witness :
  let st' := (habit_add one_habit_context (add_kwargs "run" "5 km" true false)
                        one_habit_state).1 in
  exists rows', holds (connection one_habit_context) st' rows'
                /\ NoDup (titles rows')
                /\ ((habit_add one_habit_context (add_kwargs "run" "5 km" true false)
                                one_habit_state).2 = Return tt ->
                    stored (connection one_habit_context) st' rows').
Proof.
  apply (titles_stay_distinct one_habit_context _ "run" "5 km" true false one_habit_state
           [habit_row "read" "desc" true false]).
  - apply add_arguments_declared.
  - reflexivity.
  - reflexivity.
  - split; [reflexivity|]. eexists. split; reflexivity.
  - apply (bool_decide_unpack _). vm_compute. reflexivity.
Defined.

(** The statement built from plain texts, as sqlite reads it. *)
Lemma insert_statement_read kwargs t d r n :
  add_arguments kwargs t d r n -> plain t = true -> plain d = true ->
  string_exists (Ascii.eqb nul) (insert_statement kwargs) = false
  /\ Sqlite.parse_statement (Sqlite.lex (insert_statement kwargs))
     = Sqlite.Ok (Sqlite.Insert "habits" (Some (map fst kwargs)) [statement_values kwargs],
                  []).
Proof.
  intros Hk Ht Hd. unfold add_arguments in Hk.
  symmetry in Hk. apply permutations_Permutation in Hk.
  unfold add_kwargs in Hk.
  cbv [permutations interleave fmap list_fmap mbind list_bind app] in Hk.
  repeat (apply elem_of_cons in Hk; destruct Hk as [->|Hk]);
    [..|apply elem_of_nil in Hk; destruct Hk];
    destruct r, n;
    (split; [statement_no_nul Ht Hd|statement_parses Ht Hd]).
Qed.

(** [habit_add] where the relation habits is not there. *)
Lemma habit_add_without_relation ctx kwargs t d r n st :
  Sqlite.find_table "habits" (view (connection ctx) st) = None ->
  add_arguments kwargs t d r n -> plain_text t = true -> plain_text d = true ->
  habit_add ctx kwargs st
  = (habit_add_logged kwargs st, Raise (OperationalError (Sqlite.NoSuchTable "habits"))).
Proof.
  intros Hv Hk Ht Hd.
  apply plain_text_split in Ht as [Ht Ht'], Hd as [Hd Hd'].
  destruct (insert_statement_read kwargs t d r n Hk Ht Hd) as [Hn Hp].
  pose proof (insert_statement_valid kwargs t d r n Hk Ht' Hd') as Hu.
  unfold habit_add, logger_debug, logger_log. monad. fold (habit_add_logged kwargs st).
  rewrite (execute_statement _ _ _ _ Hu Hn Hp).
  unfold habit_add_logged at 1. rewrite !view_log_state.
  cbn [Sqlite.exec_stmt]. unfold Sqlite.exec_insert.
  rewrite Hv. reflexivity.
Qed.

(** [exec_sql] after [execute]. *)
Lemma exec_sql_execute ctx command st :
  exec_sql ctx command st =
  match execute (connection ctx) command st with
  | (st1, Return []) => (st1, Return tt)
  | (st1, Return (r :: rows)) => (add_stdout (PrintRows (r :: rows)) st1, Return tt)
  | (st1, Raise e) => (st1, Raise e)
  | (st1, Unmodelled) => (st1, Unmodelled)
  end.
Proof.
  unfold exec_sql. monad.
  destruct (execute (connection ctx) command st) as [st1 [[|r rows]|e|]]; reflexivity.
Qed.

(* ===================================================================== *)
(** ** The group callback, step by step *)
(* ===================================================================== *)

Lemma silent_configure database v g : silent (configure database v g).
Proof.
  unfold configure. destruct (v || g); [|apply silent_ret].
  apply silent_seq; [apply silent_logging|apply silent_logging_info].
Qed.

Lemma silent_returns (m : M unit) st : silent m -> m st = ((m st).1, Return tt).
Proof.
  intros H. destruct (H st) as [_ Ho]. destruct (m st) as [s o]. simpl in *. congruence.
Qed.

Lemma check_dir_returns directory st :
  _check_dir directory st = ((_check_dir directory st).1, Return tt).
Proof. reflexivity. Qed.

(** [commands] is the preparation, then [_check_database], then the
    settings. *)
Lemma commands_steps data_dir database v g st :
  commands data_dir database v g st =
  match _check_database (store_path data_dir database) (prepared data_dir database v g st) with
  | (st3, Return con) => (st3, Return (settings_of data_dir con database v g))
  | (st3, Raise e) => (st3, Raise e)
  | (st3, Unmodelled) => (st3, Unmodelled)
  end.
Proof.
  unfold commands.
  change (if v || g then _ else mret tt) with (configure database v g).
  unfold prepared, store_path, default_store, settings_of.
  monad. rewrite (silent_returns _ st (silent_configure database v g)).
  set (st1 := (configure database v g st).1).
  destruct database as [p|]; cbn [from_option Py.truthy negb Py.str].
  - destruct (String.eqb p "") eqn:E; cbn [negb].
    + rewrite (check_dir_returns data_dir st1).
      destruct (_check_database _ _) as [st3 [con|e|]]; reflexivity.
    + destruct (_check_database _ _) as [st3 [con|e|]]; reflexivity.
  - rewrite (check_dir_returns data_dir st1).
    destruct (_check_database _ _) as [st3 [con|e|]]; reflexivity.
Qed.

(** [main] is the callback, then the command on its settings. *)
Lemma main_steps data_dir database v g cmd st :
  main data_dir database v g cmd st =
  match _check_database (store_path data_dir database) (prepared data_dir database v g st) with
  | (st3, Return con) => dispatch (settings_of data_dir con database v g) cmd st3
  | (st3, Raise e) => (st3, Raise e)
  | (st3, Unmodelled) => (st3, Unmodelled)
  end.
Proof.
  unfold main. monad. rewrite commands_steps.
  destruct (_check_database _ _) as [st3 [con|e|]]; reflexivity.
Qed.

(** The preparation leaves the store and the standard output alone. *)
Lemma prepared_store data_dir database v g st :
  files (prepared data_dir database v g st) = files st
  /\ pending (prepared data_dir database v g st) = pending st
  /\ stdout (prepared data_dir database v g st) = stdout st.
Proof.
  unfold prepared.
  destruct (silent_configure database v g st) as [(Hd & Hf & Hp & Ho) _].
  destruct (default_store database); [|auto].
  unfold _check_dir, logger_info, logger_log. monad. cbn [fst].
  destruct (bool_decide _); cbn [files pending stdout set_dirs];
    rewrite files_log_state, pending_log_state, stdout_log_state; auto.
Qed.

(** For the default store the data directory is there after it. *)
Lemma prepared_dirs data_dir database v g st :
  dirs (prepared data_dir database v g st) =
  if default_store database then {[data_dir]} ∪ dirs st else dirs st.
Proof.
  unfold prepared.
  destruct (silent_configure database v g st) as [(Hd & Hf & Hp & Ho) _].
  destruct (default_store database); [|auto].
  unfold _check_dir, logger_info, logger_log. monad. cbn [fst].
  destruct (bool_decide _) eqn:E; cbn [dirs set_dirs]; rewrite dirs_log_state, Hd.
  - apply bool_decide_eq_true in E. rewrite dirs_log_state, Hd in E.
    symmetry. apply subseteq_union_1_L, singleton_subseteq_l, E.
  - reflexivity.
Qed.

Lemma find_table_nonempty name db t : Sqlite.find_table name db = Some t -> db <> [].
Proof. destruct db; discriminate. Qed.

(** The connection [_check_database] returns is the one to its path. *)
Lemma check_database_connection path st st' con :
  _check_database path st = (st', Return con) -> con = {| conn_path := path |}.
Proof.
  unfold _check_database, logger_info, logger_log. monad. unfold connect.
  destruct (files _ !! path) as [[|db]|]; [discriminate| |].
  - destruct (execute _ _ _) as [s1 [[|row tables]|e|]]; try discriminate.
    + destruct (create_tables _ _) as [s2 [[]|e|]]; try discriminate.
      intros H. injection H as _ <-. reflexivity.
    + intros H. injection H as _ <-. reflexivity.
  - destruct (execute _ _ _) as [s1 [[|row tables]|e|]]; try discriminate.
    + destruct (create_tables _ _) as [s2 [[]|e|]]; try discriminate.
      intros H. injection H as _ <-. reflexivity.
    + intros H. injection H as _ <-. reflexivity.
Qed.

(** X11: the settings the callback leaves.  When [commands] returns, the
    connection of the context is the one to the default path if
    [--database] is missing or empty, else to the given path; the field
    [database] is the default path when the option is missing (the None is
    filtered out and the default of the dataclass stands) and else the
    option as given, also the empty text, for which the connection is to
    the default path all the same; [verbose] and [debug] are the flags. *)
Theorem commands_settings data_dir db_option v g st st' ctx :
  commands data_dir db_option v g st = (st', Return ctx) ->
  conn_path (connection ctx) = store_path data_dir db_option
  /\ database ctx = default (_DATABASE_FILE_PATH data_dir) db_option
  /\ verbose ctx = v /\ debug ctx = g.
Proof.
  rewrite commands_steps.
  destruct (_check_database _ _) as [st3 [con|e|]] eqn:E; try discriminate.
  intros H. injection H as _ <-.
  apply check_database_connection in E. subst con. repeat split.
Qed.

(** The empty text as [--database], on the default store. *)
Lemma commands_settings_witness :
  exists st' ctx,
    commands "/data" (Some "") false false
             (State ∅ {["/data/db.sqlite3" := DbFile [habits_table []]]}
                    None None WARNING false [] [])
    = (st', Return ctx)
    /\ conn_path (connection ctx) = "/data/db.sqlite3"
    /\ database ctx = ""
    /\ verbose ctx = false /\ debug ctx = false.
Proof.
  eexists. eexists. split; [vm_compute; reflexivity|].
  eapply (commands_settings "/data" (Some "") false false
            (State ∅ {["/data/db.sqlite3" := DbFile [habits_table []]]}
                   None None WARNING false [] [])).
  vm_compute. reflexivity.
Defined.

(** [main] on a store that holds a relation. *)
Lemma main_on_store data_dir database v g cmd st db :
  pending st = None ->
  files st !! store_path data_dir database = Some (DbFile db) -> db <> [] ->
  main data_dir database v g cmd st =
  dispatch (settings_of data_dir {| conn_path := store_path data_dir database |} database v g)
           cmd
           (checking (store_path data_dir database) (prepared data_dir database v g st)).
Proof.
  intros Hp Hf Hne. rewrite main_steps.
  destruct (prepared_store data_dir database v g st) as (Hf' & Hp' & Ho').
  rewrite (check_database_nonempty _ _ db); [reflexivity| | |exact Hne].
  - rewrite Hp'. exact Hp.
  - rewrite Hf'. exact Hf.
Qed.

Lemma stored_ready data_dir database v g st db rows :
  pending st = None ->
  files st !! store_path data_dir database = Some (DbFile db) ->
  Sqlite.find_table "habits" db = Some (habits_table rows) ->
  stored {| conn_path := store_path data_dir database |}
         (checking (store_path data_dir database) (prepared data_dir database v g st)) rows.
Proof.
  intros Hp Hf Ht.
  destruct (prepared_store data_dir database v g st) as (Hf' & Hp' & Ho').
  unfold stored, checking. rewrite pending_log_state, files_log_state, Hp', Hf'.
  split; [exact Hp|]. exists db. split; assumption.
Qed.

Lemma stdout_ready data_dir database v g st :
  stdout (checking (store_path data_dir database) (prepared data_dir database v g st))
  = stdout st.
Proof.
  destruct (prepared_store data_dir database v g st) as (Hf' & Hp' & Ho').
  unfold checking. rewrite stdout_log_state. exact Ho'.
Qed.

(** [main] on a new file, or on one without relations. *)
Lemma main_fresh data_dir database v g cmd st :
  pending st = None ->
  files st !! store_path data_dir database = None
  \/ files st !! store_path data_dir database = Some (DbFile []) ->
  exists st',
    main data_dir database v g cmd st
    = (st', Raise (OperationalError (Sqlite.SyntaxNear Sqlite.TLp)))
    /\ files st' = <[store_path data_dir database := DbFile [habits_table []]]> (files st)
    /\ stdout st' = stdout st.
Proof.
  intros Hp Hf. rewrite main_steps.
  destruct (prepared_store data_dir database v g st) as (Hf' & Hp' & Ho').
  destruct (check_database_fresh (store_path data_dir database)
              (prepared data_dir database v g st))
    as (st' & E & Hfs & Hps & Hds & Hos).
  - rewrite Hp'. exact Hp.
  - rewrite Hf'. exact Hf.
  - rewrite E. exists st'. rewrite Hfs, Hos, Hf', Ho'. auto.
Qed.

(** The command [add] with plain texts and a new title, as a whole. *)
Lemma add_on_store data_dir database v g t de r n st db rows :
  pending st = None ->
  files st !! store_path data_dir database = Some (DbFile db) ->
  Sqlite.find_table "habits" db = Some (habits_table rows) ->
  plain_text t = true -> plain_text de = true -> has_title t rows = false ->
  exists st',
    main data_dir database v g (CmdAdd t de r n) st = (st', Return tt)
    /\ files st' = <[store_path data_dir database :=
                       DbFile (Sqlite.replace_table
                                 (habits_table (rows ++ [habit_row t de r n])) db)]> (files st)
    /\ stdout st' = stdout st.
Proof.
  intros Hp Hf Ht Hpt Hpd Hn.
  rewrite (main_on_store data_dir database v g _ st db Hp Hf (find_table_nonempty _ _ _ Ht)).
  cbn [dispatch].
  pose proof (stored_ready data_dir database v g st db rows Hp Hf Ht) as Hs.
  destruct (prepared_store data_dir database v g st) as (Hf' & Hp' & Ho').
  rewrite (habit_add_plain_text
             (settings_of data_dir {| conn_path := store_path data_dir database |}
                          database v g)
             _ t de r n _ rows (add_arguments_declared t de r n) Hpt Hpd Hs).
  cbn zeta. rewrite Hn. eexists. split; [reflexivity|].
  cbn [connection settings_of files stdout committed set_pending set_files conn_path].
  unfold habit_add_logged, checking.
  rewrite !files_log_state, !stdout_log_state, Hf', Ho'.
  rewrite (view_file _ _ db);
    [auto
    |rewrite !pending_log_state, Hp'; exact Hp
    |cbn [conn_path]; rewrite !files_log_state, Hf'; exact Hf].
Qed.

(** The command [list], as a whole. *)
Lemma list_on_store data_dir database v g st db rows hs :
  pending st = None ->
  files st !! store_path data_dir database = Some (DbFile db) ->
  Sqlite.find_table "habits" db = Some (habits_table rows) ->
  habits_of (map fetch rows) = inr hs ->
  exists st',
    main data_dir database v g CmdList st = (st', Return tt)
    /\ files st' = files st
    /\ stdout st' = stdout st ++ [PrintHabits hs].
Proof.
  intros Hp Hf Ht Hh.
  rewrite (main_on_store data_dir database v g _ st db Hp Hf (find_table_nonempty _ _ _ Ht)).
  cbn [dispatch].
  pose proof (stored_ready data_dir database v g st db rows Hp Hf Ht) as Hs.
  rewrite (habits_list_stored
             (settings_of data_dir {| conn_path := store_path data_dir database |}
                          database v g) _ _ Hs).
  rewrite Hh. eexists. split; [reflexivity|].
  destruct (prepared_store data_dir database v g st) as (Hf' & Hp' & Ho').
  cbn [files stdout add_stdout]. unfold checking.
  rewrite files_log_state, stdout_log_state, Hf', Ho'. auto.
Qed.

(** A run in terms of the state [main] ends in. *)
Lemma run_of_main data_dir d database v g cmd st o :
  main data_dir database v g cmd (boot d) = (st, o) ->
  run data_dir d database v g cmd
  = RunResult (Disk (dirs st) (files st)) (stdout st) (stderr st) o.
Proof. intros E. unfold run. rewrite E. reflexivity. Qed.

(* ===================================================================== *)
(** ** Runs of the program *)
(* ===================================================================== *)

(** X12: a database file that cannot be opened ends every run, whatever
    the command and the flags, with sqlite's error for the path; the
    command is not reached, nothing is printed and the files are as
    before. *)
Theorem unopenable_store_ends_run data_dir d database v g cmd :
  disk_files d !! store_path data_dir database = Some Unopenable ->
  let r := run data_dir d database v g cmd in
  run_exit r = Raise (UnableToOpen (store_path data_dir database))
  /\ run_stdout r = []
  /\ disk_files (run_disk r) = disk_files d.
Proof.
  intros Hf r. subst r. unfold run. rewrite main_steps.
  destruct (prepared_store data_dir database v g (boot d)) as (Hf' & Hp' & Ho').
  rewrite check_database_unopenable by (rewrite Hf'; exact Hf).
  cbn [run_exit run_stdout run_disk disk_files]. unfold checking.
  rewrite stdout_log_state, files_log_state, Hf', Ho'. auto.
Qed.

(** A path under a directory that is not there, with the command list. *)
Lemma unopenable_store_ends_run_witness :
  let r := run "/data" nowhere_disk (Some "/nowhere/db") true false CmdList in
  run_exit r = Raise (UnableToOpen "/nowhere/db")
  /\ run_stdout r = []
  /\ disk_files (run_disk r) = disk_files nowhere_disk.
Proof.
  apply (unopenable_store_ends_run "/data" nowhere_disk (Some "/nowhere/db") true false CmdList).
  reflexivity.
Defined.

(** X13: the first command on a new store is lost.  When the database
    file is not there yet, or holds no relation, every run, whatever its
    command and flags, ends with the syntax error of the schema script: the
    command is not carried out (an add adds nothing), nothing is printed,
    and the file is left holding the relation habits without rows. *)
Theorem first_command_is_lost data_dir d database v g cmd :
  disk_files d !! store_path data_dir database = None
  \/ disk_files d !! store_path data_dir database = Some (DbFile []) ->
  let r := run data_dir d database v g cmd in
  run_exit r = Raise (OperationalError (Sqlite.SyntaxNear Sqlite.TLp))
  /\ run_stdout r = []
  /\ disk_files (run_disk r)
     = <[store_path data_dir database := DbFile [habits_table []]]> (disk_files d).
Proof.
  intros Hf r. subst r.
  destruct (main_fresh data_dir database v g cmd (boot d) eq_refl Hf) as (st' & E & Hf' & Ho').
  rewrite (run_of_main _ _ _ _ _ _ _ _ E).
  cbn [run_exit run_stdout run_disk disk_files]. auto.
Qed.

(** An add as the first command on an empty file system, with the default
    store. *)
Lemma first_command_is_lost_witness :
  let r := run "/data" (Disk ∅ ∅) None false false (CmdAdd "read" "desc" true false) in
  run_exit r = Raise (OperationalError (Sqlite.SyntaxNear Sqlite.TLp))
  /\ run_stdout r = []
  /\ disk_files (run_disk r) = <["/data/db.sqlite3" := DbFile [habits_table []]]> ∅.
Proof.
  apply (first_command_is_lost "/data" (Disk ∅ ∅) None false false
           (CmdAdd "read" "desc" true false)).
  left. reflexivity.
Defined.



(** X15: a new store works from the second run on.  On a database file
    that is not there yet or holds no relation, the first run ends with the
    error of the schema script whatever its command is; the run of add
    after it, with title and description plain texts (well-formed UTF-8, no
    double quote, no NUL), returns normally; and the run of list after that
    prints exactly the added habit. *)
Theorem new_store_works_from_second_run
        data_dir d database v0 g0 v1 g1 v2 g2 cmd0 t de r n :
  disk_files d !! store_path data_dir database = None
  \/ disk_files d !! store_path data_dir database = Some (DbFile []) ->
  plain_text t = true -> plain_text de = true ->
  let r0 := run data_dir d database v0 g0 cmd0 in
  let r1 := run data_dir (run_disk r0) database v1 g1 (CmdAdd t de r n) in
  let r2 := run data_dir (run_disk r1) database v2 g2 CmdList in
  run_exit r0 = Raise (OperationalError (Sqlite.SyntaxNear Sqlite.TLp))
  /\ run_exit r1 = Return tt
  /\ run_exit r2 = Return tt
  /\ run_stdout r2 = [PrintHabits [mkHabit t de r n]].
Proof.
  intros Hf Hpt Hpd r0 r1 r2.
  destruct (main_fresh data_dir database v0 g0 cmd0 (boot d) eq_refl Hf)
    as (st0 & E0 & Hf0 & _).
  pose proof (run_of_main _ _ _ _ _ _ _ _ E0) as R0. fold r0 in R0.
  assert (Hd0 : files (boot (run_disk r0)) !! store_path data_dir database
                = Some (DbFile [habits_table []]))
    by (rewrite R0; cbn [boot files run_disk disk_files]; rewrite Hf0; apply lookup_insert_eq).
  destruct (add_on_store data_dir database v1 g1 t de r n (boot (run_disk r0))
              [habits_table []] [] eq_refl Hd0 eq_refl Hpt Hpd eq_refl)
    as (st1 & E1 & Hf1 & _).
  pose proof (run_of_main _ _ _ _ _ _ _ _ E1) as R1. fold r1 in R1.
  assert (Hd1 : files (boot (run_disk r1)) !! store_path data_dir database
                = Some (DbFile [habits_table [habit_row t de r n]]))
    by (rewrite R1; cbn [boot files run_disk disk_files]; rewrite Hf1; apply lookup_insert_eq).
  destruct (list_on_store data_dir database v2 g2 (boot (run_disk r1))
              [habits_table [habit_row t de r n]] [habit_row t de r n] [mkHabit t de r n]
              eq_refl Hd1 eq_refl)
    as (st2 & E2 & _ & Ho2).
  { cbn [map habits_of]. rewrite from_values_habit_row. reflexivity. }
  pose proof (run_of_main _ _ _ _ _ _ _ _ E2) as R2. fold r2 in R2.
  rewrite R0, R1, R2. cbn [run_exit run_stdout]. rewrite Ho2. auto.
Qed.

(** The same add, twice from an empty file system, and the list. *)
Lemma new_store_works_from_second_run_witness :
  let r0 := run "/data" (Disk ∅ ∅) None false false (CmdAdd "read" "desc" true false) in
  let r1 := run "/data" (run_disk r0) None false false (CmdAdd "read" "desc" true false) in
  let r2 := run "/data" (run_disk r1) None false false CmdList in
  run_exit r0 = Raise (OperationalError (Sqlite.SyntaxNear Sqlite.TLp))
  /\ run_exit r1 = Return tt
  /\ run_exit r2 = Return tt
  /\ run_stdout r2 = [PrintHabits [mkHabit "read" "desc" true false]].
Proof.
  apply (new_store_works_from_second_run "/data" (Disk ∅ ∅) None false false false false
           false false (CmdAdd "read" "desc" true false) "read" "desc" true false).
  - left. reflexivity.
  - reflexivity.
  - reflexivity.
Defined.

(** X16: a store that holds relations but not habits, which
    [_check_database] accepts as it is, serves neither list nor add: the
    run of list, and the run of add with title and description plain texts
    (well-formed UTF-8, no double quote, no NUL), end with sqlite's error
    that there is no such table habits, print nothing and leave the files
    as they are. *)
Theorem foreign_store_is_unusable data_dir d database v g db t de r n cmd :
  disk_files d !! store_path data_dir database = Some (DbFile db) -> db <> [] ->
  Sqlite.find_table "habits" db = None ->
  plain_text t = true -> plain_text de = true ->
  cmd = CmdList \/ cmd = CmdAdd t de r n ->
  let res := run data_dir d database v g cmd in
  run_exit res = Raise (OperationalError (Sqlite.NoSuchTable "habits"))
  /\ run_stdout res = []
  /\ disk_files (run_disk res) = disk_files d.
Proof.
  intros Hf Hne Ht Hpt Hpd Hc res. subst res. unfold run.
  rewrite (main_on_store data_dir database v g _ (boot d) db eq_refl Hf Hne).
  destruct (prepared_store data_dir database v g (boot d)) as (Hf' & Hp' & Ho').
  assert (Hv : Sqlite.find_table "habits"
                 (view {| conn_path := store_path data_dir database |}
                       (checking (store_path data_dir database)
                                 (prepared data_dir database v g (boot d)))) = None).
  { rewrite (view_file _ _ db); [exact Ht| |].
    - unfold checking. rewrite pending_log_state, Hp'. reflexivity.
    - unfold checking. cbn [conn_path]. rewrite files_log_state, Hf'. exact Hf. }
  destruct Hc as [->| ->]; cbn [dispatch].
  - rewrite habits_list_view. cbn [connection settings_of]. rewrite Hv.
    cbn [run_exit run_stdout run_disk disk_files]. unfold checking.
    rewrite stdout_log_state, files_log_state, Ho', Hf'. auto.
  - rewrite (habit_add_without_relation
               (settings_of data_dir {| conn_path := store_path data_dir database |}
                            database v g)
               _ t de r n _ Hv (add_arguments_declared t de r n) Hpt Hpd).
    cbn [run_exit run_stdout run_disk disk_files]. unfold habit_add_logged, checking.
    rewrite !stdout_log_state, !files_log_state, Ho', Hf'. auto.
Qed.

(** The command list on the database with the one relation notes. *)
Lemma foreign_store_is_unusable_witness :
  let res := run "/data" notes_disk (Some "notes.db") false false CmdList in
  run_exit res = Raise (OperationalError (Sqlite.NoSuchTable "habits"))
  /\ run_stdout res = []
  /\ disk_files (run_disk res) = disk_files notes_disk.
Proof.
  apply (foreign_store_is_unusable "/data" notes_disk (Some "notes.db") false false
           notes_db "" "" false false CmdList).
  - reflexivity.
  - discriminate.
  - reflexivity.
  - reflexivity.
  - reflexivity.
  - left. reflexivity.
Defined.

(** X17: an INSERT given to exec is not kept.  [exec_sql] never commits:
    when the text, one that sqlite3 can encode, is one INSERT that sqlite
    carries out, the run returns normally and prints nothing, and the files
    it leaves are those it found; the row is gone with the process. *)
Theorem exec_insert_is_not_committed data_dir d database v g command s db db' rows :
  disk_files d !! store_path data_dir database = Some (DbFile db) -> db <> [] ->
  valid_utf8 command = true -> no_nul command = true ->
  Sqlite.parse_statement (Sqlite.lex command) = Sqlite.Ok (s, []) ->
  Sqlite.kind_of s = Sqlite.Dml ->
  Sqlite.exec_stmt db s = Sqlite.Ok (db', rows) ->
  let r := run data_dir d database v g (CmdExec command) in
  run_exit r = Return tt /\ run_stdout r = []
  /\ disk_files (run_disk r) = disk_files d.
Proof.
  intros Hf Hne Hu Hn Hp Hk He r. subst r. unfold run.
  rewrite (main_on_store data_dir database v g _ (boot d) db eq_refl Hf Hne).
  cbn [dispatch]. rewrite exec_sql_execute.
  unfold no_nul in Hn. apply negb_true_iff in Hn.
  rewrite (execute_statement _ _ s _ Hu Hn Hp).
  destruct (prepared_store data_dir database v g (boot d)) as (Hf' & Hp' & Ho').
  cbn [connection settings_of].
  rewrite (view_file _ _ db);
    [|unfold checking; rewrite pending_log_state, Hp'; reflexivity
     |unfold checking; cbn [conn_path]; rewrite files_log_state, Hf'; exact Hf].
  rewrite He, Hk.
  destruct s; try discriminate Hk. cbn [Sqlite.exec_stmt] in He.
  destruct (Sqlite.exec_insert db name cols rows0); try discriminate He.
  cbn in He. injection He as _ <-.
  cbn [map apply_change run_exit run_stdout run_disk disk_files stdout files set_pending].
  unfold checking. rewrite stdout_log_state, files_log_state, Ho', Hf'. auto.
Qed.

(** A second habit, inserted through exec on the store with one. *)
Lemma exec_insert_is_not_committed_witness :
  let r := run "/data" one_habit_disk (Some "db.sqlite3") false false
               (CmdExec "INSERT INTO habits VALUES ('run', '5 km', 'True', 'False')") in
  run_exit r = Return tt /\ run_stdout r = []
  /\ disk_files (run_disk r) = disk_files one_habit_disk.
Proof.
  eapply (exec_insert_is_not_committed "/data" one_habit_disk (Some "db.sqlite3") false false
            "INSERT INTO habits VALUES ('run', '5 km', 'True', 'False')").
  - reflexivity.
  - discriminate.
  - reflexivity.
  - reflexivity.
  - reflexivity.
  - reflexivity.
  - reflexivity.
Defined.

(** X18: a CREATE TABLE given to exec is kept.  Outside a transaction
    sqlite carries it out at once: when the text, one that sqlite3 can
    encode, is one CREATE TABLE that sqlite accepts, the run returns
    normally, prints nothing, and leaves the database with the new relation
    in the file. *)
Theorem exec_create_is_kept data_dir d database v g command s db db' rows :
  disk_files d !! store_path data_dir database = Some (DbFile db) -> db <> [] ->
  valid_utf8 command = true -> no_nul command = true ->
  Sqlite.parse_statement (Sqlite.lex command) = Sqlite.Ok (s, []) ->
  Sqlite.kind_of s = Sqlite.Ddl ->
  Sqlite.exec_stmt db s = Sqlite.Ok (db', rows) ->
  let r := run data_dir d database v g (CmdExec command) in
  run_exit r = Return tt /\ run_stdout r = []
  /\ disk_files (run_disk r) = <[store_path data_dir database := DbFile db']> (disk_files d).
Proof.
  intros Hf Hne Hu Hn Hp Hk He r. subst r. unfold run.
  rewrite (main_on_store data_dir database v g _ (boot d) db eq_refl Hf Hne).
  cbn [dispatch]. rewrite exec_sql_execute.
  unfold no_nul in Hn. apply negb_true_iff in Hn.
  rewrite (execute_statement _ _ s _ Hu Hn Hp).
  destruct (prepared_store data_dir database v g (boot d)) as (Hf' & Hp' & Ho').
  cbn [connection settings_of].
  assert (Hpc : pending (checking (store_path data_dir database)
                                  (prepared data_dir database v g (boot d))) = None)
    by (unfold checking; rewrite pending_log_state, Hp'; reflexivity).
  rewrite (view_file _ _ db);
    [|exact Hpc
     |unfold checking; cbn [conn_path]; rewrite files_log_state, Hf'; exact Hf].
  rewrite He, Hk.
  destruct s; try discriminate Hk. cbn [Sqlite.exec_stmt] in He.
  destruct (Sqlite.exec_create db name cols uniques); try discriminate He.
  cbn in He. injection He as <- <-.
  cbn [map apply_change]. rewrite Hpc.
  cbn [run_exit run_stdout run_disk disk_files stdout files set_files conn_path].
  unfold checking. rewrite stdout_log_state, files_log_state, Ho', Hf'. auto.
Qed.

(** A relation notes, created through exec beside habits. *)
Lemma exec_create_is_kept_witness :
  let r := run "/data" one_habit_disk (Some "db.sqlite3") false false
               (CmdExec "CREATE TABLE notes (body text)") in
  run_exit r = Return tt /\ run_stdout r = []
  /\ disk_files (run_disk r)
     = <["db.sqlite3" := DbFile [habits_table [habit_row "read" "desc" true false];
                                 Sqlite.Table "notes" [Sqlite.Column "body" ["text"] false] [] []]]>
         (disk_files one_habit_disk).
Proof.
  eapply (exec_create_is_kept "/data" one_habit_disk (Some "db.sqlite3") false false
            "CREATE TABLE notes (body text)").
  - reflexivity.
  - discriminate.
  - reflexivity.
  - reflexivity.
  - reflexivity.
  - reflexivity.
  - reflexivity.
Defined.

(** The command [add] with plain texts and a title the store holds, as a
    whole. *)
Lemma add_again_on_store data_dir database v g t de r n st db rows :
  pending st = None ->
  files st !! store_path data_dir database = Some (DbFile db) ->
  Sqlite.find_table "habits" db = Some (habits_table rows) ->
  plain_text t = true -> plain_text de = true -> has_title t rows = true ->
  exists st',
    main data_dir database v g (CmdAdd t de r n) st
    = (st', Raise (IntegrityError (Sqlite.UniqueFailed "habits" ["title"])))
    /\ files st' = files st
    /\ stdout st' = stdout st.
Proof.
  intros Hp Hf Ht Hpt Hpd Hn.
  rewrite (main_on_store data_dir database v g _ st db Hp Hf (find_table_nonempty _ _ _ Ht)).
  cbn [dispatch].
  pose proof (stored_ready data_dir database v g st db rows Hp Hf Ht) as Hs.
  destruct (prepared_store data_dir database v g st) as (Hf' & Hp' & Ho').
  rewrite (habit_add_plain_text
             (settings_of data_dir {| conn_path := store_path data_dir database |}
                          database v g)
             _ t de r n _ rows (add_arguments_declared t de r n) Hpt Hpd Hs).
  cbn zeta. rewrite Hn. eexists. split; [reflexivity|].
  destruct (begin_state_frame
              {| conn_path := store_path data_dir database |}
              (habit_add_logged (add_kwargs t de r n)
                 (checking (store_path data_dir database)
                           (prepared data_dir database v g st))))
    as (Hbf & _ & Hbo & _).
  cbn [connection settings_of]. rewrite Hbf, Hbo.
  unfold habit_add_logged, checking.
  rewrite !files_log_state, !stdout_log_state, Hf', Ho'. auto.
Qed.

Lemma has_title_app t rows rows' :
  has_title t (rows ++ rows') = has_title t rows || has_title t rows'.
Proof. unfold has_title. apply existsb_app. Qed.

Lemma has_title_habit_row t d r n : has_title t [habit_row t d r n] = true.
Proof. unfold has_title. cbn. rewrite String.eqb_refl. reflexivity. Qed.

(** X22: the same title twice.  On a store that holds the relation habits
    without the title, the run that adds it, title and description plain
    texts (well-formed UTF-8, no double quote, no NUL), returns normally; a
    later run that adds the same title again, whatever its plain
    description, its booleans and its flags, ends with sqlite3's
    IntegrityError for the UNIQUE constraint on habits.title, prints nothing
    and leaves the files as the first run left them. *)
Theorem same_title_twice data_dir d database v1 g1 v2 g2 t de r n de' r' n' db rows :
  disk_files d !! store_path data_dir database = Some (DbFile db) ->
  Sqlite.find_table "habits" db = Some (habits_table rows) ->
  plain_text t = true -> plain_text de = true -> plain_text de' = true ->
  has_title t rows = false ->
  let r1 := run data_dir d database v1 g1 (CmdAdd t de r n) in
  let r2 := run data_dir (run_disk r1) database v2 g2 (CmdAdd t de' r' n') in
  run_exit r1 = Return tt
  /\ run_exit r2 = Raise (IntegrityError (Sqlite.UniqueFailed "habits" ["title"]))
  /\ run_stdout r2 = []
  /\ disk_files (run_disk r2) = disk_files (run_disk r1).
Proof.
  intros Hf Ht Hpt Hpd Hpd' Hn r1 r2.
  destruct (add_on_store data_dir database v1 g1 t de r n (boot d) db rows
              eq_refl Hf Ht Hpt Hpd Hn) as (st1 & E1 & Hf1 & Ho1).
  pose proof (run_of_main _ _ _ _ _ _ _ _ E1) as R1. fold r1 in R1.
  set (db1 := Sqlite.replace_table (habits_table (rows ++ [habit_row t de r n])) db) in *.
  assert (Hd1 : files (boot (run_disk r1)) !! store_path data_dir database
                = Some (DbFile db1))
    by (rewrite R1; cbn [boot files run_disk disk_files]; rewrite Hf1; apply lookup_insert_eq).
  assert (Ht1 : Sqlite.find_table "habits" db1
                = Some (habits_table (rows ++ [habit_row t de r n])))
    by (apply (find_replace_habits _ rows), Ht).
  destruct (add_again_on_store data_dir database v2 g2 t de' r' n' (boot (run_disk r1)) db1
              (rows ++ [habit_row t de r n]) eq_refl Hd1 Ht1 Hpt Hpd')
    as (st2 & E2 & Hf2 & Ho2).
  { rewrite has_title_app, has_title_habit_row. apply orb_true_r. }
  pose proof (run_of_main _ _ _ _ _ _ _ _ E2) as R2. fold r2 in R2.
  rewrite R2. cbn [run_exit run_stdout run_disk disk_files].
  rewrite Ho2, Hf2. rewrite R1. cbn [run_exit]. auto.
Qed.

(** The title run, twice on the store with the habit read. *)
Lemma same_title_twice_witness :
  let r1 := run "/data" one_habit_disk (Some "db.sqlite3") false false
                (CmdAdd "run" "5 km" true false) in
  let r2 := run "/data" (run_disk r1) (Some "db.sqlite3") false false
                (CmdAdd "run" "10 km" false true) in
  run_exit r1 = Return tt
  /\ run_exit r2 = Raise (IntegrityError (Sqlite.UniqueFailed "habits" ["title"]))
  /\ run_stdout r2 = []
  /\ disk_files (run_disk r2) = disk_files (run_disk r1).
Proof.
  apply (same_title_twice "/data" one_habit_disk (Some "db.sqlite3") false false false false
           "run" "5 km" true false "10 km" false true
           [habits_table [habit_row "read" "desc" true false]]
           [habit_row "read" "desc" true false]);
    reflexivity.
Defined.

(* ===================================================================== *)
(** ** What the store operations leave alone *)
(* ===================================================================== *)

Section StoreOnly.

Lemma same_outside_refl s : same_outside s s.
Proof. repeat split. Qed.

Lemma same_outside_trans s1 s2 s3 :
  same_outside s1 s2 -> same_outside s2 s3 -> same_outside s1 s3.
Proof. unfold same_outside. intuition congruence. Qed.

Lemma store_only_ret {A : Type} (a : A) : store_only (mret a).
Proof. intros s. apply same_outside_refl. Qed.

Lemma store_only_raise {A : Type} (e : exception) : store_only (@raise A e).
Proof. intros s. apply same_outside_refl. Qed.

Lemma store_only_bind {A B : Type} (m : M A) (k : A -> M B) :
  store_only m -> (forall a, store_only (k a)) -> store_only (m ≫= k).
Proof.
  intros Hm Hk s. specialize (Hm s). monad.
  destruct (m s) as [s' [a|e|]]; cbn [fst] in *; [|exact Hm|exact Hm].
  eapply same_outside_trans; [exact Hm|apply Hk].
Qed.

Lemma same_outside_apply_change con k db s : same_outside s (apply_change con k db s).
Proof.
  destruct k; cbn [apply_change]; [apply same_outside_refl|repeat split|].
  destruct (pending s); repeat split.
Qed.

Lemma store_only_connect path : store_only (connect path).
Proof.
  intros s. unfold connect. destruct (files s !! path) as [[|db]|]; repeat split.
Qed.

Lemma store_only_execute con sql : store_only (execute con sql).
Proof.
  intros s.
  destruct (execute_cases con sql s) as [(st & db' & rows & _ & _ & E)|[[e [E|E]]|E]];
    rewrite E; cbn [fst];
    [apply same_outside_apply_change|apply same_outside_refl| |apply same_outside_refl].
  unfold begin_state. destruct (pending s); repeat split.
Qed.

Lemma store_only_commit con : store_only (commit con).
Proof.
  intros s. unfold commit. monad. cbn [fst]. destruct (pending s); repeat split.
Qed.

Lemma store_only_executescript con script : store_only (executescript con script).
Proof.
  unfold executescript.
  destruct (valid_utf8 script); [|apply store_only_raise]. cbn [negb].
  destruct (string_exists (Ascii.eqb nul) script); [apply store_only_raise|].
  apply store_only_bind; [apply store_only_commit|]. intros _.
  intros s. monad.
  destruct (Sqlite.run_script _ _ _) as [[db' [e|]]|]; repeat split.
Qed.

Lemma store_only_rich_print p : store_only (rich_print p).
Proof. intros s. repeat split. Qed.

Lemma store_only_lift_py {A : Type} (r : exception + A) : store_only (lift_py r).
Proof. destruct r; [apply store_only_raise|apply store_only_ret]. Qed.

End StoreOnly.

(** A property of the state that hangs on nothing but the directories, the
    logging configuration and the diagnostic stream, and that the records
    of the levels INFO and DEBUG keep, is kept by every function of the
    program after the preparation. *)
Section Invariant.

Variable I : state -> Prop.
Hypothesis I_outside : forall s s', same_outside s s' -> I s -> I s'.
Hypothesis I_log :
  forall lvl msg args s, lvl <> WARNING -> I s -> I (log_state lvl msg args s).

Lemma keeps_store_only {A : Type} (m : M A) : store_only m -> keeps I m.
Proof. intros H s Hs. exact (I_outside _ _ (H s) Hs). Qed.

Lemma keeps_bind {A B : Type} (m : M A) (k : A -> M B) :
  keeps I m -> (forall a, keeps I (k a)) -> keeps I (m ≫= k).
Proof.
  intros Hm Hk s Hs. specialize (Hm s Hs). monad.
  destruct (m s) as [s' [a|e|]]; cbn [fst] in *; [|exact Hm|exact Hm].
  apply Hk, Hm.
Qed.

Lemma keeps_ret {A : Type} (a : A) : keeps I (mret a).
Proof. intros s Hs. exact Hs. Qed.

Lemma keeps_info msg args : keeps I (logger_info msg args).
Proof. intros s Hs. apply I_log; [discriminate|exact Hs]. Qed.

Lemma keeps_debug msg args : keeps I (logger_debug msg args).
Proof. intros s Hs. apply I_log; [discriminate|exact Hs]. Qed.

Lemma keeps_create_tables con : keeps I (create_tables con).
Proof.
  unfold create_tables.
  apply keeps_bind; [apply keeps_info|]. intros _.
  apply keeps_bind; [apply keeps_store_only, store_only_executescript|]. intros _.
  apply keeps_store_only, store_only_commit.
Qed.

Lemma keeps_check_database path : keeps I (_check_database path).
Proof.
  unfold _check_database.
  apply keeps_bind; [apply keeps_info|]. intros _.
  apply keeps_bind; [apply keeps_store_only, store_only_connect|]. intros con.
  apply keeps_bind; [apply keeps_store_only, store_only_execute|]. intros tables.
  apply keeps_bind; [|intros _; apply keeps_ret].
  destruct tables; [apply keeps_create_tables|apply keeps_ret].
Qed.

Lemma keeps_habit_add ctx kwargs : keeps I (habit_add ctx kwargs).
Proof.
  unfold habit_add.
  apply keeps_bind; [apply keeps_debug|]. intros _.
  apply keeps_bind; [apply keeps_debug|]. intros _.
  apply keeps_bind; [apply keeps_store_only, store_only_execute|]. intros _.
  apply keeps_store_only, store_only_commit.
Qed.

Lemma keeps_habits_list ctx : keeps I (habits_list ctx).
Proof.
  unfold habits_list.
  apply keeps_bind; [apply keeps_store_only, store_only_execute|]. intros rows.
  apply keeps_bind; [apply keeps_store_only, store_only_lift_py|]. intros hs.
  apply keeps_store_only, store_only_rich_print.
Qed.

Lemma keeps_exec_sql ctx command : keeps I (exec_sql ctx command).
Proof.
  unfold exec_sql.
  apply keeps_bind; [apply keeps_store_only, store_only_execute|]. intros rows.
  destruct rows; [apply keeps_ret|apply keeps_store_only, store_only_rich_print].
Qed.

Lemma keeps_dispatch ctx cmd : keeps I (dispatch ctx cmd).
Proof.
  destruct cmd; [apply keeps_habit_add|apply keeps_habits_list|apply keeps_exec_sql].
Qed.

Lemma main_keeps data_dir database v g cmd st :
  I (prepared data_dir database v g st) -> I (main data_dir database v g cmd st).1.
Proof.
  intros H. rewrite main_steps.
  pose proof (keeps_check_database (store_path data_dir database) _ H) as H1.
  destruct (_check_database _ _) as [st3 [con|e|]]; cbn [fst] in H1; [|exact H1|exact H1].
  apply keeps_dispatch, H1.
Qed.

End Invariant.

(** X19: the data directory.  A run on the default store ([--database]
    missing or empty) leaves the data directory in place beside the
    directories that were there; a run with another [--database] leaves
    the directories exactly as they were.  This holds for every command
    and however the run ends. *)
Theorem data_directory_is_made data_dir d database v g cmd :
  disk_dirs (run_disk (run data_dir d database v g cmd))
  = if default_store database then {[data_dir]} ∪ disk_dirs d else disk_dirs d.
Proof.
  unfold run.
  pose proof (main_keeps
                (fun s => dirs s = dirs (prepared data_dir database v g (boot d)))) as H.
  specialize (H ltac:(intros s s' (Hd & _) Hs; congruence)
                ltac:(intros lvl msg args s _ Hs; cbn beta; rewrite dirs_log_state; exact Hs)
                data_dir database v g cmd (boot d) eq_refl).
  destruct (main data_dir database v g cmd (boot d)) as [st o].
  cbn [fst run_disk disk_dirs] in *. rewrite H. apply prepared_dirs.
Qed.

(* ===================================================================== *)
(** ** The flags and the diagnostic stream *)
(* ===================================================================== *)

Lemma quiet_outside s s' : same_outside s s' -> quiet s -> quiet s'.
Proof. unfold same_outside, quiet. intuition congruence. Qed.

Lemma quiet_log lvl msg args s :
  lvl <> WARNING -> quiet s -> quiet (log_state lvl msg args s).
Proof.
  intros Hl (H1 & H2 & H3 & H4). unfold log_state. rewrite H1, H2, H3.
  destruct lvl; [| |congruence]; cbn; repeat split; assumption.
Qed.

Lemma informative_outside s s' : same_outside s s' -> informative s -> informative s'.
Proof.
  unfold same_outside, informative. intros (_ & H1 & _ & _ & H2) [H3 H4].
  rewrite <- H1, <- H2. auto.
Qed.

Lemma informative_log lvl msg args s :
  lvl <> WARNING -> informative s -> informative (log_state lvl msg args s).
Proof.
  intros Hl [H1 H2]. unfold log_state. rewrite H1.
  destruct lvl; [| |congruence]; cbn [default level_no].
  - split; assumption.
  - destruct (_ && _); [|split; assumption].
    split; [exact H1|]. cbn [stderr add_stderr]. apply Forall_app. split; [exact H2|].
    repeat constructor.
Qed.

Lemma debugging_outside s s' : same_outside s s' -> debugging s -> debugging s'.
Proof. unfold same_outside, debugging. intuition congruence. Qed.

Lemma debugging_log lvl msg args s :
  lvl <> WARNING -> debugging s -> debugging (log_state lvl msg args s).
Proof.
  intros _ [H1 H2]. unfold log_state. destruct (_ && _); split; assumption.
Qed.

Lemma check_dir_state directory s :
  (_check_dir directory s).1
  = (if bool_decide (directory ∈ dirs (log_state INFO "Checking database directory '%s'."
                                                  [ArgStr directory] s))
     then log_state INFO "Checking database directory '%s'." [ArgStr directory] s
     else set_dirs (union {[directory]})
                   (log_state INFO "Checking database directory '%s'." [ArgStr directory] s)).
Proof. reflexivity. Qed.

(** X20: the flags decide what is logged.  Without [--verbose] and
    [--debug] a run writes no log record at all, whatever the command and
    however it ends; without [--debug] every record a run writes has the
    level INFO, so the statement that add builds, logged at DEBUG, is not
    shown. *)
Theorem diagnostics_follow_flags data_dir d database v cmd :
  run_stderr (run data_dir d database false false cmd) = []
  /\ Forall (fun rec => rec_level rec = INFO)
            (run_stderr (run data_dir d database v false cmd)).
Proof.
  assert (Hq : run_stderr (run data_dir d database false false cmd) = []).
  { unfold run.
    pose proof (main_keeps quiet quiet_outside quiet_log data_dir database false false cmd
                           (boot d)) as H.
    destruct (main data_dir database false false cmd (boot d)) as [st o].
    cbn [fst run_stderr] in *. apply H. unfold prepared.
    assert (Hb : quiet (boot d)) by (repeat split).
    change (configure database false false (boot d)).1 with (boot d).
    destruct (default_store database); [|exact Hb].
    rewrite check_dir_state.
    pose proof (quiet_log INFO "Checking database directory '%s'." [ArgStr data_dir]
                          (boot d) ltac:(discriminate) Hb) as Hl.
    destruct (bool_decide _); [exact Hl|exact Hl]. }
  split; [exact Hq|].
  destruct v; [|rewrite Hq; constructor].
  unfold run.
  pose proof (main_keeps informative informative_outside informative_log
                         data_dir database true false cmd (boot d)) as H.
  destruct (main data_dir database true false cmd (boot d)) as [st o].
  cbn [fst run_stderr] in *. apply H. unfold prepared.
  assert (Hb : informative (configure database true false (boot d)).1)
    by (split; [reflexivity|repeat constructor]).
  destruct (default_store database); [|exact Hb].
  rewrite check_dir_state.
  pose proof (informative_log INFO "Checking database directory '%s'." [ArgStr data_dir]
                              _ ltac:(discriminate) Hb) as Hl.
  destruct (bool_decide _); [exact Hl|exact Hl].
Qed.

Lemma debugging_configure database v st : debugging (configure database v true st).1.
Proof.
  unfold configure. rewrite orb_true_r.
  unfold _logging, logging_info, logging_basicConfig. monad. cbn [fst].
  destruct (root_handler st) eqn:E; cbn; rewrite ?E; cbn.
  - destruct (_ <=? _); split; reflexivity.
  - split; reflexivity.
Qed.

Lemma debugging_prepared data_dir database v st :
  debugging (prepared data_dir database v true st).
Proof.
  unfold prepared. pose proof (debugging_configure database v st) as Hb.
  destruct (default_store database); [|exact Hb].
  rewrite check_dir_state.
  pose proof (debugging_log INFO "Checking database directory '%s'." [ArgStr data_dir]
                            _ ltac:(discriminate) Hb) as Hl.
  destruct (bool_decide _); [exact Hl|exact Hl].
Qed.

(** With the logger at DEBUG, [habit_add] writes its two records, however
    it ends. *)
Lemma habit_add_stderr ctx kwargs st :
  debugging st ->
  stderr (habit_add ctx kwargs st).1
  = stderr st ++ [LogRecord DEBUG "Adding habit: '%s'" [ArgDict kwargs];
                  LogRecord DEBUG (insert_statement kwargs) []].
Proof.
  intros [H1 H2].
  assert (Hs : store_only (execute (connection ctx) (insert_statement kwargs);;
                           commit (connection ctx))).
  { apply store_only_bind; [apply store_only_execute|]. intros _. apply store_only_commit. }
  specialize (Hs (habit_add_logged kwargs st)). destruct Hs as (_ & _ & _ & _ & Hs).
  assert (E : habit_add ctx kwargs st
              = (execute (connection ctx) (insert_statement kwargs);;
                 commit (connection ctx)) (habit_add_logged kwargs st))
    by reflexivity.
  rewrite E, <- Hs. unfold habit_add_logged, log_state.
  rewrite H1, H2. cbn. rewrite H1, H2. cbn. rewrite <- app_assoc. reflexivity.
Qed.

(** X21: with [--debug] the statement is shown.  On a store that holds a
    relation, a run of add with [--debug] ends its log with two DEBUG
    records: the keyword arguments, and the text of the INSERT statement as
    it is given to sqlite, with the values in it.  This holds for every
    title and description, also when the statement fails. *)
Theorem debug_shows_the_statement data_dir d database v t de r n db :
  disk_files d !! store_path data_dir database = Some (DbFile db) -> db <> [] ->
  exists recs,
    run_stderr (run data_dir d database v true (CmdAdd t de r n))
    = recs ++ [LogRecord DEBUG "Adding habit: '%s'" [ArgDict (add_kwargs t de r n)];
               LogRecord DEBUG (insert_statement (add_kwargs t de r n)) []].
Proof.
  intros Hf Hne. unfold run.
  rewrite (main_on_store data_dir database v true _ (boot d) db eq_refl Hf Hne).
  cbn [dispatch].
  pose proof (habit_add_stderr
                (settings_of data_dir {| conn_path := store_path data_dir database |}
                             database v true)
                (add_kwargs t de r n)
                (checking (store_path data_dir database)
                          (prepared data_dir database v true (boot d)))) as H.
  destruct (habit_add _ _ _) as [st o]. cbn [fst run_stderr] in *.
  eexists. apply H. apply debugging_log; [discriminate|]. apply debugging_prepared.
Qed.

(** The add with a double quote in the title: the statement that fails is
    in the log. *)
Lemma debug_shows_the_statement_witness :
  exists recs,
    run_stderr (run "/data" one_habit_disk (Some "db.sqlite3") false true
                    (CmdAdd a_quote_b "desc" true false))
    = recs ++ [LogRecord DEBUG "Adding habit: '%s'"
                         [ArgDict (add_kwargs a_quote_b "desc" true false)];
               LogRecord DEBUG (insert_statement (add_kwargs a_quote_b "desc" true false)) []].
Proof.
  apply (debug_shows_the_statement "/data" one_habit_disk (Some "db.sqlite3") false
           a_quote_b "desc" true false
           [habits_table [habit_row "read" "desc" true false]]).
  - reflexivity.
  - discriminate.
Defined.
